(** * Negative Visualization Journal: the local data layer

    Shallow embedding of the streak engine ([dbUtils] in
    [src/lib/database.ts]), the prompt scheduler ([promptUtils]), the PIN
    hashing utilities ([cryptoUtils]), the export path and the telemetry
    milestone triggers ([TelemetryService]).

    Conventions of the model.
    - A JavaScript clock instant is its epoch time in milliseconds (a Z) and
      [getTimezoneOffset()] is a number of minutes (UTC minus local time); the
      zone is taken to have a fixed offset at the instants involved.
    - A calendar date stored as a [YYYY-MM-DD] string is represented by its
      day number (days since 1970-01-01).  The strings the code compares with
      [===] are canonical renderings of days, so string equality is equality
      of day numbers; [fmtDay] renders a day number back to the string.
    - Store reads and writes of IndexedDB are modelled as total functions on
      an explicit store value; reads that can throw are modelled by an
      explicit outcome type where a property depends on it. *)

From Stdlib Require Import ZArith List String Ascii Bool Lia.
From Stdlib Require Import Sorting.Permutation Sorting.Sorted.
From Stdlib Require Import Strings.Byte.
Import ListNotations.
Open Scope Z_scope.
Open Scope string_scope.

(* ------------------------------------------------------------------ *)
(** ** Decimal rendering and the calendar *)

Fixpoint zdigits (fuel : nat) (z : Z) (acc : string) : string :=
  match fuel with
  | O => acc
  | S f =>
      let acc' := String (ascii_of_nat (48 + Z.to_nat (z mod 10))%nat) acc in
      if Z.ltb z 10 then acc' else zdigits f (z / 10) acc'
  end.

(** [String(n)] / [n + ''] for an integral number. *)
Definition numberToString (z : Z) : string :=
  if Z.ltb z 0 then "-" ++ zdigits 64 (- z) "" else zdigits 64 z "".

(** [s.padStart(2, '0')]. *)
Definition padStart2 (s : string) : string :=
  match String.length s with
  | O => "00"
  | 1%nat => "0" ++ s
  | _ => s
  end.

Definition msPerDay : Z := 86400000.

(** Proleptic Gregorian calendar date of a day number, as JavaScript's
    [Date] computes it: (year, month 1..12, day of month 1..31). *)
Definition civilFromDays (days : Z) : Z * Z * Z :=
  let z := days + 719468 in
  let era := z / 146097 in
  let doe := z - era * 146097 in
  let yoe := (doe - doe / 1460 + doe / 36524 - doe / 146096) / 365 in
  let y := yoe + era * 400 in
  let doy := doe - (365 * yoe + yoe / 4 - yoe / 100) in
  let mp := (5 * doy + 2) / 153 in
  let d := doy - (153 * mp + 2) / 5 + 1 in
  let m := if Z.ltb mp 10 then mp + 3 else mp - 9 in
  (if Z.leb m 2 then y + 1 else y, m, d).

(** A JavaScript [Date] value seen through its local accessors. *)
Record Clock := mkClock { now_ms : Z; tz_offset : Z }.

(** Local day number of instant [t] in a zone with offset [off]: the day that
    [getFullYear()/getMonth()/getDate()] describe. *)
Definition localDayOf (t off : Z) : Z := (t - off * 60000) / msPerDay.

(** UTC day number of instant [t]: the day [toISOString().split('T')[0]]
    describes. *)
Definition utcDayOf (t : Z) : Z := t / msPerDay.

(** [y + '-' + String(m).padStart(2,'0') + '-' + String(d).padStart(2,'0')]. *)
Definition fmtYMD (ymd : Z * Z * Z) : string :=
  let '(y, m, d) := ymd in
  numberToString y ++ "-" ++ padStart2 (numberToString m) ++ "-"
    ++ padStart2 (numberToString d).

Definition fmtDay (day : Z) : string := fmtYMD (civilFromDays day).

(** [promptUtils.getTodayString] (and the same formula in [canSwapToday]):
    the local date of the current instant. *)
Definition getTodayString (c : Clock) : string :=
  fmtDay (localDayOf (now_ms c) (tz_offset c)).

(** The local calendar day of the clock, as a day number. *)
Definition todayDay (c : Clock) : Z := localDayOf (now_ms c) (tz_offset c).

(** [dbUtils.getTodayLocal]: builds
    [localDate = new Date(now.getTime() - now.getTimezoneOffset() * 60000)]
    and then reads [localDate]'s local fields. *)
Definition getTodayLocalDay (c : Clock) : Z :=
  let localDate := now_ms c - tz_offset c * 60000 in
  localDayOf localDate (tz_offset c).

Definition getTodayLocal (c : Clock) : string := fmtDay (getTodayLocalDay c).

(** [toISOString()] of an instant (years 0..9999). *)
Definition pad3 (s : string) : string :=
  match String.length s with
  | O => "000"
  | 1%nat => "00" ++ s
  | 2%nat => "0" ++ s
  | _ => s
  end.

Definition toISOString (t : Z) : string :=
  let ms := t mod msPerDay in
  fmtDay (utcDayOf t) ++ "T"
    ++ padStart2 (numberToString (ms / 3600000)) ++ ":"
    ++ padStart2 (numberToString ((ms / 60000) mod 60)) ++ ":"
    ++ padStart2 (numberToString ((ms / 1000) mod 60)) ++ "."
    ++ pad3 (numberToString (ms mod 1000)) ++ "Z".

(* ------------------------------------------------------------------ *)
(** ** Data model ([src/lib/database.ts]) *)

Inductive Theme := Light | Dark | System.
Inductive PromptSource := Seed | User.

Record Settings := mkSettings {
  set_id : string;
  pinSalt : option string;
  pinIterations : option Z;
  pinHash : option string;
  lockTimeoutMinutes : Z;
  dailyCueTime : option string;
  dailyCueEnabled : bool;
  notificationsEnabled : bool;
  telemetryOptIn : bool;
  telemetryAnonId : option string;
  telemetryActivationSent : option bool;
  telemetryConsecutiveDays : option Z;
  telemetryLastCompletionDate : option Z;
  telemetryD7EventSent : option bool;
  swapUsedDate : option Z;
  lastPromptDate : option Z;
  lastPromptId : option string;
  installAt : string;
  currentTheme : Theme
}.

Record Prompt := mkPrompt {
  p_id : string;
  text : string;
  gratitude_prompt : option string;
  archived : bool;
  p_created_at : string;
  source : PromptSource
}.

Record Entry := mkEntry {
  e_id : string;
  dateLocal : Z;
  prompt_id : string;
  setback : string;
  protective_step : string;
  gratitude : string;
  created_at : string;
  edited_at : option string;
  duration_seconds : option Z
}.

Record StreakSummary := mkStreak {
  s_id : string;
  start_date : string;
  current_streak : Z;
  longest_streak : Z;
  last_entry_date : option Z
}.

(** The four tables; [settings] and [streakSummary] only ever hold the row
    with id ['main'], so they are modelled as an optional row. *)
Record Store := mkStore {
  st_settings : option Settings;
  st_prompts : list Prompt;
  st_entries : list Entry;
  st_streak : option StreakSummary
}.

Definition setStreak (s : StreakSummary) (st : Store) : Store :=
  mkStore (st_settings st) (st_prompts st) (st_entries st) (Some s).

Definition setSettings (s : Settings) (st : Store) : Store :=
  mkStore (Some s) (st_prompts st) (st_entries st) (st_streak st).

(** [db.entries.add(entry)]: a row whose primary key [id] is already in the
    table is refused with a [ConstraintError] ([None]); otherwise the row is
    appended. *)
Definition addEntry (e : Entry) (st : Store) : option Store :=
  if existsb (fun x => String.eqb (e_id x) (e_id e)) (st_entries st) then None
  else Some (mkStore (st_settings st) (st_prompts st) (st_entries st ++ [e])%list
                     (st_streak st)).

(** [db.entries.put(entry)]: replaces the row with the same id, or appends. *)
Definition putEntry (e : Entry) (st : Store) : Store :=
  let es := st_entries st in
  let es' := if existsb (fun x => String.eqb (e_id x) (e_id e)) es
             then map (fun x => if String.eqb (e_id x) (e_id e) then e else x) es
             else (es ++ [e])%list in
  mkStore (st_settings st) (st_prompts st) es' (st_streak st).

(** [db.entries.where('dateLocal').equals(d).count()]. *)
Definition countEntriesOn (d : Z) (es : list Entry) : Z :=
  Z.of_nat (List.length (filter (fun e => Z.eqb (dateLocal e) d) es)).

(* ------------------------------------------------------------------ *)
(** ** Streak engine *)

Definition freshStreak (now : Z) : StreakSummary :=
  mkStreak "main" (toISOString now) 0 0 None.

(** [dbUtils.initializeStreakSummary]. *)
Definition initializeStreakSummary (c : Clock) (st : Store)
  : StreakSummary * Store :=
  match st_streak st with
  | Some s => (s, st)
  | None => let s := freshStreak (now_ms c) in (s, setStreak s st)
  end.

Record StreakResult := mkStreakResult {
  updated : bool;
  isFirstToday : bool;
  streakData : StreakSummary
}.

(** [dbUtils.updateStreak(entryDate)]; [c] is the device clock at the call. *)
Definition updateStreak (entryDate : Z) (c : Clock) (st : Store)
  : StreakResult * Store :=
  let '(streak, st1) := initializeStreakSummary c st in
  let yesterdayLocal := todayDay c - 1 in
  let existingEntryToday := countEntriesOn entryDate (st_entries st1) in
  let firstToday := Z.eqb existingEntryToday 1 in
  if negb firstToday then (mkStreakResult false false streak, st1) else
  let s1 :=
    match last_entry_date streak with
    | None =>
        mkStreak (s_id streak) (toISOString (now_ms c)) 1 1 None
    | Some l =>
        if Z.eqb l yesterdayLocal then
          let cur := current_streak streak + 1 in
          mkStreak (s_id streak) (start_date streak) cur
                   (Z.max (longest_streak streak) cur) (last_entry_date streak)
        else if negb (Z.eqb l entryDate) then
          mkStreak (s_id streak) (toISOString (now_ms c)) 1
                   (longest_streak streak) (last_entry_date streak)
        else streak
    end in
  let s2 := mkStreak (s_id s1) (start_date s1) (current_streak s1)
                     (longest_streak s1) (Some entryDate) in
  (mkStreakResult true true s2, setStreak s2 st1).

(** The new-entry branch of [PromptEntry.handleSave]: the row
    [{id: `entry-${Date.now()}`, dateLocal: today, ...}] with
    [today = dbUtils.getTodayLocal()], stored by [db.entries.add] and followed
    by [dbUtils.updateStreak(today)].  A refused add throws into the [catch]
    of [handleSave], which changes nothing ([None]). *)
Definition newEntryAt (c : Clock) (promptId : string) : Entry :=
  mkEntry ("entry-" ++ numberToString (now_ms c)) (getTodayLocalDay c) promptId
          "setback" "step" "gratitude" (toISOString (now_ms c)) None None.

Definition saveNewEntry (c : Clock) (st : Store) : option (StreakResult * Store) :=
  let today := getTodayLocalDay c in
  match addEntry (newEntryAt c "seed-1") st with
  | Some st1 => Some (updateStreak today c st1)
  | None => None
  end.

(** One new-entry save per clock, in order; a failed save leaves the store. *)
Fixpoint runDaily (cs : list Clock) (st : Store) : Store :=
  match cs with
  | [] => st
  | c :: cs' =>
      match saveNewEntry c st with
      | Some r => runDaily cs' (snd r)
      | None => runDaily cs' st
      end
  end.

(** The edit branch of [PromptEntry.handleSave]: today's entry is re-saved
    with [db.entries.put] under its own id, and [updateStreak] is called
    again ("Still check streak info for existing entries"). *)
Definition editedEntry (e : Entry) (sb ps gr : string) (c : Clock) : Entry :=
  mkEntry (e_id e) (dateLocal e) (prompt_id e) sb ps gr (created_at e)
          (Some (toISOString (now_ms c))) (duration_seconds e).

Definition saveEditedEntry (c : Clock) (e : Entry) (sb ps gr : string) (st : Store)
  : StreakResult * Store :=
  updateStreak (getTodayLocalDay c) c (putEntry (editedEntry e sb ps gr c) st).

(* ------------------------------------------------------------------ *)
(** ** JavaScript values and [JSON.stringify] *)

#[warnings="-register-all"]
Inductive jsval :=
| JUndefined
| JNull
| JBool (b : bool)
| JNum (z : Z)
| JStr (s : string)
| JArr (l : list jsval)
| JObj (fields : list (string * jsval)).

(** The value [JSON.stringify] serialises: [None] when the value itself is
    [undefined]; object members whose value is [undefined] are skipped and
    [undefined] array elements become [null]. *)
Fixpoint toJSONDoc (v : jsval) : option jsval :=
  match v with
  | JUndefined => None
  | JArr l =>
      Some (JArr ((fix go (l : list jsval) : list jsval :=
                     match l with
                     | [] => []
                     | x :: l' =>
                         match toJSONDoc x with
                         | Some d => d
                         | None => JNull
                         end :: go l'
                     end) l))
  | JObj fs =>
      Some (JObj ((fix go (fs : list (string * jsval)) : list (string * jsval) :=
                     match fs with
                     | [] => []
                     | (k, x) :: fs' =>
                         match toJSONDoc x with
                         | Some d => (k, d) :: go fs'
                         | None => go fs'
                         end
                     end) fs))
  | _ => Some v
  end.

Definition hexDigit (n : nat) : ascii := ascii_of_nat (if Nat.ltb n 10 then 48 + n else 87 + n).

(** JSON string escaping (quotation mark, reverse solidus, control characters). *)
Fixpoint escapeJSON (s : string) : string :=
  match s with
  | EmptyString => EmptyString
  | String ch s' =>
      let n := nat_of_ascii ch in
      (if Nat.eqb n 34 then "\" ++ String "034" EmptyString
       else if Nat.eqb n 92 then "\\"
       else if Nat.eqb n 10 then "\n"
       else if Nat.eqb n 13 then "\r"
       else if Nat.eqb n 9 then "\t"
       else if Nat.eqb n 8 then "\b"
       else if Nat.eqb n 12 then "\f"
       else if Nat.ltb n 32 then "\u00" ++ String (hexDigit (n / 16)) (String (hexDigit (n mod 16)) EmptyString)
       else String ch EmptyString) ++ escapeJSON s'
  end.

Definition quoteJSON (s : string) : string :=
  String "034" EmptyString ++ escapeJSON s ++ String "034" EmptyString.

Definition newline : string := String (ascii_of_nat 10) EmptyString.

Fixpoint spaces (n : nat) : string :=
  match n with O => EmptyString | S n' => String " " (spaces n') end.

Fixpoint joinWith (sep : string) (l : list string) : string :=
  match l with
  | [] => EmptyString
  | [x] => x
  | x :: l' => x ++ sep ++ joinWith sep l'
  end.

(** Printing of a serialisable value; [gap = 0] is the compact form,
    [gap = 2] the form of [JSON.stringify(v, null, 2)]. *)
Fixpoint printJSON (gap ind : nat) (v : jsval) : string :=
  let ind' := (ind + gap)%nat in
  let open_ (b : string) :=
    if Nat.eqb gap 0 then b else b ++ newline ++ spaces ind' in
  let sep := if Nat.eqb gap 0 then "," else "," ++ newline ++ spaces ind' in
  let close_ (b : string) :=
    if Nat.eqb gap 0 then b else newline ++ spaces ind ++ b in
  let colon := if Nat.eqb gap 0 then ":" else ": " in
  match v with
  | JUndefined | JNull => "null"
  | JBool true => "true"
  | JBool false => "false"
  | JNum z => numberToString z
  | JStr s => quoteJSON s
  | JArr [] => "[]"
  | JArr l =>
      open_ "[" ++ joinWith sep (map (printJSON gap ind') l) ++ close_ "]"
  | JObj [] => "{}"
  | JObj fs =>
      open_ "{" ++
      joinWith sep (map (fun kv => quoteJSON (fst kv) ++ colon ++ printJSON gap ind' (snd kv)) fs)
      ++ close_ "}"
  end.

(** [JSON.stringify(v)] / [JSON.stringify(v, null, gap)]; [None] stands for
    the [undefined] it returns on [undefined]. *)
Definition JSON_stringify (gap : nat) (v : jsval) : option string :=
  option_map (printJSON gap 0) (toJSONDoc v).

(** Members of an optional property: absent when unset. *)
Definition optMember (k : string) (v : option jsval) : list (string * jsval) :=
  match v with Some x => [(k, x)] | None => [] end.

(** [{ ...o, k: v }]: replaces the member in place, or appends it. *)
Definition objSet (k : string) (v : jsval) (fs : list (string * jsval))
  : list (string * jsval) :=
  if existsb (fun kv => String.eqb (fst kv) k) fs
  then map (fun kv => if String.eqb (fst kv) k then (k, v) else kv) fs
  else (fs ++ [(k, v)])%list.

Definition streakToJS (s : StreakSummary) : jsval :=
  JObj ([("id", JStr (s_id s)); ("start_date", JStr (start_date s));
         ("current_streak", JNum (current_streak s));
         ("longest_streak", JNum (longest_streak s))]
        ++ optMember "last_entry_date" (option_map (fun d => JStr (fmtDay d)) (last_entry_date s)))%list.

(* ------------------------------------------------------------------ *)
(** ** Validation, recovery and reset of the streak summary *)

Record ValidateResult := mkValidateResult {
  isValid : bool;
  recovered : bool;
  vstreak : StreakSummary
}.

(** [dbUtils.validateAndRecoverStreakData]; [readOk = false] is a throwing
    [db.streakSummary.get], handled by the [catch] branch. *)
Definition validateAndRecoverStreakData (readOk : bool) (c : Clock) (st : Store)
  : ValidateResult * Store :=
  if negb readOk then
    let '(s, st1) := initializeStreakSummary c st in (mkValidateResult false true s, st1)
  else
  match st_streak st with
  | None =>
      let '(s, st1) := initializeStreakSummary c st in (mkValidateResult false true s, st1)
  | Some s =>
      if Z.ltb (current_streak s) 0 || Z.ltb (longest_streak s) 0
         || Z.ltb (longest_streak s) (current_streak s) then
        let r := mkStreak "main"
                   (if String.eqb (start_date s) "" then toISOString (now_ms c) else start_date s)
                   (Z.max 0 (Z.min (current_streak s) (longest_streak s)))
                   (Z.max 0 (Z.max (longest_streak s) (current_streak s)))
                   (last_entry_date s) in
        (mkValidateResult false true r, setStreak r st)
      else (mkValidateResult true false s, st)
  end.

(** The value written into [settings.lastPromptId] by [resetStreakData]:
    [`backup_streak_${Date.now()}_${JSON.stringify(currentStreak)}`]. *)
Definition streakBackup (now : Z) (s : StreakSummary) : string :=
  "backup_streak_" ++ numberToString now ++ "_"
    ++ match JSON_stringify 0 (streakToJS s) with Some j => j | None => "undefined" end.

Definition withLastPromptId (v : option string) (s : Settings) : Settings :=
  mkSettings (set_id s) (pinSalt s) (pinIterations s) (pinHash s) (lockTimeoutMinutes s)
    (dailyCueTime s) (dailyCueEnabled s) (notificationsEnabled s) (telemetryOptIn s)
    (telemetryAnonId s) (telemetryActivationSent s) (telemetryConsecutiveDays s)
    (telemetryLastCompletionDate s) (telemetryD7EventSent s) (swapUsedDate s)
    (lastPromptDate s) v (installAt s) (currentTheme s).

(** [dbUtils.resetStreakData]. *)
Definition resetStreakData (c : Clock) (st : Store) : bool * Store :=
  let st1 :=
    match st_streak st, st_settings st with
    | Some cur, Some set =>
        setSettings (withLastPromptId (Some (streakBackup (now_ms c) cur)) set) st
    | _, _ => st
    end in
  (true, setStreak (mkStreak "main" (toISOString (now_ms c)) 0 0 None) st1).

(** The core streak operations, and the entry writes between them (a refused
    [add] leaves the store as it was). *)
Inductive StreakOp :=
| OpInitialize (c : Clock)
| OpAddEntry (e : Entry)
| OpPutEntry (e : Entry)
| OpUpdateStreak (entryDate : Z) (c : Clock)
| OpValidate (readOk : bool) (c : Clock)
| OpReset (c : Clock).

Definition runOp (o : StreakOp) (st : Store) : Store :=
  match o with
  | OpInitialize c => snd (initializeStreakSummary c st)
  | OpAddEntry e => match addEntry e st with Some st' => st' | None => st end
  | OpPutEntry e => putEntry e st
  | OpUpdateStreak d c => snd (updateStreak d c st)
  | OpValidate ok c => snd (validateAndRecoverStreakData ok c st)
  | OpReset c => snd (resetStreakData c st)
  end.

(** Stores reachable from one without a streak summary. *)
Inductive reachable : Store -> Prop :=
| reach_start (st : Store) : st_streak st = None -> reachable st
| reach_step (o : StreakOp) (st : Store) : reachable st -> reachable (runOp o st).

(** The invariant of the streak summary row. *)
Definition streakInv (o : option StreakSummary) : Prop :=
  match o with
  | None => True
  | Some s =>
      0 <= current_streak s /\ current_streak s <= longest_streak s /\
      (last_entry_date s <> None -> 1 <= current_streak s)
  end.

(* ------------------------------------------------------------------ *)
(** ** Telemetry milestones ([src/lib/telemetry.ts]) *)

Inductive EventType := Activation | DailyCompletion | D7Completion.

Record TelemetryEvent := mkEvent {
  ev_id : string;
  eventType : EventType;
  ev_timestamp : string;
  anonId : string;
  appVersion : string;
  platform : string;
  timezone : string;
  dayNumber : option Z;
  retryCount : option Z;
  queuedAt : string
}.

Record TelemetrySettings := mkTelemetrySettings {
  isOptedIn : bool;
  t_anonId : option string;
  activationSent : bool;
  consecutiveDays : Z;
  lastCompletionDate : option Z;
  d7EventSent : bool;
  installDate : string
}.

(** [Partial<TelemetrySettings>] *)
Record TelemetryUpdate := mkTelemetryUpdate {
  u_isOptedIn : option bool;
  u_anonId : option string;
  u_activationSent : option bool;
  u_consecutiveDays : option Z;
  u_lastCompletionDate : option Z;
  u_d7EventSent : option bool
}.

Definition noUpdate : TelemetryUpdate := mkTelemetryUpdate None None None None None None.

(** The service: the store and the in-memory [eventQueue].  Delivery
    ([processQueue], modelled separately below) never writes settings and
    only removes events, so in the milestone functions the queue is the list
    of events enqueued. *)
Record Service := mkService { svc_store : Store; eventQueue : list TelemetryEvent }.

(** Per-call environment: the clock, the random suffix used in generated
    ids, [getPlatform()], [getTimezone()] and [getDaysSinceInstall()]. *)
Record CallEnv := mkCallEnv {
  env_clock : Clock;
  env_random : string;
  env_platform : string;
  env_timezone : string;
  env_daysSinceInstall : Z
}.

Definition orFalse (b : option bool) : bool := match b with Some x => x | None => false end.
Definition orZero (z : option Z) : Z := match z with Some x => x | None => 0 end.

(** [getTelemetrySettings] *)
Definition getTelemetrySettings (st : Store) : option TelemetrySettings :=
  match st_settings st with
  | None => None
  | Some s =>
      Some (mkTelemetrySettings (telemetryOptIn s) (telemetryAnonId s)
              (orFalse (telemetryActivationSent s))
              (orZero (telemetryConsecutiveDays s))
              (telemetryLastCompletionDate s)
              (orFalse (telemetryD7EventSent s)) (installAt s))
  end.

(** [a ?? b] *)
Definition coalesce {A} (a b : option A) : option A :=
  match a with Some _ => a | None => b end.

(** [updateTelemetrySettings] *)
Definition updateTelemetrySettings (u : TelemetryUpdate) (st : Store) : Store :=
  match st_settings st with
  | None => st
  | Some s =>
      setSettings
        (mkSettings (set_id s) (pinSalt s) (pinIterations s) (pinHash s) (lockTimeoutMinutes s)
           (dailyCueTime s) (dailyCueEnabled s) (notificationsEnabled s)
           (match u_isOptedIn u with Some b => b | None => telemetryOptIn s end)
           (coalesce (u_anonId u) (telemetryAnonId s))
           (coalesce (u_activationSent u) (telemetryActivationSent s))
           (coalesce (u_consecutiveDays u) (telemetryConsecutiveDays s))
           (coalesce (u_lastCompletionDate u) (telemetryLastCompletionDate s))
           (coalesce (u_d7EventSent u) (telemetryD7EventSent s))
           (swapUsedDate s) (lastPromptDate s) (lastPromptId s) (installAt s) (currentTheme s))
        st
  end.

Definition generateAnonId (env : CallEnv) : string :=
  "anon_" ++ numberToString (now_ms (env_clock env)) ++ "_" ++ env_random env.

(** [createEvent] *)
Definition createEvent (env : CallEnv) (t : EventType) (dn : option Z) (st : Store)
  : TelemetryEvent * Store :=
  let ts := getTelemetrySettings st in
  (* [telemetrySettings?.anonId || ...] and [if (!telemetrySettings?.anonId)]
     test truthiness: a stored empty id counts as absent *)
  let existing := match ts with
                  | Some x => match t_anonId x with
                              | Some a => if String.eqb a "" then None else Some a
                              | None => None
                              end
                  | None => None
                  end in
  let aid := match existing with Some a => a | None => generateAnonId env end in
  let st1 := match existing with
             | Some _ => st
             | None => updateTelemetrySettings
                         (mkTelemetryUpdate None (Some aid) None None None None) st
             end in
  let now := now_ms (env_clock env) in
  (mkEvent ("evt_" ++ numberToString now ++ "_" ++ env_random env) t (toISOString now) aid
           "0.1.0" (env_platform env) (env_timezone env) dn (Some 0) (toISOString now),
   st1).

Definition enqueue (e : TelemetryEvent) (sv : Service) : Service :=
  mkService (svc_store sv) (eventQueue sv ++ [e])%list.

(** [sendD7CompletionEvent] *)
Definition sendD7CompletionEvent (env : CallEnv) (sv : Service) : Service :=
  match getTelemetrySettings (svc_store sv) with
  | None => sv
  | Some ts =>
      if negb (isOptedIn ts) || d7EventSent ts || Z.ltb (consecutiveDays ts) 7 then sv
      else
        let '(ev, st1) := createEvent env D7Completion None (svc_store sv) in
        let sv1 := enqueue ev (mkService st1 (eventQueue sv)) in
        mkService (updateTelemetrySettings
                     (mkTelemetryUpdate None None None None None (Some true)) (svc_store sv1))
                  (eventQueue sv1)
  end.

(** [sendDailyCompletionEvent]; the calendar days are the UTC days of
    [toISOString().split('T')[0]], and [yesterday] is one day (24 hours)
    before the call. *)
Definition sendDailyCompletionEvent (env : CallEnv) (sv : Service) : Service :=
  match getTelemetrySettings (svc_store sv) with
  | None => sv
  | Some ts =>
      if negb (isOptedIn ts) then sv else
      let now := now_ms (env_clock env) in
      let today := utcDayOf now in
      let dayNum := env_daysSinceInstall env in
      if match lastCompletionDate ts with Some l => Z.eqb l today | None => false end
      then sv else
      let '(ev, st1) := createEvent env DailyCompletion (Some dayNum) (svc_store sv) in
      let sv1 := enqueue ev (mkService st1 (eventQueue sv)) in
      let yesterdayStr := utcDayOf (now - msPerDay) in
      let newConsecutiveDays :=
        match lastCompletionDate ts with
        | Some l => if Z.eqb l yesterdayStr then consecutiveDays ts + 1 else 1
        | None => 1
        end in
      let sv2 := mkService
                   (updateTelemetrySettings
                      (mkTelemetryUpdate None None None (Some newConsecutiveDays) (Some today)
                         (Some (if Z.leb 7 newConsecutiveDays then false else d7EventSent ts)))
                      (svc_store sv1))
                   (eventQueue sv1) in
      if Z.eqb newConsecutiveDays 7 && negb (d7EventSent ts)
      then sendD7CompletionEvent env sv2
      else sv2
  end.

Fixpoint runCompletions (envs : list CallEnv) (sv : Service) : Service :=
  match envs with
  | [] => sv
  | e :: envs' => runCompletions envs' (sendDailyCompletionEvent e sv)
  end.

Definition isD7 (e : TelemetryEvent) : bool :=
  match eventType e with D7Completion => true | _ => false end.

Definition countD7 (sv : Service) : nat := List.length (filter isD7 (eventQueue sv)).


(** [optOut]: [anonId: undefined] and [lastCompletionDate: undefined] go
    through [??] in [updateTelemetrySettings], so they are no update; the
    queue is emptied.  (The [localStorage] side is not part of [Service].) *)
Definition optOut (sv : Service) : Service :=
  mkService (updateTelemetrySettings
               (mkTelemetryUpdate (Some false) None (Some false) (Some 0) None (Some false))
               (svc_store sv))
            [].

(** [sendActivationEvent] *)
Definition sendActivationEvent (env : CallEnv) (sv : Service) : Service :=
  match getTelemetrySettings (svc_store sv) with
  | None => sv
  | Some ts =>
      if negb (isOptedIn ts) || activationSent ts then sv
      else
        let '(ev, st1) := createEvent env Activation None (svc_store sv) in
        let sv1 := enqueue ev (mkService st1 (eventQueue sv)) in
        mkService (updateTelemetrySettings
                     (mkTelemetryUpdate None None (Some true) None None None) (svc_store sv1))
                  (eventQueue sv1)
  end.

(** [optIn]; [env] is the call's own environment (for a fresh [anonId])
    and [env'] the one of the [sendActivationEvent] it awaits.  The
    [anonId || generateAnonId()] test is a truthiness test. *)
Definition optIn (env env' : CallEnv) (sv : Service) : Service :=
  match getTelemetrySettings (svc_store sv) with
  | None => sv
  | Some ts =>
      let aid := match t_anonId ts with
                 | Some a => if String.eqb a "" then generateAnonId env else a
                 | None => generateAnonId env
                 end in
      let sv1 := mkService (updateTelemetrySettings
                              (mkTelemetryUpdate (Some true) (Some aid) None None None None)
                              (svc_store sv))
                           (eventQueue sv) in
      if negb (activationSent ts) then sendActivationEvent env' sv1 else sv1
  end.

Definition MAX_RETRY_ATTEMPTS : Z := 5.

Definition removeId (id : string) (q : list TelemetryEvent) : list TelemetryEvent :=
  filter (fun e => negb (String.eqb (ev_id e) id)) q.

Definition bumpRetry (e : TelemetryEvent) : TelemetryEvent :=
  mkEvent (ev_id e) (eventType e) (ev_timestamp e) (anonId e) (appVersion e) (platform e)
          (timezone e) (dayNumber e) (Some (orZero (retryCount e) + 1)) (queuedAt e).

(** [this.eventQueue[findIndex(e => e.id === id)].retryCount = (... || 0) + 1],
    nothing when the index is [-1]. *)
Fixpoint bumpFirst (id : string) (q : list TelemetryEvent) : list TelemetryEvent :=
  match q with
  | [] => []
  | e :: q' => if String.eqb (ev_id e) id then bumpRetry e :: q' else e :: bumpFirst id q'
  end.

Fixpoint processLoop (send : nat -> TelemetryEvent -> bool) (i : nat)
  (events : list TelemetryEvent) (q : list TelemetryEvent)
  : list TelemetryEvent * list TelemetryEvent :=
  match events with
  | [] => ([], q)
  | e :: rest =>
      if Z.leb MAX_RETRY_ATTEMPTS (orZero (retryCount e)) then
        processLoop send (S i) rest (removeId (ev_id e) q)
      else if send i e then
        let '(sent, q') := processLoop send (S i) rest (removeId (ev_id e) q) in (e :: sent, q')
      else ([e], bumpFirst (ev_id e) q)
  end.

(** [processQueue], run to completion without other calls in between;
    [processing] is the [processingQueue] flag and [send i e] the outcome
    ([sendEventToServer]) of the [i]-th event of the snapshot.  The result
    is the list of events handed to [sendEventToServer] and the service
    afterwards; the retry timer it arms is a later call. *)
Definition processQueue (send : nat -> TelemetryEvent -> bool) (processing : bool)
  (sv : Service) : list TelemetryEvent * Service :=
  if processing || match eventQueue sv with [] => true | _ => false end then ([], sv)
  else
    match getTelemetrySettings (svc_store sv) with
    | Some ts =>
        if isOptedIn ts then
          let '(sent, q) := processLoop send 0 (eventQueue sv) (eventQueue sv) in
          (sent, mkService (svc_store sv) q)
        else ([], mkService (svc_store sv) [])
    | None => ([], mkService (svc_store sv) [])
    end.

(* ------------------------------------------------------------------ *)
(** ** Prompt scheduler ([promptUtils], src/unnamed/part_012) *)

(** A computation that may throw. *)
Inductive Throws (A : Type) := Ok (a : A) | Throw (msg : string).
Arguments Ok {A} a.
Arguments Throw {A} msg.

Definition SEED_PROMPTS : list (string * string) := [
  ("Imagine losing your current home or living situation",
   "What aspects of your current living situation do you appreciate most?");
  ("Consider if you lost your ability to communicate with loved ones",
   "Who in your life are you most grateful to be able to connect with?");
  ("Visualize losing your current health and mobility",
   "What physical abilities or aspects of your health do you value most?");
  ("Imagine your primary source of income disappearing",
   "What opportunities or resources do you currently have that support you?");
  ("Consider losing access to the internet and digital connections",
   "What digital tools or online communities add value to your life?");
  ("Visualize losing your independence and needing constant care",
   "What aspects of your independence and autonomy do you cherish?");
  ("Imagine being unable to pursue your hobbies or interests",
   "What activities or interests bring you the most joy and fulfillment?");
  ("Consider losing your ability to learn new things",
   "What recent learning or growth experiences have you valued?");
  ("Visualize losing access to nature and the outdoors",
   "What aspects of the natural world do you find most meaningful?");
  ("Imagine being unable to help or support others",
   "How has being able to contribute to others' lives enriched your own?")].

(** A JavaScript number that is an integer or [NaN] ([None]). *)
Definition jsint := option Z.

(** [Math.floor((today.getTime() - new Date(installDate).getTime()) / 86400000)];
    the install date is given as [new Date(installDate).getTime()], [None]
    for an invalid date. *)
Definition daysSinceInstall (c : Clock) (install : jsint) : jsint :=
  option_map (fun i => (now_ms c - i) / msPerDay) install.

(** [pseudoRandom]: [(a * seed + c) % m]; JavaScript's [%] truncates, as
    [Z.rem] does. *)
Definition pseudoRandom (seed : jsint) : jsint :=
  option_map (fun x => Z.rem (1664525 * x + 1013904223) (2 ^ 32)) seed.

Definition jsRem (x : jsint) (n : Z) : jsint :=
  match x with Some v => Some (Z.rem v n) | None => None end.

(** [arr[i]]: [undefined] ([None]) for [NaN], negative or too large [i]. *)
Definition arrayAt {A} (l : list A) (i : jsint) : option A :=
  match i with
  | Some v => if Z.ltb v 0 then None else nth_error l (Z.to_nat v)
  | None => None
  end.

Definition isActiveSeed (p : Prompt) : bool :=
  match source p with Seed => negb (archived p) | User => false end.

(** [getTodayPrompt]: returns [seedPrompts[index]], which is [undefined]
    ([Ok None]) when the index is out of range. *)
Definition getTodayPrompt (c : Clock) (install : jsint) (prompts : list Prompt)
  : Throws (option Prompt) :=
  let seedPrompts := filter isActiveSeed prompts in
  match seedPrompts with
  | [] => Throw "No seed prompts available"
  | _ =>
      let index := jsRem (pseudoRandom (daysSinceInstall c install))
                         (Z.of_nat (List.length seedPrompts)) in
      Ok (arrayAt seedPrompts index)
  end.

Definition differsFrom (id : string) (o : option string) : bool :=
  match o with Some l => negb (String.eqb id l) | None => true end.

(** [getSwapPrompt]; [Math.floor(Math.random() * n)] is [r mod n] for the
    random draw [r]. *)
Definition getSwapPrompt (currentPromptId : string) (lastPromptId : option string)
  (prompts : list Prompt) (r : nat) : Throws Prompt :=
  let seedPrompts := filter (fun p => isActiveSeed p && negb (String.eqb (p_id p) currentPromptId)
                                      && differsFrom (p_id p) lastPromptId) prompts in
  match seedPrompts with
  | [] =>
      match find (fun p => String.eqb (p_id p) currentPromptId) prompts with
      | Some cur => Ok cur
      | None => Throw "Current prompt not found"
      end
  | first :: _ => Ok (nth (Nat.modulo r (List.length seedPrompts)) seedPrompts first)
  end.

(** [canSwapToday(swapUsedDate)]: [swapUsedDate !== todayString]. *)
Definition canSwapToday (c : Clock) (swapUsed : option Z) : bool :=
  match swapUsed with Some d => negb (Z.eqb d (todayDay c)) | None => true end.

Record SwapResult := mkSwapResult {
  success : bool;
  newPrompt : option Prompt;
  error : option string
}.

Definition swapFailure (msg : string) : SwapResult := mkSwapResult false None (Some msg).

Definition withSwap (today : Z) (id : string) (s : Settings) : Settings :=
  mkSettings (set_id s) (pinSalt s) (pinIterations s) (pinHash s) (lockTimeoutMinutes s)
    (dailyCueTime s) (dailyCueEnabled s) (notificationsEnabled s) (telemetryOptIn s)
    (telemetryAnonId s) (telemetryActivationSent s) (telemetryConsecutiveDays s)
    (telemetryLastCompletionDate s) (telemetryD7EventSent s) (Some today)
    (Some today) (Some id) (installAt s) (currentTheme s).

(** [db.prompts.toArray()]: the rows in the order of their primary key
    [id], compared code unit by code unit (so "seed-10" comes before
    "seed-2"). *)
Fixpoint insertByKey (p : Prompt) (ps : list Prompt) : list Prompt :=
  match ps with
  | [] => [p]
  | q :: ps' => if String.leb (p_id p) (p_id q) then p :: ps else q :: insertByKey p ps'
  end.

Definition promptsToArray (ps : list Prompt) : list Prompt := fold_right insertByKey [] ps.

(** [swapTodayPrompt(installDate)]; every throw inside the [try] becomes
    the failure result of the [catch]. *)
Definition swapTodayPrompt (c : Clock) (install : jsint) (r : nat) (st : Store)
  : SwapResult * Store :=
  let caught := (swapFailure "Failed to swap prompt. Please try again.", st) in
  match st_settings st with
  | None => (swapFailure "Settings not found", st)
  | Some settings =>
      if negb (canSwapToday c (swapUsedDate settings)) then
        (swapFailure "You can only swap once per day. Try again tomorrow.", st)
      else
        let allPrompts := promptsToArray (st_prompts st) in
        match getTodayPrompt c install allPrompts with
        | Throw _ => caught
        | Ok None => caught (* [currentPrompt.id] of [undefined] *)
        | Ok (Some currentPrompt) =>
            match getSwapPrompt (p_id currentPrompt) (lastPromptId settings) allPrompts r with
            | Throw _ => caught
            | Ok np =>
                if String.eqb (p_id np) (p_id currentPrompt) then
                  (swapFailure "No alternative prompts available for swap", st)
                else
                  (mkSwapResult true (Some np) None,
                   setSettings (withSwap (todayDay c) (p_id np) settings) st)
            end
        end
  end.

(** [getFallbackPrompt(installDate)]. *)
Definition getFallbackPrompt (c : Clock) (install : jsint) : Prompt :=
  let index := jsRem (pseudoRandom (daysSinceInstall c install))
                     (Z.of_nat (List.length SEED_PROMPTS)) in
  match arrayAt SEED_PROMPTS index, index with
  | Some (t, g), Some i =>
      mkPrompt ("seed-" ++ numberToString (i + 1)) t (Some g) false (toISOString (now_ms c)) Seed
  | _, _ =>
      (* [selectedSeed.text] of [undefined] throws: ultimate fallback *)
      mkPrompt "fallback-1" (fst (nth 0 SEED_PROMPTS ("", "")))
               (Some (snd (nth 0 SEED_PROMPTS ("", "")))) false (toISOString (now_ms c)) Seed
  end.

(** What the two store reads of [getCurrentPrompt] produce: the settings row
    (or a throw) and [db.prompts.toArray()] (or a throw). *)
Record StoreReads := mkStoreReads {
  readSettings : Throws (option Settings);
  readPrompts : Throws (list Prompt)
}.

Definition readsOf (st : Store) : StoreReads :=
  mkStoreReads (Ok (st_settings st)) (Ok (promptsToArray (st_prompts st))).

(** [getCurrentPrompt(installDate)]; the result [None] is the [undefined]
    returned when [getTodayPrompt] yields [undefined]. *)
Definition getCurrentPrompt (c : Clock) (install : jsint) (rd : StoreReads) : option Prompt :=
  let fallback := Some (getFallbackPrompt c install) in
  let default :=
    match readPrompts rd with
    | Throw _ => fallback
    | Ok allPrompts =>
        match getTodayPrompt c install allPrompts with
        | Throw _ => fallback
        | Ok v => v
        end
    end in
  match readSettings rd with
  | Throw _ => fallback
  | Ok settings =>
      let swappedId :=
        match settings with
        | Some s =>
            if canSwapToday c (swapUsedDate s) then None
            else match lastPromptId s with
                 | Some id => if String.eqb id "" then None else Some id
                 | None => None
                 end
        | None => None
        end in
      match swappedId with
      | Some id =>
          match readPrompts rd with
          | Throw _ => fallback
          | Ok allPrompts =>
              match find (fun p => String.eqb (p_id p) id) allPrompts with
              | Some p => Some p
              | None => default
              end
          end
      | None => default
      end
  end.

(** [initializeSeedPrompts]. *)
Definition seedCatalog (c : Clock) : list Prompt :=
  map (fun ip => mkPrompt ("seed-" ++ numberToString (Z.of_nat (fst ip) + 1)) (fst (snd ip))
                          (Some (snd (snd ip))) false (toISOString (now_ms c)) Seed)
      (combine (seq 0 (List.length SEED_PROMPTS)) SEED_PROMPTS).

Definition initializeSeedPrompts (c : Clock) (st : Store) : Store :=
  if existsb (fun p => match source p with Seed => true | User => false end) (st_prompts st)
  then st
  else mkStore (st_settings st) (st_prompts st ++ seedCatalog c)%list (st_entries st) (st_streak st).

(* ------------------------------------------------------------------ *)
(** ** PIN hashing utilities ([cryptoUtils], src/components/TodayCard.tsx)

    A JavaScript string is a Rocq [string] of 8-bit characters (UTF-16
    code units below 256, which covers the binary strings of [btoa] and
    [atob]); [charCodeAt] is [nat_of_ascii].  [btoa] and [atob] are the
    browser's base64 codec: [btoa] is total on binary strings, [atob] throws
    ([None]) on input the forgiving decoder refuses.  PBKDF2-SHA-256 is an
    arbitrary function [kdf] of the key material, the salt and the iteration
    count. *)

Definition charCode (ch : ascii) : Z := Z.of_nat (nat_of_ascii ch).
Definition fromCharCode (z : Z) : ascii := ascii_of_nat (Z.to_nat z).

Definition base64Alphabet : string :=
  "ABCDEFGHIJKLMNOPQRSTUVWXYZabcdefghijklmnopqrstuvwxyz0123456789+/".

Definition b64char (k : Z) : ascii :=
  match String.get (Z.to_nat k) base64Alphabet with Some ch => ch | None => "="%char end.

Definition b64index (ch : ascii) : option Z :=
  let n := charCode ch in
  if Z.leb 65 n && Z.leb n 90 then Some (n - 65)
  else if Z.leb 97 n && Z.leb n 122 then Some (n - 71)
  else if Z.leb 48 n && Z.leb n 57 then Some (n + 4)
  else if Z.eqb n 43 then Some 62
  else if Z.eqb n 47 then Some 63
  else None.

Definition enc3 (a b c : ascii) : list ascii :=
  let n := charCode a * 65536 + charCode b * 256 + charCode c in
  [b64char (n / 262144); b64char ((n / 4096) mod 64); b64char ((n / 64) mod 64);
   b64char (n mod 64)].

Definition enc2 (a b : ascii) : list ascii :=
  let n := charCode a * 65536 + charCode b * 256 in
  [b64char (n / 262144); b64char ((n / 4096) mod 64); b64char ((n / 64) mod 64); "="%char].

Definition enc1 (a : ascii) : list ascii :=
  let n := charCode a * 65536 in
  [b64char (n / 262144); b64char ((n / 4096) mod 64); "="%char; "="%char].

Fixpoint btoaL (l : list ascii) : list ascii :=
  match l with
  | a :: b :: c :: rest => (enc3 a b c ++ btoaL rest)%list
  | [a; b] => enc2 a b
  | [a] => enc1 a
  | [] => []
  end.

Definition dec3 (d1 d2 d3 d4 : Z) : list ascii :=
  let m := d1 * 262144 + d2 * 4096 + d3 * 64 + d4 in
  [fromCharCode (m / 65536); fromCharCode ((m / 256) mod 256); fromCharCode (m mod 256)].

Definition dec2 (d1 d2 d3 : Z) : list ascii :=
  let m := d1 * 262144 + d2 * 4096 + d3 * 64 in
  [fromCharCode (m / 65536); fromCharCode ((m / 256) mod 256)].

Definition dec1 (d1 d2 : Z) : list ascii :=
  let m := d1 * 262144 + d2 * 4096 in
  [fromCharCode (m / 65536)].

(** [atob] runs the WHATWG "forgiving-base64 decode": ASCII whitespace is
    removed, one or two trailing [=] are dropped when the length is a
    multiple of 4, a length of the form [4k+1] fails, every remaining
    character must be in the alphabet, and the sextets are read in groups of
    four; a trailing group of 3 or 2 sextets gives 2 or 1 bytes, its unused
    low bits ignored. *)
Definition isAsciiWhitespace (ch : ascii) : bool :=
  let n := charCode ch in
  Z.eqb n 9 || Z.eqb n 10 || Z.eqb n 12 || Z.eqb n 13 || Z.eqb n 32.

Definition stripPadding (l : list ascii) : list ascii :=
  if Nat.eqb (Nat.modulo (List.length l) 4) 0 then
    match rev l with
    | a :: b :: r =>
        if Ascii.eqb a "=" then (if Ascii.eqb b "=" then rev r else rev (b :: r)) else l
    | [a] => if Ascii.eqb a "=" then [] else l
    | [] => l
    end
  else l.

Fixpoint sextets (l : list ascii) : option (list Z) :=
  match l with
  | [] => Some []
  | ch :: r =>
      match b64index ch, sextets r with
      | Some d, Some ds => Some (d :: ds)
      | _, _ => None
      end
  end.

Fixpoint decodeSextets (ds : list Z) : list ascii :=
  match ds with
  | d1 :: d2 :: d3 :: d4 :: rest => (dec3 d1 d2 d3 d4 ++ decodeSextets rest)%list
  | [d1; d2; d3] => dec2 d1 d2 d3
  | [d1; d2] => dec1 d1 d2
  | _ => [] (* a single sextet is refused before *)
  end.

Definition atobL (l : list ascii) : option (list ascii) :=
  let data := stripPadding (filter (fun ch => negb (isAsciiWhitespace ch)) l) in
  if Nat.eqb (Nat.modulo (List.length data) 4) 1 then None
  else option_map decodeSextets (sextets data).

Definition btoa (s : string) : string := string_of_list_ascii (btoaL (list_ascii_of_string s)).
Definition atob (s : string) : option string :=
  option_map string_of_list_ascii (atobL (list_ascii_of_string s)).

(** [arrayBufferToBase64]: [String.fromCharCode(bytes[i])] for each byte,
    then [btoa]. *)
Definition arrayBufferToBase64 (bytes : list byte) : string :=
  btoa (string_of_list_ascii (map ascii_of_byte bytes)).

(** [base64ToArrayBuffer]: [atob], then [charCodeAt] into a [Uint8Array]. *)
Definition base64ToArrayBuffer (b64 : string) : option (list byte) :=
  option_map (fun binary => map byte_of_ascii (list_ascii_of_string binary)) (atob b64).

Definition byteOfZ (z : Z) : byte :=
  match Byte.of_N (Z.to_N z) with Some b => b | None => Byte.x00 end.

(** [new TextEncoder().encode(s)]: UTF-8 of each code unit (one byte below
    128, two bytes up to 255). *)
Definition utf8Unit (ch : ascii) : list byte :=
  let n := charCode ch in
  if Z.ltb n 128 then [byte_of_ascii ch]
  else [byteOfZ (192 + n / 64); byteOfZ (128 + n mod 64)].

Fixpoint textEncode (s : string) : list byte :=
  match s with
  | EmptyString => []
  | String ch rest => (utf8Unit ch ++ textEncode rest)%list
  end.

Record PinHashData := mkPinHashData {
  hd_salt : string;
  hd_iterations : Z;
  hd_hash : string
}.

Definition KDF := list byte -> list byte -> Z -> list byte.

(** [hashPin(pin)], with the salt drawn by [generateSalt()] as an argument. *)
Definition hashPin (kdf : KDF) (salt : list byte) (pin : string) : PinHashData :=
  let iterations := 100000 in
  mkPinHashData (arrayBufferToBase64 salt) iterations
                (arrayBufferToBase64 (kdf (textEncode pin) salt iterations)).

(** The loop of [constantTimeEquals]: [result |= a.charCodeAt(i) ^ b.charCodeAt(i)]. *)
Fixpoint ctLoop (a b : string) (result : Z) : Z :=
  match a, b with
  | String x a', String y b' => ctLoop a' b' (Z.lor result (Z.lxor (charCode x) (charCode y)))
  | _, _ => result
  end.

Definition constantTimeEquals (a b : string) : bool :=
  if negb (Nat.eqb (String.length a) (String.length b)) then false
  else Z.eqb (ctLoop a b 0) 0.

(** [verifyPin(pin, hashData)]; the [catch] returns [false] when [atob]
    throws. *)
Definition verifyPin (kdf : KDF) (pin : string) (hashData : PinHashData) : bool :=
  match base64ToArrayBuffer (hd_salt hashData) with
  | None => false
  | Some saltBuffer =>
      let newHash := arrayBufferToBase64 (kdf (textEncode pin) saltBuffer (hd_iterations hashData)) in
      constantTimeEquals newHash (hd_hash hashData)
  end.

Definition isDigit (ch : ascii) : bool := Z.leb 48 (charCode ch) && Z.leb (charCode ch) 57.

(** [isValidPin(pin)]: [/^\d{4}$/.test(pin)]. *)
Definition isValidPin (pin : string) : bool :=
  match pin with
  | String a (String b (String c (String d EmptyString))) =>
      isDigit a && isDigit b && isDigit c && isDigit d
  | _ => false
  end.




(* ------------------------------------------------------------------ *)
(** ** Session lock and PIN provider ([sessionUtils], [PinProvider],
    src/components/TodayCard.tsx)

    [localStorage] is an association list in insertion order; [setItem]
    overwrites a key in place and appends a new one. *)

Definition LocalStorage := list (string * string).

Definition getItem (k : string) (ls : LocalStorage) : option string :=
  option_map snd (find (fun kv => String.eqb (fst kv) k) ls).

Fixpoint setItem (k v : string) (ls : LocalStorage) : LocalStorage :=
  match ls with
  | [] => [(k, v)]
  | (k', v') :: r => if String.eqb k' k then (k, v) :: r else (k', v') :: setItem k v r
  end.

Definition removeItem (k : string) (ls : LocalStorage) : LocalStorage :=
  filter (fun kv => negb (String.eqb (fst kv) k)) ls.

(** A string is truthy when it is not empty. *)
Definition truthy (o : option string) : bool :=
  match o with Some s => negb (String.eqb s "") | None => false end.

(** [n.toString()] of a number that may be [NaN]. *)
Definition jsNumberToString (x : jsint) : string :=
  match x with Some z => numberToString z | None => "NaN" end.

(** [parseInt(s, 10)]: leading white space (of the code units below 256),
    an optional sign, then the longest run of decimal digits; [NaN] when
    there is none. *)
Definition isJsSpace (ch : ascii) : bool :=
  let n := charCode ch in
  (Z.leb 9 n && Z.leb n 13) || Z.eqb n 32 || Z.eqb n 160.

Fixpoint trimStart (s : string) : string :=
  match s with
  | String ch r => if isJsSpace ch then trimStart r else s
  | EmptyString => EmptyString
  end.

Fixpoint parseDigits (s : string) (acc : jsint) : jsint :=
  match s with
  | String ch r =>
      if isDigit ch then parseDigits r (Some (orZero acc * 10 + (charCode ch - 48))) else acc
  | EmptyString => acc
  end.

Definition parseInt (s : string) : jsint :=
  match trimStart s with
  | String "-" r => option_map Z.opp (parseDigits r None)
  | String "+" r => parseDigits r None
  | t => parseDigits t None
  end.

Module sessionUtils.

Definition updateLastActivity (now : Z) (ls : LocalStorage) : LocalStorage :=
  setItem "nvj_lastActivity" (numberToString now) ls.

(** [shouldLock(timeoutMinutes)]; a comparison with [NaN] is false. *)
Definition shouldLock (now timeoutMinutes : Z) (ls : LocalStorage) : bool :=
  let lastActivity := getItem "nvj_lastActivity" ls in
  if negb (truthy lastActivity) then true
  else
    match parseInt (match lastActivity with Some s => s | None => "" end) with
    | Some lastActivityTime => Z.ltb (timeoutMinutes * 60 * 1000) (now - lastActivityTime)
    | None => false
    end.

Definition lockSession (ls : LocalStorage) : LocalStorage :=
  setItem "nvj_sessionLocked" "true" (removeItem "nvj_lastActivity" ls).

Definition unlockSession (now : Z) (ls : LocalStorage) : LocalStorage :=
  updateLastActivity now (removeItem "nvj_sessionLocked" ls).

Definition isLocked (ls : LocalStorage) : bool :=
  match getItem "nvj_sessionLocked" ls with Some v => String.eqb v "true" | None => false end.

Definition clearPinData (ls : LocalStorage) : LocalStorage :=
  removeItem "nvj_pinLockoutEnd" (removeItem "nvj_pinAttempts"
    (removeItem "nvj_sessionLocked" (removeItem "nvj_lastActivity" ls))).

End sessionUtils.

(** [cryptoUtils.verifyPin], under a name the provider can use next to
    its own [verifyPin]. *)
Definition cryptoVerifyPin := verifyPin.

Module PinProvider.

(** The provider's state: the [settings] of the app store, the database,
    its React state and [localStorage].  Each action sees the state left
    by the previous one (a render in between). *)
Record PinState := mkPinState {
  settings : option Settings;
  db : Store;
  isLocked : bool;
  attemptCount : jsint;
  isTemporaryLocked : bool;
  lockoutEndTime : option Z;
  ls : LocalStorage
}.

Record Result := mkResult { r_success : bool; r_error : option string }.

Definition ok : Result := mkResult true None.
Definition fail (msg : string) : Result := mkResult false (Some msg).

Definition MAX_ATTEMPTS : Z := 5.
Definition LOCKOUT_DURATION : Z := 5 * 60 * 1000.

(** The mounted state before [initializePinState]. *)
Definition fresh (s : option Settings) (st : Store) (l : LocalStorage) : PinState :=
  mkPinState s st false (Some 0) false None l.

(** [initializePinState]; [setAttemptCount(MAX_ATTEMPTS)] is overridden if
    [nvj_pinAttempts] is set. *)
Definition initializePinState (now : Z) (ps : PinState) : PinState :=
  let ps1 :=
    let lo := getItem "nvj_pinLockoutEnd" (ls ps) in
    if truthy lo then
      match parseInt (match lo with Some s => s | None => "" end) with
      | Some endTime =>
          if Z.ltb now endTime then
            mkPinState (settings ps) (db ps) (isLocked ps) (Some MAX_ATTEMPTS) true (Some endTime)
                       (ls ps)
          else
            mkPinState (settings ps) (db ps) (isLocked ps) (attemptCount ps)
                       (isTemporaryLocked ps) (lockoutEndTime ps)
                       (removeItem "nvj_pinAttempts" (removeItem "nvj_pinLockoutEnd" (ls ps)))
      | None =>
          mkPinState (settings ps) (db ps) (isLocked ps) (attemptCount ps)
                     (isTemporaryLocked ps) (lockoutEndTime ps)
                     (removeItem "nvj_pinAttempts" (removeItem "nvj_pinLockoutEnd" (ls ps)))
      end
    else ps in
  let attempts := getItem "nvj_pinAttempts" (ls ps1) in
  if truthy attempts then
    mkPinState (settings ps1) (db ps1) (isLocked ps1)
               (parseInt (match attempts with Some s => s | None => "" end))
               (isTemporaryLocked ps1) (lockoutEndTime ps1) (ls ps1)
  else ps1.

(** The lockout timer ([updateTimer] of the effect), run at [now]. *)
Definition lockoutTick (now : Z) (ps : PinState) : PinState :=
  match isTemporaryLocked ps, lockoutEndTime ps with
  | true, Some e =>
      if Z.eqb e 0 then ps
      else if Z.leb (e - now) 0 then
        mkPinState (settings ps) (db ps) (isLocked ps) (Some 0) false None
                   (removeItem "nvj_pinAttempts" (removeItem "nvj_pinLockoutEnd" (ls ps)))
      else ps
  | _, _ => ps
  end.

Definition withPin (s : Settings) (hd : PinHashData) : Settings :=
  mkSettings (set_id s) (Some (hd_salt hd)) (Some (hd_iterations hd)) (Some (hd_hash hd))
    (if Z.eqb (lockTimeoutMinutes s) 0 then 5 else lockTimeoutMinutes s)
    (dailyCueTime s) (dailyCueEnabled s) (notificationsEnabled s) (telemetryOptIn s)
    (telemetryAnonId s) (telemetryActivationSent s) (telemetryConsecutiveDays s)
    (telemetryLastCompletionDate s) (telemetryD7EventSent s) (swapUsedDate s)
    (lastPromptDate s) (lastPromptId s) (installAt s) (currentTheme s).

Definition withoutPin (s : Settings) : Settings :=
  mkSettings (set_id s) None None None (lockTimeoutMinutes s)
    (dailyCueTime s) (dailyCueEnabled s) (notificationsEnabled s) (telemetryOptIn s)
    (telemetryAnonId s) (telemetryActivationSent s) (telemetryConsecutiveDays s)
    (telemetryLastCompletionDate s) (telemetryD7EventSent s) (swapUsedDate s)
    (lastPromptDate s) (lastPromptId s) (installAt s) (currentTheme s).

(** [setupPin(pin)]; the salt is the draw of [generateSalt()].  With no
    settings, [{...null, ...}] has no [id] and [db.settings.put] throws. *)
Definition setupPin (kdf : KDF) (salt : list byte) (now : Z) (pin : string) (ps : PinState)
  : Result * PinState :=
  if negb (isValidPin pin) then (fail "PIN must be exactly 4 digits", ps) else
  match settings ps with
  | None => (fail "Failed to setup PIN. Please try again.", ps)
  | Some s =>
      let updated := withPin s (hashPin kdf salt pin) in
      (ok, mkPinState (Some updated) (setSettings updated (db ps)) false (attemptCount ps)
                      (isTemporaryLocked ps) (lockoutEndTime ps)
                      (sessionUtils.unlockSession now (ls ps)))
  end.

(** The hash data of the settings when [pinHash], [pinSalt] and
    [pinIterations] are all truthy. *)
Definition configured (s : option Settings) : option PinHashData :=
  match s with
  | Some s =>
      match pinHash s, pinSalt s, pinIterations s with
      | Some h, Some sa, Some n =>
          if String.eqb h "" || String.eqb sa "" || Z.eqb n 0 then None
          else Some (mkPinHashData sa n h)
      | _, _, _ => None
      end
  | None => None
  end.

Definition jsAdd1 (x : jsint) : jsint := option_map (fun v => v + 1) x.

(** [verifyPin(pin)] of the provider, at time [now]. *)
Definition verifyPin (kdf : KDF) (now : Z) (pin : string) (ps : PinState) : Result * PinState :=
  if isTemporaryLocked ps then
    (fail "Access temporarily locked due to too many failed attempts", ps) else
  if negb (isValidPin pin) then (fail "PIN must be exactly 4 digits", ps) else
  match configured (settings ps) with
  | None => (fail "PIN not configured", ps)
  | Some hashData =>
      if cryptoVerifyPin kdf pin hashData then
        (ok, mkPinState (settings ps) (db ps) false (Some 0) false None
                        (sessionUtils.unlockSession now
                           (removeItem "nvj_pinLockoutEnd" (removeItem "nvj_pinAttempts" (ls ps)))))
      else
        let newAttemptCount := jsAdd1 (attemptCount ps) in
        let ls1 := setItem "nvj_pinAttempts" (jsNumberToString newAttemptCount) (ls ps) in
        match newAttemptCount with
        | Some n =>
            if Z.leb MAX_ATTEMPTS n then
              let lockoutEnd := now + LOCKOUT_DURATION in
              (fail "Too many failed attempts. Access locked for 5 minutes.",
               mkPinState (settings ps) (db ps) (isLocked ps) newAttemptCount true (Some lockoutEnd)
                          (setItem "nvj_pinLockoutEnd" (numberToString lockoutEnd) ls1))
            else
              let remaining := MAX_ATTEMPTS - n in
              (fail ("Incorrect PIN. " ++ numberToString remaining ++ " attempt" ++
                     (if Z.eqb remaining 1 then "" else "s") ++ " remaining."),
               mkPinState (settings ps) (db ps) (isLocked ps) newAttemptCount
                          (isTemporaryLocked ps) (lockoutEndTime ps) ls1)
        | None =>
            (fail "Incorrect PIN. NaN attempts remaining.",
             mkPinState (settings ps) (db ps) (isLocked ps) newAttemptCount
                        (isTemporaryLocked ps) (lockoutEndTime ps) ls1)
        end
  end.

(** [disablePin(currentPin)]; [settings] is the value captured before the
    inner [verifyPin], which does not change it. *)
Definition disablePin (kdf : KDF) (now : Z) (currentPin : string) (ps : PinState)
  : Result * PinState :=
  let '(verifyResult, ps1) := verifyPin kdf now currentPin ps in
  if negb (r_success verifyResult) then (verifyResult, ps1) else
  match settings ps with
  | None => (fail "Failed to disable PIN. Please try again.", ps1)
  | Some s =>
      let updated := withoutPin s in
      (ok, mkPinState (Some updated) (setSettings updated (db ps1)) false (Some 0) false None
                      (sessionUtils.clearPinData (ls ps1)))
  end.

Definition lock (ps : PinState) : PinState :=
  mkPinState (settings ps) (db ps) true (attemptCount ps) (isTemporaryLocked ps)
             (lockoutEndTime ps) (sessionUtils.lockSession (ls ps)).

Definition unlock (now : Z) (ps : PinState) : PinState :=
  mkPinState (settings ps) (db ps) false (attemptCount ps) (isTemporaryLocked ps)
             (lockoutEndTime ps) (sessionUtils.unlockSession now (ls ps)).

(** [isPinEnabled] and [isLocked] of the context value. *)
Definition isPinEnabled (ps : PinState) : bool :=
  match settings ps with
  | Some s => truthy (pinHash s) && truthy (pinSalt s) &&
              match pinIterations s with Some n => negb (Z.eqb n 0) | None => false end
  | None => false
  end.

Definition lockedView (ps : PinState) : bool :=
  isLocked ps && match settings ps with Some s => truthy (pinHash s) | None => false end.

End PinProvider.

(* ------------------------------------------------------------------ *)
(** ** Export ([dbUtils.exportDataWithProgress]) *)

Definition themeName (t : Theme) : string :=
  match t with Light => "light" | Dark => "dark" | System => "system" end.

Definition sourceName (s : PromptSource) : string :=
  match s with Seed => "seed" | User => "user" end.

(** A settings row as the stored object: optional properties are absent
    when unset. *)
Definition settingsFields (s : Settings) : list (string * jsval) :=
  ([("id", JStr (set_id s))]
        ++ optMember "pinSalt" (option_map JStr (pinSalt s))
        ++ optMember "pinIterations" (option_map JNum (pinIterations s))
        ++ optMember "pinHash" (option_map JStr (pinHash s))
        ++ [("lockTimeoutMinutes", JNum (lockTimeoutMinutes s))]
        ++ optMember "dailyCueTime" (option_map JStr (dailyCueTime s))
        ++ [("dailyCueEnabled", JBool (dailyCueEnabled s));
            ("notificationsEnabled", JBool (notificationsEnabled s));
            ("telemetryOptIn", JBool (telemetryOptIn s))]
        ++ optMember "telemetryAnonId" (option_map JStr (telemetryAnonId s))
        ++ optMember "telemetryActivationSent" (option_map JBool (telemetryActivationSent s))
        ++ optMember "telemetryConsecutiveDays" (option_map JNum (telemetryConsecutiveDays s))
        ++ optMember "telemetryLastCompletionDate"
             (option_map (fun d => JStr (fmtDay d)) (telemetryLastCompletionDate s))
        ++ optMember "telemetryD7EventSent" (option_map JBool (telemetryD7EventSent s))
        ++ optMember "swapUsedDate" (option_map (fun d => JStr (fmtDay d)) (swapUsedDate s))
        ++ optMember "lastPromptDate" (option_map (fun d => JStr (fmtDay d)) (lastPromptDate s))
        ++ optMember "lastPromptId" (option_map JStr (lastPromptId s))
        ++ [("installAt", JStr (installAt s)); ("currentTheme", JStr (themeName (currentTheme s)))])%list.

(** [{ ...settings, pinSalt: undefined, pinIterations: undefined, pinHash: undefined }]. *)
Definition sanitizeSettings (s : Settings) : jsval :=
  JObj (objSet "pinHash" JUndefined
         (objSet "pinIterations" JUndefined (objSet "pinSalt" JUndefined (settingsFields s)))).

Definition entryExport (e : Entry) : jsval :=
  JObj [("id", JStr (e_id e)); ("createdAt", JStr (created_at e));
        ("content", JObj [("setback", JStr (setback e));
                          ("protective_step", JStr (protective_step e));
                          ("gratitude", JStr (gratitude e))]);
        ("metadata", JObj [("dateLocal", JStr (fmtDay (dateLocal e)));
                           ("prompt_id", JStr (prompt_id e));
                           ("edited_at", match edited_at e with
                                         | Some t => JStr t | None => JUndefined end);
                           ("duration_seconds", match duration_seconds e with
                                                | Some n => JNum n | None => JUndefined end)])].

Definition promptExport (p : Prompt) : jsval :=
  JObj [("id", JStr (p_id p)); ("text", JStr (text p));
        ("gratitude_prompt", match gratitude_prompt p with
                             | Some g => JStr g | None => JUndefined end);
        ("archived", JBool (archived p)); ("source", JStr (sourceName (source p)));
        ("created_at", JStr (p_created_at p))].

(** [db.entries.orderBy('created_at')]: ascending [created_at] in code-unit
    order, ties by primary key. *)
Definition entryBefore (x y : Entry) : bool :=
  match String.compare (created_at x) (created_at y) with
  | Lt => true
  | Eq => match String.compare (e_id x) (e_id y) with Gt => false | _ => true end
  | Gt => false
  end.

Fixpoint insertEntry (e : Entry) (es : list Entry) : list Entry :=
  match es with
  | [] => [e]
  | x :: es' => if entryBefore e x then e :: es else x :: insertEntry e es'
  end.

Definition orderByCreatedAt (es : list Entry) : list Entry := fold_right insertEntry [] es.

Record ExportMetadata := mkExportMetadata {
  m_appName : string;
  m_appVersion : string;
  m_exportedAt : string;
  m_entryCount : Z
}.

Definition metadataToJS (m : ExportMetadata) : jsval :=
  JObj [("appName", JStr (m_appName m)); ("appVersion", JStr (m_appVersion m));
        ("exportedAt", JStr (m_exportedAt m)); ("entryCount", JNum (m_entryCount m))].

Record ExportResult := mkExportResult {
  json : option string;
  metadata : ExportMetadata
}.

Definition exportMetadata (c : Clock) (st : Store) : ExportMetadata :=
  mkExportMetadata "Negative Visualization Journal" "0.1.0" (toISOString (now_ms c))
    (Z.of_nat (List.length (st_entries st))).

(** The [exportData] object. *)
Definition exportObject (c : Clock) (st : Store) : jsval :=
  JObj [("meta", metadataToJS (exportMetadata c st));
        ("entries", JArr (map entryExport (orderByCreatedAt (st_entries st))));
        ("settings", match st_settings st with
                     | Some s => sanitizeSettings s | None => JNull end);
        ("prompts", JArr (map promptExport (promptsToArray (st_prompts st))));
        ("streakSummary", match st_streak st with
                          | Some s => streakToJS s | None => JUndefined end)].

(** [exportDataWithProgress()]: [JSON.stringify(exportData, null, 2)]. *)
Definition exportDataWithProgress (c : Clock) (st : Store) : ExportResult :=
  mkExportResult (JSON_stringify 2 (exportObject c st)) (exportMetadata c st).

(** Whether a member named [k] occurs anywhere in a JSON document. *)
Fixpoint hasKey (k : string) (v : jsval) : bool :=
  match v with
  | JArr l => existsb (hasKey k) l
  | JObj fs => existsb (fun kv => String.eqb (fst kv) k || hasKey k (snd kv)) fs
  | _ => false
  end.

Definition pinKeys : list string := ["pinHash"; "pinSalt"; "pinIterations"].

Definition isUndefined (v : jsval) : bool := match v with JUndefined => true | _ => false end.

(** Whether a member named [k] with a defined value occurs anywhere in a
    value: the members [JSON.stringify] keeps. *)
Fixpoint liveKey (k : string) (v : jsval) : bool :=
  match v with
  | JArr l => existsb (liveKey k) l
  | JObj fs =>
      existsb (fun kv => (String.eqb (fst kv) k && negb (isUndefined (snd kv)))
                         || liveKey k (snd kv)) fs
  | _ => false
  end.

(** The members of an object with a defined value named [k], and the
    members whose value has one inside. *)
Definition keyLive (k : string) (fs : list (string * jsval)) : bool :=
  existsb (fun kv => String.eqb (fst kv) k && negb (isUndefined (snd kv))) fs.

Definition nestedLive (k : string) (fs : list (string * jsval)) : bool :=
  existsb (fun kv => liveKey k (snd kv)) fs.

(* ------------------------------------------------------------------ *)
(** ** Storage maintenance ([dbUtils.handleStorageQuotaExceeded],
    [dbUtils.deleteAllData], [PinProvider.resetWithWipe],
    [dbUtils.generateExportFilename]) *)

(** [db.entries.bulkDelete(ids)]. *)
Definition bulkDelete (ids : list string) (es : list Entry) : list Entry :=
  filter (fun e => negb (existsb (String.eqb (e_id e)) ids)) es.

(** [dbUtils.handleStorageQuotaExceeded]: keeps the last 1000 entries in
    [created_at] order, returning [(success, message)]. *)
Definition handleStorageQuotaExceeded (st : Store) : (bool * string) * Store :=
  let totalEntries := Z.of_nat (List.length (st_entries st)) in
  let quotaFailure := ((false, "Storage quota exceeded. Please free up space on your device."), st) in
  if Z.ltb 1000 totalEntries then
    let oldEntries := firstn (Z.to_nat (totalEntries - 1000)) (orderByCreatedAt (st_entries st)) in
    if Nat.ltb 0 (List.length oldEntries) then
      ((true, "Cleaned up " ++ numberToString (Z.of_nat (List.length oldEntries))
                ++ " old entries to free storage space."),
       mkStore (st_settings st) (st_prompts st)
         (bulkDelete (map e_id oldEntries) (st_entries st)) (st_streak st))
    else quotaFailure
  else quotaFailure.

(** [s.startsWith(p)] and [s.includes(t)]. *)
Definition startsWith (s p : string) : bool := String.prefix p s.

Fixpoint includes (s t : string) : bool :=
  String.prefix t s || match s with EmptyString => false | String _ r => includes r t end.

(** The keys [deleteAllData] removes from [localStorage] and
    [sessionStorage]. *)
Definition wipedKey (key : string) : bool := startsWith key "nvj_" || includes key "negviz".

(** [Object.keys(storage).forEach(key => { if (...) storage.removeItem(key) })]. *)
Definition clearStorage (ls : LocalStorage) : LocalStorage :=
  fold_left (fun acc key => if wipedKey key then removeItem key acc else acc) (map fst ls) ls.

(** The browser state [deleteAllData] touches: the four Dexie tables, the
    two web storages and the names of the service-worker caches. *)
Record Browser := mkBrowser {
  b_db : Store;
  b_local : LocalStorage;
  b_session : LocalStorage;
  b_caches : list string
}.

(** The common body of [deleteAllData] and [resetWithWipe]. *)
Definition wipeBrowser (b : Browser) : Browser :=
  mkBrowser (mkStore None [] [] None) (clearStorage (b_local b)) (clearStorage (b_session b))
    (filter (fun name => negb (includes name "negviz" || includes name "journal")) (b_caches b)).

(** [dbUtils.deleteAllData]; [hasOtherTabs] is the answer of
    [checkForOtherTabs()]. *)
Definition deleteAllData (hasOtherTabs : bool) (b : Browser) : PinProvider.Result * Browser :=
  if hasOtherTabs then
    (PinProvider.fail "Please close all other tabs with this app open before deleting data.", b)
  else (PinProvider.ok, wipeBrowser b).

(** [PinProvider]'s [resetWithWipe]. *)
Definition resetWithWipe (b : Browser) : PinProvider.Result * Browser :=
  (PinProvider.ok, wipeBrowser b).

(** [toISOString().split('T')[0]]. *)
Fixpoint splitT0 (s : string) : string :=
  match s with
  | String ch r => if Ascii.eqb ch "T" then EmptyString else String ch (splitT0 r)
  | EmptyString => EmptyString
  end.

(** [dbUtils.generateExportFilename]. *)
Definition generateExportFilename (now : Z) : string :=
  "negative-journal-export-" ++ splitT0 (toISOString now) ++ ".json".

(* ------------------------------------------------------------------ *)
(** ** Concrete stores and clocks used below *)

Definition noonOfDay (d : Z) : Clock := mkClock (d * msPerDay + 43200000) 0.
(** 02:00 local time on local day [d] in UTC-5 ([getTimezoneOffset() = 300]). *)
Definition twoAmUTCm5 (d : Z) : Clock := mkClock (d * msPerDay + 25200000) 300.
Definition emptyJournal : Store := mkStore None [] [] (Some (freshStreak 0)).

Definition dayTwoEntry : Entry :=
  mkEntry "entry-216000000" 2 "seed-1" "missed a deadline" "plan ahead" "my team"
          (toISOString 216000000) None None.

Definition dayTwoJournal : Store :=
  mkStore None [] [dayTwoEntry] (Some (mkStreak "main" (toISOString 216000000) 1 1 (Some 2))).

Definition afterTwoDays : Store :=
  runOp (OpUpdateStreak 1 (noonOfDay 1))
   (runOp (OpAddEntry (newEntryAt (noonOfDay 1) "seed-2"))
    (runOp (OpUpdateStreak 0 (noonOfDay 0))
     (runOp (OpAddEntry (newEntryAt (noonOfDay 0) "seed-1"))
      (runOp (OpInitialize (noonOfDay 0)) (mkStore None [] [] None))))).

(** A journal opted in to telemetry, activation already sent. *)
Definition optedInSettings : Settings :=
  mkSettings "main" None None None 5 None false false true (Some "anon_0_k3j5h2l9x") (Some true)
    None None None None None None (toISOString 0) System.

Definition optedInService : Service :=
  mkService (mkStore (Some optedInSettings) [] [] None) [].

Definition completionOnDay (d : Z) : CallEnv :=
  mkCallEnv (noonOfDay d) "k3j5h2l9x" "macOS" "America/New_York" d.

Definition activationQueued : Service :=
  enqueue (fst (createEvent (completionOnDay 3) Activation None (svc_store optedInService)))
          optedInService.


Definition leapDayNoon : Clock := noonOfDay 19783.

Definition seededJournal : Store :=
  initializeSeedPrompts leapDayNoon (mkStore (Some optedInSettings) [] [] None).

Definition swappedSettings : Settings :=
  withSwap 19783 "seed-1" optedInSettings.

Definition swappedJournal : Store :=
  initializeSeedPrompts leapDayNoon
    (mkStore (Some swappedSettings) [] [] (Some (mkStreak "main" (toISOString 0) 3 3 (Some 19782)))).


(** A stand-in key-derivation function for concrete runs: key material
    followed by the salt. *)
Definition keyThenSalt : KDF := fun key salt _ => (key ++ salt)%list.

Definition sampleSalt : list byte := repeat Byte.x2a 16.

Definition pinSettings : Settings :=
  PinProvider.withPin optedInSettings (hashPin keyThenSalt sampleSalt "1234").

Definition pinState (attempts : jsint) : PinProvider.PinState :=
  PinProvider.mkPinState (Some pinSettings) (mkStore (Some pinSettings) [] [] None) false attempts
                         false None [].

(* ================================================================== *)
(** * Theorems *)

(** ** Streak engine *)

Lemma countEntriesOn_app_fresh (d : Z) (es : list Entry) (e : Entry) :
  (forall x, In x es -> dateLocal x <> d) -> dateLocal e = d ->
  countEntriesOn d (es ++ [e])%list = 1.
Proof.
  intros Hes He. unfold countEntriesOn. rewrite filter_app.
  replace (filter (fun x => Z.eqb (dateLocal x) d) es) with (@nil Entry).
  - simpl. rewrite He, Z.eqb_refl. reflexivity.
  - induction es as [|x es IH]; simpl; [reflexivity|].
    destruct (Z.eqb_spec (dateLocal x) d) as [E|_].
    + exfalso. apply (Hes x); [left; reflexivity | exact E].
    + apply IH. intros y Hy. apply Hes. right. exact Hy.
Qed.

Lemma newEntryAt_date (c : Clock) (p : string) :
  dateLocal (newEntryAt c p) = getTodayLocalDay c.
Proof. reflexivity. Qed.

Lemma existsb_id_false (k : string) (es : list Entry) :
  ~ In k (map e_id es) -> existsb (fun x => String.eqb (e_id x) k) es = false.
Proof.
  intros H. apply Bool.not_true_iff_false. intros E.
  apply existsb_exists in E. destruct E as (x & Hx & Ex).
  apply String.eqb_eq in Ex. apply H. rewrite <- Ex. apply in_map. exact Hx.
Qed.

(** One successful first save of a day, on an existing summary: the result of
    [handleSave]'s add and [updateStreak], spelled out. *)
Lemma saveNewEntry_first (c : Clock) (st : Store) (s : StreakSummary) :
  st_streak st = Some s ->
  existsb (fun x => String.eqb (e_id x) (e_id (newEntryAt c "seed-1"))) (st_entries st) = false ->
  (forall x, In x (st_entries st) -> dateLocal x <> getTodayLocalDay c) ->
  saveNewEntry c st = Some (
  let d := getTodayLocalDay c in
  let s1 :=
    match last_entry_date s with
    | None => mkStreak (s_id s) (toISOString (now_ms c)) 1 1 None
    | Some l =>
        if Z.eqb l (todayDay c - 1) then
          mkStreak (s_id s) (start_date s) (current_streak s + 1)
                   (Z.max (longest_streak s) (current_streak s + 1)) (last_entry_date s)
        else if negb (Z.eqb l d) then
          mkStreak (s_id s) (toISOString (now_ms c)) 1 (longest_streak s) (last_entry_date s)
        else s
    end in
  let s2 := mkStreak (s_id s1) (start_date s1) (current_streak s1)
                     (longest_streak s1) (Some d) in
  (mkStreakResult true true s2,
   setStreak s2 (mkStore (st_settings st) (st_prompts st)
                         (st_entries st ++ [newEntryAt c "seed-1"])%list (st_streak st)))).
Proof.
  intros Hs Hfresh Hes. unfold saveNewEntry, addEntry. rewrite Hfresh.
  unfold updateStreak, initializeStreakSummary.
  assert (Hcnt := countEntriesOn_app_fresh (getTodayLocalDay c) (st_entries st)
                    (newEntryAt c "seed-1") Hes (newEntryAt_date c _)).
  cbn [st_streak st_entries]. rewrite Hs. cbn [st_entries]. rewrite Hcnt. reflexivity.
Qed.

(** A first save at an hour where [getTodayLocal] names the device's
    yesterday [d - 1], while [last_entry_date] is two days back (or absent):
    the gap branch runs, and the streak is 1. *)
Lemma saveNewEntry_stuck (c : Clock) (st : Store) (s : StreakSummary) (d : Z) :
  st_streak st = Some s ->
  todayDay c = d -> getTodayLocalDay c = d - 1 ->
  (last_entry_date s = None \/
   last_entry_date s = Some (d - 2) /\ current_streak s = 1 /\ longest_streak s = 1) ->
  ~ In (e_id (newEntryAt c "seed-1")) (map e_id (st_entries st)) ->
  (forall x, In x (st_entries st) -> dateLocal x < d - 1) ->
  exists s', saveNewEntry c st =
      Some (mkStreakResult true true s',
            setStreak s' (mkStore (st_settings st) (st_prompts st)
                                  (st_entries st ++ [newEntryAt c "seed-1"])%list (st_streak st))) /\
    current_streak s' = 1 /\ longest_streak s' = 1 /\ last_entry_date s' = Some (d - 1).
Proof.
  intros Hs Ht Hg Hlast Hfresh Hes.
  rewrite (saveNewEntry_first c st s Hs (existsb_id_false _ _ Hfresh)).
  2:{ intros x Hx. specialize (Hes x Hx). lia. }
  cbv zeta. rewrite Ht, Hg. destruct Hlast as [Hn|(Hl & Hc & Hlo)].
  - rewrite Hn. eexists; split; [reflexivity|]. simpl. auto.
  - rewrite Hl. destruct (Z.eqb_spec (d - 2) (d - 1)) as [E|_]; [lia|].
    destruct (Z.eqb_spec (d - 2) (d - 1)) as [E|_]; [lia|].
    eexists; split; [reflexivity|]. simpl. auto.
Qed.

Lemma runDaily_stuck (cs : list Clock) :
  forall (d0 : Z) (st : Store) (s : StreakSummary),
    st_streak st = Some s ->
    (last_entry_date s = None \/
     last_entry_date s = Some (d0 - 2) /\ current_streak s = 1 /\ longest_streak s = 1) ->
    (forall x, In x (st_entries st) -> dateLocal x < d0 - 1) ->
    (forall i c, nth_error cs i = Some c ->
       todayDay c = d0 + Z.of_nat i /\ getTodayLocalDay c = todayDay c - 1) ->
    NoDup (map (fun c => e_id (newEntryAt c "seed-1")) cs ++ map e_id (st_entries st))%list ->
    cs <> [] ->
    exists s', st_streak (runDaily cs st) = Some s' /\
      current_streak s' = 1 /\ longest_streak s' = 1.
Proof.
  induction cs as [|c cs IH]; intros d0 st s Hs Hlast Hes Hdays Hnd Hne; [congruence|].
  destruct (Hdays 0%nat c eq_refl) as [Ht Hg]. rewrite Z.add_0_r in Ht.
  cbn [map List.app] in Hnd. pose proof Hnd as Hnd0. apply NoDup_cons_iff in Hnd0.
  destruct Hnd0 as [Hnin Hnd'].
  destruct (saveNewEntry_stuck c st s d0 Hs Ht ltac:(lia) Hlast) as (s' & E & Hc & Hl & Hla).
  { intros Hin. apply Hnin. apply in_or_app. right. exact Hin. }
  { exact Hes. }
  cbn [runDaily]. rewrite E. cbn [snd].
  destruct cs as [|c' cs'].
  - exists s'. auto.
  - apply (IH (d0 + 1) _ s'); [reflexivity| | | | |discriminate].
    + right. split; [rewrite Hla; f_equal; lia | auto].
    + cbn [setStreak st_entries]. intros x Hx. apply in_app_or in Hx.
      destruct Hx as [Hx|[<-|[]]]; [specialize (Hes x Hx); lia|].
      rewrite newEntryAt_date. lia.
    + intros i c1 Hi. destruct (Hdays (S i) c1 Hi) as [H1 H2]. split; [lia|exact H2].
    + cbn [setStreak st_entries]. rewrite map_app. cbn [map].
      rewrite List.app_assoc. apply (Permutation_NoDup (Permutation_cons_append _ _)).
      exact Hnd.
Qed.

(** C1. The spec: from the freshly initialised summary (0, 0, no last date),
    saving the first entry of each of N consecutive local days and calling
    [updateStreak] after each save yields [current_streak = N] and
    [longest_streak = N].  [handleSave] dates the entry, and calls
    [updateStreak], with [getTodayLocal()], which applies the offset twice:
    at an hour where that date is the device's yesterday (02:00 local in
    UTC-5), each day's entry is dated one day back, [last_entry_date] is then
    two days behind [yesterdayLocal], the gap branch runs at every save, and
    after any number N >= 1 of daily saves both counters are 1. *)
Theorem C1_streak_stuck_at_one :
  forall (cs : list Clock) (d0 t0 : Z) (st : Store),
    st_streak st = Some (freshStreak t0) ->
    (forall e, In e (st_entries st) -> dateLocal e < d0 - 1) ->
    (forall i c, nth_error cs i = Some c ->
       todayDay c = d0 + Z.of_nat i /\ getTodayLocalDay c = todayDay c - 1) ->
    NoDup (map (fun c => e_id (newEntryAt c "seed-1")) cs ++ map e_id (st_entries st))%list ->
    cs <> [] ->
    exists s, st_streak (runDaily cs st) = Some s /\
      current_streak s = 1 /\ longest_streak s = 1.
Proof.
  intros cs d0 t0 st Hs Hes Hdays Hnd Hne.
  apply (runDaily_stuck cs d0 st (freshStreak t0) Hs); auto.
Qed.

(** Three daily saves at 02:00 in UTC-5 (2024-03-01, -02, -03): the streak
    is 1, not 3. *)
Lemma C1_witness :
  exists s, st_streak (runDaily [twoAmUTCm5 19783; twoAmUTCm5 19784; twoAmUTCm5 19785]
                                emptyJournal) = Some s /\
    current_streak s = 1 /\ longest_streak s = 1.
Proof.
  apply (C1_streak_stuck_at_one _ 19783 0 emptyJournal).
  - reflexivity.
  - intros e [].
  - intros [|[|[|i]]] c H; simpl in H;
      [injection H as <-; split; vm_compute; reflexivity ..| destruct i; discriminate].
  - vm_compute. repeat constructor; simpl; intuition discriminate.
  - discriminate.
Defined.

Lemma countEntriesOn_app (d : Z) (es : list Entry) (e : Entry) :
  countEntriesOn d (es ++ [e])%list =
  countEntriesOn d es + (if Z.eqb (dateLocal e) d then 1 else 0).
Proof.
  unfold countEntriesOn. rewrite filter_app, length_app. simpl.
  destruct (Z.eqb (dateLocal e) d); simpl; lia.
Qed.

Lemma countEntriesOn_pos (d : Z) (es : list Entry) (x : Entry) :
  In x es -> dateLocal x = d -> 1 <= countEntriesOn d es.
Proof.
  intros Hx Hd. unfold countEntriesOn.
  assert (In x (filter (fun e => Z.eqb (dateLocal e) d) es)).
  { apply filter_In. split; [exact Hx | apply Z.eqb_eq; exact Hd]. }
  destruct (filter (fun e => Z.eqb (dateLocal e) d) es); [destruct H|simpl; lia].
Qed.

(** Replacing rows by a row of the same date keeps the count of a date. *)
Lemma countEntriesOn_replace (d : Z) (es : list Entry) (e : Entry) :
  (forall x, In x es -> e_id x = e_id e -> dateLocal x = dateLocal e) ->
  countEntriesOn d (map (fun x => if String.eqb (e_id x) (e_id e) then e else x) es) =
  countEntriesOn d es.
Proof.
  intros H. unfold countEntriesOn. f_equal.
  induction es as [|x es IH]; simpl; [reflexivity|].
  assert (IH' := IH (fun y Hy => H y (or_intror Hy))).
  destruct (String.eqb_spec (e_id x) (e_id e)) as [E|_].
  - rewrite (H x (or_introl eq_refl) E).
    destruct (Z.eqb (dateLocal e) d); simpl; rewrite IH'; reflexivity.
  - destruct (Z.eqb (dateLocal x) d); simpl; rewrite IH'; reflexivity.
Qed.

(** C2. The spec: calling [updateStreak(D)] for a date [D] that already had
    an entry leaves the summary unchanged and reports [isFirstToday = false].
    This holds when [handleSave] adds a new row for [D] (first part).  But
    when a save edits in place the only row of [D = getTodayLocal()] (the
    edit branch of [handleSave]), the count for [D] is still 1: the call
    reports [isFirstToday = true] and, when [last_entry_date] is the device's
    yesterday, raises [current_streak] by one (second part).  The latter is
    the state every first save leaves behind at an hour where
    [getTodayLocal] names the device's yesterday. *)
Theorem C2_edit_raises_streak :
  (forall (D : Z) (c : Clock) (st st1 : Store) (s : StreakSummary) (x e : Entry),
     st_streak st = Some s ->
     In x (st_entries st) -> dateLocal x = D -> dateLocal e = D ->
     addEntry e st = Some st1 ->
     updateStreak D c st1 = (mkStreakResult false false s, st1)) /\
  (forall (c : Clock) (st : Store) (s : StreakSummary) (x : Entry) (sb ps gr : string),
     st_streak st = Some s ->
     In x (st_entries st) -> dateLocal x = getTodayLocalDay c ->
     countEntriesOn (getTodayLocalDay c) (st_entries st) = 1 ->
     (forall y, In y (st_entries st) -> e_id y = e_id x -> dateLocal y = dateLocal x) ->
     last_entry_date s = Some (todayDay c - 1) ->
     let r := saveEditedEntry c x sb ps gr st in
     isFirstToday (fst r) = true /\
     st_streak (snd r) =
       Some (mkStreak (s_id s) (start_date s) (current_streak s + 1)
                      (Z.max (longest_streak s) (current_streak s + 1))
                      (Some (getTodayLocalDay c)))).
Proof.
  split.
  - intros D c st st1 s x e Hs Hx Hxd Hed Hadd.
    unfold addEntry in Hadd. destruct (existsb _ _) in Hadd; [discriminate|].
    injection Hadd as <-.
    unfold updateStreak, initializeStreakSummary. cbn [st_streak st_entries].
    rewrite Hs. cbn [st_entries].
    assert (Hpos := countEntriesOn_pos _ _ x Hx Hxd).
    rewrite countEntriesOn_app, Hed, Z.eqb_refl.
    destruct (Z.eqb_spec (countEntriesOn D (st_entries st) + 1) 1); [lia|].
    reflexivity.
  - intros c st s x sb ps gr Hs Hx Hxd Hcnt Hid Hlast. cbv zeta.
    unfold saveEditedEntry, updateStreak, initializeStreakSummary, putEntry.
    cbn [st_streak st_entries]. rewrite Hs.
    assert (Hex : existsb (fun y => String.eqb (e_id y) (e_id (editedEntry x sb ps gr c)))
                          (st_entries st) = true).
    { apply existsb_exists. exists x. split; [exact Hx|apply String.eqb_refl]. }
    rewrite Hex. cbn [st_entries].
    rewrite countEntriesOn_replace by (intros y Hy E; exact (Hid y Hy E)).
    rewrite Hcnt, Hlast. cbn -[Z.add Z.sub Z.max]. rewrite Z.eqb_refl.
    split; reflexivity.
Qed.

(** 2024-03-01, 02:00 in UTC-5: the day's first save is dated 2024-02-29
    (day 19782) and starts the streak at 1; a second save 10 minutes later
    with a new row is not counted, but an edit of the saved entry is counted
    again, and so is an edit of the edited entry: the streak climbs to 3. *)
Lemma C2_witness :
  let c := twoAmUTCm5 19783 in
  let c' := mkClock (now_ms c + 600000) 300 in
  let st0 := runDaily [c] emptyJournal in
  let x := newEntryAt c "seed-1" in
  let s0 := mkStreak "main" (toISOString (now_ms c)) 1 1 (Some 19782) in
  let e := newEntryAt c' "seed-2" in
  let st1 := match addEntry e st0 with Some st1 => st1 | None => st0 end in
  let r1 := saveEditedEntry c' x "missed a deadline" "plan ahead" "my team" st0 in
  let x' := editedEntry x "missed a deadline" "plan ahead" "my team" c' in
  let r2 := saveEditedEntry c' x' "missed two deadlines" "plan ahead" "my team" (snd r1) in
  updateStreak 19782 c' st1 = (mkStreakResult false false s0, st1) /\
  (isFirstToday (fst r1) = true /\
   st_streak (snd r1) = Some (mkStreak "main" (toISOString (now_ms c)) 2 2 (Some 19782))) /\
  (isFirstToday (fst r2) = true /\
   st_streak (snd r2) = Some (mkStreak "main" (toISOString (now_ms c)) 3 3 (Some 19782))).
Proof.
  cbv zeta. split; [|split].
  - apply (proj1 C2_edit_raises_streak 19782 _ (runDaily [twoAmUTCm5 19783] emptyJournal) _ _
             (newEntryAt (twoAmUTCm5 19783) "seed-1")
             (newEntryAt (mkClock (now_ms (twoAmUTCm5 19783) + 600000) 300) "seed-2")).
    + vm_compute. reflexivity.
    + vm_compute. left. reflexivity.
    + vm_compute. reflexivity.
    + vm_compute. reflexivity.
    + vm_compute. reflexivity.
  - destruct (proj2 C2_edit_raises_streak
                (mkClock (now_ms (twoAmUTCm5 19783) + 600000) 300)
                (runDaily [twoAmUTCm5 19783] emptyJournal)
                (mkStreak "main" (toISOString (now_ms (twoAmUTCm5 19783))) 1 1 (Some 19782))
                (newEntryAt (twoAmUTCm5 19783) "seed-1")
                "missed a deadline" "plan ahead" "my team"
                ltac:(vm_compute; reflexivity) ltac:(vm_compute; left; reflexivity)
                ltac:(vm_compute; reflexivity) ltac:(vm_compute; reflexivity)
                ltac:(vm_compute; intros y [<-|[]] _; reflexivity)
                ltac:(vm_compute; reflexivity)) as [H1 H2].
    split; [exact H1|rewrite H2; vm_compute; reflexivity].
  - destruct (proj2 C2_edit_raises_streak
                (mkClock (now_ms (twoAmUTCm5 19783) + 600000) 300)
                (snd (saveEditedEntry (mkClock (now_ms (twoAmUTCm5 19783) + 600000) 300)
                        (newEntryAt (twoAmUTCm5 19783) "seed-1")
                        "missed a deadline" "plan ahead" "my team"
                        (runDaily [twoAmUTCm5 19783] emptyJournal)))
                (mkStreak "main" (toISOString (now_ms (twoAmUTCm5 19783))) 2 2 (Some 19782))
                (editedEntry (newEntryAt (twoAmUTCm5 19783) "seed-1")
                   "missed a deadline" "plan ahead" "my team"
                   (mkClock (now_ms (twoAmUTCm5 19783) + 600000) 300))
                "missed two deadlines" "plan ahead" "my team"
                ltac:(vm_compute; reflexivity) ltac:(vm_compute; left; reflexivity)
                ltac:(vm_compute; reflexivity) ltac:(vm_compute; reflexivity)
                ltac:(vm_compute; intros y [<-|[]] _; reflexivity)
                ltac:(vm_compute; reflexivity)) as [H1 H2].
    split; [exact H1|rewrite H2; vm_compute; reflexivity].
Defined.

(** ** The streak invariant *)

Lemma initializeStreakSummary_inv (c : Clock) (st : Store) :
  streakInv (st_streak st) ->
  streakInv (st_streak (snd (initializeStreakSummary c st))) /\
  st_streak (snd (initializeStreakSummary c st)) = Some (fst (initializeStreakSummary c st)).
Proof.
  unfold initializeStreakSummary. destruct (st_streak st) as [s|] eqn:E; intros H.
  - simpl. rewrite E. auto.
  - simpl. split; [|reflexivity]. repeat split; try lia. simpl. intros []; reflexivity.
Qed.

Lemma updateStreak_inv (d : Z) (c : Clock) (st : Store) :
  streakInv (st_streak st) -> streakInv (st_streak (snd (updateStreak d c st))).
Proof.
  intros H. unfold updateStreak.
  destruct (initializeStreakSummary_inv c st H) as [H1 E1].
  destruct (initializeStreakSummary c st) as [s st1]. simpl in H1, E1 |- *.
  rewrite E1 in H1. destruct H1 as (H0 & Hle & Hlast).
  destruct (negb (Z.eqb (countEntriesOn d (st_entries st1)) 1)).
  - simpl. rewrite E1. simpl. auto.
  - simpl. destruct (last_entry_date s) as [l|] eqn:El.
    + destruct (Z.eqb l (todayDay c - 1)).
      * cbn [current_streak longest_streak last_entry_date].
        repeat split; first [lia | intros _; lia].
      * destruct (negb (Z.eqb l d)); simpl.
        -- assert (1 <= current_streak s) by (apply Hlast; congruence).
           repeat split; first [lia | intros _; lia].
        -- assert (1 <= current_streak s) by (apply Hlast; congruence).
           repeat split; first [lia | intros _; lia].
    + simpl. repeat split; first [lia | intros _; lia].
Qed.

(** Whatever the stored counters, the repaired row of
    [validateAndRecoverStreakData] has [0 <= current <= longest]. *)
Lemma recovered_counters_ordered (cur lon : Z) :
  0 <= Z.max 0 (Z.min cur lon) /\ Z.max 0 (Z.min cur lon) <= Z.max 0 (Z.max lon cur).
Proof. lia. Qed.

Lemma validate_inv (ok : bool) (c : Clock) (st : Store) :
  streakInv (st_streak st) ->
  streakInv (st_streak (snd (validateAndRecoverStreakData ok c st))).
Proof.
  intros H. unfold validateAndRecoverStreakData.
  destruct (initializeStreakSummary_inv c st H) as [H1 _].
  destruct ok; simpl.
  - destruct (st_streak st) as [s|] eqn:E.
    + simpl in H. destruct H as (H0 & Hle & Hlast).
      replace (Z.ltb (current_streak s) 0 || Z.ltb (longest_streak s) 0
               || Z.ltb (longest_streak s) (current_streak s))%bool with false
        by (symmetry; repeat rewrite Bool.orb_false_iff; repeat split; apply Z.ltb_ge; lia).
      simpl. rewrite E. simpl. auto.
    + destruct (initializeStreakSummary c st) as [s st1]. exact H1.
  - destruct (initializeStreakSummary c st) as [s st1]. exact H1.
Qed.

Lemma reset_inv (c : Clock) (st : Store) :
  streakInv (st_streak (snd (resetStreakData c st))).
Proof.
  unfold resetStreakData. simpl. repeat split; try lia. intros []; reflexivity.
Qed.

Lemma runOp_inv (o : StreakOp) (st : Store) :
  streakInv (st_streak st) -> streakInv (st_streak (runOp o st)).
Proof.
  intros H. destruct o; cbn [runOp].
  - exact (proj1 (initializeStreakSummary_inv c st H)).
  - unfold addEntry. destruct (existsb _ _); exact H.
  - unfold putEntry. simpl. exact H.
  - apply updateStreak_inv; exact H.
  - apply validate_inv; exact H.
  - apply reset_inv.
Qed.

Lemma reachable_inv (st : Store) : reachable st -> streakInv (st_streak st).
Proof.
  induction 1 as [st E|o st _ IH].
  - rewrite E. exact I.
  - apply runOp_inv. exact IH.
Qed.

(** C3. In every store reachable through initializeStreakSummary,
    updateStreak, validateAndRecoverStreakData and resetStreakData (with
    any entry writes in between), the streak summary satisfies
    [0 <= current_streak <= longest_streak]. *)
Theorem C3_streak_bounds_invariant (st : Store) (s : StreakSummary) :
  reachable st -> st_streak st = Some s ->
  0 <= current_streak s /\ current_streak s <= longest_streak s.
Proof.
  intros Hr Hs. pose proof (reachable_inv st Hr) as H. rewrite Hs in H.
  destruct H as (H0 & H1 & _). split; assumption.
Qed.

Lemma C3_witness :
  0 <= 2 /\ 2 <= 2.
Proof.
  apply (C3_streak_bounds_invariant afterTwoDays (mkStreak "main" (toISOString 43200000) 2 2 (Some 1))).
  - unfold afterTwoDays. repeat apply reach_step. apply reach_start. reflexivity.
  - vm_compute. reflexivity.
Defined.

(** ** Local date *)

(** [getTodayLocal] subtracts the offset once by hand and once more through
    the local accessors: it returns the calendar date of the instant in a
    zone whose offset is twice the device's. *)
Lemma getTodayLocal_double_offset (c : Clock) :
  getTodayLocal c = fmtDay (localDayOf (now_ms c) (2 * tz_offset c)).
Proof.
  unfold getTodayLocal, getTodayLocalDay, localDayOf. f_equal. f_equal. ring.
Qed.

(** C4 (code bug). At 02:00 on 2024-03-01 in New York (UTC-5, offset 300
    minutes, instant 2024-03-01T07:00:00Z) the local date is 2024-03-01,
    as [promptUtils.getTodayString] computes it, but [dbUtils.getTodayLocal]
    returns 2024-02-29. *)
Theorem C4_getTodayLocal_not_local_date :
  toISOString 1709276400000 = "2024-03-01T07:00:00.000Z" /\
  getTodayString (mkClock 1709276400000 300) = "2024-03-01" /\
  getTodayLocal (mkClock 1709276400000 300) = "2024-02-29".
Proof. vm_compute. repeat split. Qed.

(** ** Telemetry *)

(** C5 (code bug). Seven consecutive daily completions enqueue one
    [d7_completion] event and an eighth does not enqueue another; but after
    eight consecutive days, a one-day gap and seven more consecutive days, a
    second [d7_completion] event is enqueued: on day 8 the code writes
    [d7EventSent = false] ([newConsecutiveDays >= 7 ? false : ...]). *)
Theorem C5_d7_refires_after_gap :
  countD7 (runCompletions (map completionOnDay [0; 1; 2; 3; 4; 5; 6]) optedInService) = 1%nat /\
  countD7 (runCompletions (map completionOnDay [0; 1; 2; 3; 4; 5; 6; 7]) optedInService) = 1%nat /\
  telemetryD7EventSent (match st_settings (svc_store
     (runCompletions (map completionOnDay [0; 1; 2; 3; 4; 5; 6; 7]) optedInService)) with
     | Some s => s | None => optedInSettings end) = Some false /\
  countD7 (runCompletions
             (map completionOnDay [0; 1; 2; 3; 4; 5; 6; 7; 9; 10; 11; 12; 13; 14; 15])
             optedInService) = 2%nat.
Proof. vm_compute. repeat split. Qed.

(** ** Prompt scheduler *)

Lemma insertByKey_perm (p : Prompt) (l : list Prompt) :
  Permutation (insertByKey p l) (p :: l).
Proof.
  induction l as [|q l IH]; simpl; [reflexivity|].
  destruct (String.leb (p_id p) (p_id q)); [reflexivity|].
  eapply perm_trans; [apply perm_skip, IH | apply perm_swap].
Qed.

Lemma promptsToArray_perm (l : list Prompt) : Permutation (promptsToArray l) l.
Proof.
  induction l as [|p l IH]; simpl; [reflexivity|].
  eapply perm_trans; [apply insertByKey_perm | apply perm_skip, IH].
Qed.

Lemma promptsToArray_In (p : Prompt) (l : list Prompt) :
  In p (promptsToArray l) <-> In p l.
Proof.
  split; apply Permutation_in; [|symmetry]; apply promptsToArray_perm.
Qed.

Lemma swapTodayPrompt_success_sets_day (c : Clock) (install : jsint) (r : nat) (st : Store) :
  success (fst (swapTodayPrompt c install r st)) = true ->
  exists s, st_settings (snd (swapTodayPrompt c install r st)) = Some s /\
            swapUsedDate s = Some (todayDay c).
Proof.
  unfold swapTodayPrompt.
  destruct (st_settings st) as [set|]; [|discriminate].
  destruct (negb (canSwapToday c (swapUsedDate set))); [discriminate|].
  destruct (getTodayPrompt c install (promptsToArray (st_prompts st))) as [[cur|]|]; try discriminate.
  destruct (getSwapPrompt (p_id cur) (lastPromptId set) (promptsToArray (st_prompts st)) r) as [np|]; [|discriminate].
  destruct (String.eqb (p_id np) (p_id cur)); [discriminate|].
  intros _. eexists. split; reflexivity.
Qed.

(** C6. When [settings.swapUsedDate] is already today's date,
    [swapTodayPrompt] fails and leaves the store exactly as it was; in
    particular, after a successful swap, a second swap on the same local
    calendar day is rejected. *)
Theorem C6_swap_rejected_same_day :
  (forall (c : Clock) (install : jsint) (r : nat) (st : Store) (s : Settings),
     st_settings st = Some s -> swapUsedDate s = Some (todayDay c) ->
     success (fst (swapTodayPrompt c install r st)) = false /\
     snd (swapTodayPrompt c install r st) = st) /\
  (forall (c c' : Clock) (install : jsint) (r r' : nat) (st : Store),
     success (fst (swapTodayPrompt c install r st)) = true -> todayDay c' = todayDay c ->
     let st' := snd (swapTodayPrompt c install r st) in
     success (fst (swapTodayPrompt c' install r' st')) = false /\
     snd (swapTodayPrompt c' install r' st') = st').
Proof.
  assert (H : forall (c : Clock) (install : jsint) (r : nat) (st : Store) (s : Settings),
     st_settings st = Some s -> swapUsedDate s = Some (todayDay c) ->
     success (fst (swapTodayPrompt c install r st)) = false /\
     snd (swapTodayPrompt c install r st) = st).
  { intros c install r st s Hs Hd. unfold swapTodayPrompt. rewrite Hs.
    unfold canSwapToday. rewrite Hd, Z.eqb_refl. simpl. split; reflexivity. }
  split; [exact H|].
  intros c c' install r r' st Hok Hday. cbv zeta.
  destruct (swapTodayPrompt_success_sets_day c install r st Hok) as (s & Hs & Hd).
  apply (H c' install r' _ s Hs). rewrite Hd, Hday. reflexivity.
Qed.

Lemma C6_witness :
  (success (fst (swapTodayPrompt leapDayNoon (Some (now_ms leapDayNoon)) 3 swappedJournal)) = false /\
   snd (swapTodayPrompt leapDayNoon (Some (now_ms leapDayNoon)) 3 swappedJournal) = swappedJournal) /\
  (let st' := snd (swapTodayPrompt leapDayNoon (Some (now_ms leapDayNoon)) 5 seededJournal) in
   success (fst (swapTodayPrompt (mkClock (now_ms leapDayNoon + 3600000) 0)
                   (Some (now_ms leapDayNoon)) 2 st')) = false /\
   snd (swapTodayPrompt (mkClock (now_ms leapDayNoon + 3600000) 0)
          (Some (now_ms leapDayNoon)) 2 st') = st').
Proof.
  split.
  - apply (proj1 C6_swap_rejected_same_day leapDayNoon _ 3%nat swappedJournal swappedSettings);
      reflexivity.
  - apply (proj2 C6_swap_rejected_same_day leapDayNoon (mkClock (now_ms leapDayNoon + 3600000) 0)).
    + vm_compute. reflexivity.
    + vm_compute. reflexivity.
Defined.

(** C7 (code bug). [getCurrentPrompt] does return a prompt when the
    settings read throws, but with a readable store holding the seed catalog
    and an install date 1000 days after the device clock it returns
    [undefined]: [pseudoRandom(-1000) % 10] is [-7] and [seedPrompts[-7]]
    is [undefined]. *)
Theorem C7_getCurrentPrompt_undefined :
  (forall (c : Clock) (install : jsint) (m : string) (ps : Throws (list Prompt)),
     getCurrentPrompt c install (mkStoreReads (Throw m) ps) <> None) /\
  pseudoRandom (daysSinceInstall leapDayNoon (Some (now_ms leapDayNoon + 1000 * msPerDay)))
    = Some (-650620777) /\
  getCurrentPrompt leapDayNoon (Some (now_ms leapDayNoon + 1000 * msPerDay))
    (readsOf seededJournal) = None.
Proof.
  split.
  - intros c install m ps. unfold getCurrentPrompt. simpl. discriminate.
  - split; vm_compute; reflexivity.
Qed.

(** ** Streak reset *)

(** C10 (code bug). [resetStreakData] zeroes both counters, resets
    [start_date] and leaves entries and prompts alone, and the only settings
    field it changes is [lastPromptId], set to the backup string. That field
    is not unused: [getCurrentPrompt] reads it on a day whose [swapUsedDate]
    is today, so after a swap to seed-1 the reset turns today's prompt back
    into the default seed-3 (the default index 3 is taken in the key order
    of [toArray], seed-1, seed-10, seed-2, seed-3, ...). *)
Theorem C10_reset_overwrites_lastPromptId (c : Clock) (st : Store)
  (cur : StreakSummary) (set : Settings) :
  st_streak st = Some cur -> st_settings st = Some set ->
  snd (resetStreakData c st) =
    mkStore (Some (withLastPromptId (Some (streakBackup (now_ms c) cur)) set))
            (st_prompts st) (st_entries st)
            (Some (mkStreak "main" (toISOString (now_ms c)) 0 0 None)) /\
  option_map p_id (getCurrentPrompt leapDayNoon (Some (now_ms leapDayNoon))
                     (readsOf swappedJournal)) = Some "seed-1" /\
  option_map p_id (getCurrentPrompt leapDayNoon (Some (now_ms leapDayNoon))
                     (readsOf (snd (resetStreakData leapDayNoon swappedJournal)))) = Some "seed-3".
Proof.
  intros Hcur Hset. split.
  - unfold resetStreakData. rewrite Hcur, Hset. destruct st. reflexivity.
  - split; vm_compute; reflexivity.
Qed.

Lemma C10_witness :
  snd (resetStreakData leapDayNoon swappedJournal) =
    mkStore (Some (withLastPromptId
                     (Some (streakBackup (now_ms leapDayNoon)
                              (mkStreak "main" (toISOString 0) 3 3 (Some 19782))))
                     swappedSettings))
            (st_prompts swappedJournal) (st_entries swappedJournal)
            (Some (mkStreak "main" (toISOString (now_ms leapDayNoon)) 0 0 None)).
Proof.
  apply (C10_reset_overwrites_lastPromptId leapDayNoon swappedJournal
           (mkStreak "main" (toISOString 0) 3 3 (Some 19782)) swappedSettings);
    vm_compute; reflexivity.
Defined.

(** ** PIN hashing *)

Ltac divlia := Z.div_mod_to_equations; lia.

Lemma b64_digit (k : Z) : 0 <= k < 64 -> b64index (b64char k) = Some k.
Proof.
  intros Hk.
  assert (H : forallb (fun n => match b64index (b64char (Z.of_nat n)) with
                                | Some k' => Z.eqb k' (Z.of_nat n) | None => false end)
                      (seq 0 64) = true) by (vm_compute; reflexivity).
  rewrite forallb_forall in H.
  specialize (H (Z.to_nat k)). rewrite Z2Nat.id in H by lia.
  destruct (b64index (b64char k)) as [k'|] eqn:E.
  - apply Z.eqb_eq in H; [congruence|]. apply in_seq. lia.
  - exfalso. assert (Hin : In (Z.to_nat k) (seq 0 64)) by (apply in_seq; lia).
    specialize (H Hin). discriminate.
Qed.

Lemma charCode_range (ch : ascii) : 0 <= charCode ch < 256.
Proof. unfold charCode. pose proof (nat_ascii_bounded ch). lia. Qed.

Lemma fromCharCode_charCode (ch : ascii) : fromCharCode (charCode ch) = ch.
Proof. unfold fromCharCode, charCode. rewrite Nat2Z.id. apply ascii_nat_embedding. Qed.

Lemma charCode_inj (x y : ascii) : charCode x = charCode y -> x = y.
Proof.
  intros H. rewrite <- (fromCharCode_charCode x), <- (fromCharCode_charCode y), H.
  reflexivity.
Qed.

Lemma b64index_pad : b64index "=" = None.
Proof. reflexivity. Qed.

Lemma b64char_plain (k : Z) :
  0 <= k < 64 -> isAsciiWhitespace (b64char k) = false /\ Ascii.eqb (b64char k) "=" = false.
Proof.
  intros Hk.
  assert (H : forallb (fun n => negb (isAsciiWhitespace (b64char (Z.of_nat n))) &&
                                negb (Ascii.eqb (b64char (Z.of_nat n)) "="))
                      (seq 0 64) = true) by (vm_compute; reflexivity).
  rewrite forallb_forall in H.
  assert (Hin : In (Z.to_nat k) (seq 0 64)) by (apply in_seq; lia).
  specialize (H _ Hin). rewrite Z2Nat.id in H by lia.
  apply andb_prop in H as [H1 H2]. apply negb_true_iff in H1, H2. auto.
Qed.

Lemma dec3_enc (a b c : ascii) :
  let n := charCode a * 65536 + charCode b * 256 + charCode c in
  dec3 (n / 262144) ((n / 4096) mod 64) ((n / 64) mod 64) (n mod 64) = [a; b; c].
Proof.
  pose proof (charCode_range a). pose proof (charCode_range b). pose proof (charCode_range c).
  intros n. unfold dec3.
  replace (n / 262144 * 262144 + (n / 4096) mod 64 * 4096 + (n / 64) mod 64 * 64 + n mod 64)
    with n by divlia.
  replace (n / 65536) with (charCode a) by divlia.
  replace ((n / 256) mod 256) with (charCode b) by divlia.
  replace (n mod 256) with (charCode c) by divlia.
  rewrite !fromCharCode_charCode. reflexivity.
Qed.

Lemma dec2_enc (a b : ascii) :
  let n := charCode a * 65536 + charCode b * 256 in
  dec2 (n / 262144) ((n / 4096) mod 64) ((n / 64) mod 64) = [a; b].
Proof.
  pose proof (charCode_range a). pose proof (charCode_range b).
  intros n. unfold dec2.
  replace (n / 262144 * 262144 + (n / 4096) mod 64 * 4096 + (n / 64) mod 64 * 64)
    with n by divlia.
  replace (n / 65536) with (charCode a) by divlia.
  replace ((n / 256) mod 256) with (charCode b) by divlia.
  rewrite !fromCharCode_charCode. reflexivity.
Qed.

Lemma dec1_enc (a : ascii) :
  let n := charCode a * 65536 in
  dec1 (n / 262144) ((n / 4096) mod 64) = [a].
Proof.
  pose proof (charCode_range a).
  intros n. unfold dec1.
  replace (n / 262144 * 262144 + (n / 4096) mod 64 * 4096) with n by divlia.
  replace (n / 65536) with (charCode a) by divlia.
  rewrite !fromCharCode_charCode. reflexivity.
Qed.

(** [btoa]'s output is the alphabet characters of a list of sextets, then
    its padding; the sextets decode back to the input. *)
Lemma btoaL_shape (l : list ascii) :
  exists S pad,
    btoaL l = (map b64char S ++ pad)%list /\ Forall (fun k => 0 <= k < 64) S /\
    (pad = [] /\ Nat.modulo (List.length S) 4 = 0%nat \/
     pad = ["="%char] /\ Nat.modulo (List.length S) 4 = 3%nat \/
     pad = ["="%char; "="%char] /\ Nat.modulo (List.length S) 4 = 2%nat) /\
    decodeSextets S = l.
Proof.
  assert (H : forall k l, (List.length l <= k)%nat ->
    exists S pad,
      btoaL l = (map b64char S ++ pad)%list /\ Forall (fun k => 0 <= k < 64) S /\
      (pad = [] /\ Nat.modulo (List.length S) 4 = 0%nat \/
       pad = ["="%char] /\ Nat.modulo (List.length S) 4 = 3%nat \/
       pad = ["="%char; "="%char] /\ Nat.modulo (List.length S) 4 = 2%nat) /\
      decodeSextets S = l).
  { induction k as [|k IH]; intros l' Hl.
    - destruct l'; [|simpl in Hl; lia].
      exists [], []. repeat split; [constructor|left; auto].
    - destruct l' as [|a [|b [|c rest]]].
      + exists [], []. repeat split; [constructor|left; auto].
      + pose proof (charCode_range a).
        set (n := charCode a * 65536).
        exists [n / 262144; (n / 4096) mod 64], ["="%char; "="%char].
        split; [reflexivity|]. split.
        * repeat constructor; unfold n; divlia.
        * split; [right; right; auto|]. apply dec1_enc.
      + pose proof (charCode_range a). pose proof (charCode_range b).
        set (n := charCode a * 65536 + charCode b * 256).
        exists [n / 262144; (n / 4096) mod 64; (n / 64) mod 64], ["="%char].
        split; [reflexivity|]. split.
        * repeat constructor; unfold n; divlia.
        * split; [right; left; auto|]. apply dec2_enc.
      + destruct (IH rest) as (S & pad & E & HS & Hpad & Hdec); [simpl in Hl; lia|].
        pose proof (charCode_range a). pose proof (charCode_range b).
        pose proof (charCode_range c).
        set (n := charCode a * 65536 + charCode b * 256 + charCode c).
        exists ([n / 262144; (n / 4096) mod 64; (n / 64) mod 64; n mod 64] ++ S)%list, pad.
        split; [cbn [btoaL]; rewrite E; reflexivity|]. split.
        * apply Forall_app. split; [repeat constructor; unfold n; divlia | exact HS].
        * split.
          -- replace (List.length ([n / 262144; (n / 4096) mod 64; (n / 64) mod 64; n mod 64] ++ S))
               with (List.length S + 1 * 4)%nat by (rewrite length_app; cbn; lia).
             rewrite Nat.Div0.mod_add. exact Hpad.
          -- cbn [List.app decodeSextets]. rewrite Hdec. unfold n. rewrite dec3_enc. reflexivity. }
  apply (H (List.length l)). lia.
Qed.

Lemma filter_keep {A} (f : A -> bool) (l : list A) :
  Forall (fun x => f x = true) l -> filter f l = l.
Proof.
  induction 1 as [|x l Hx _ IH]; cbn; [reflexivity|]. rewrite Hx, IH. reflexivity.
Qed.

Lemma sextets_b64char (S : list Z) :
  Forall (fun k => 0 <= k < 64) S -> sextets (map b64char S) = Some S.
Proof.
  induction 1 as [|k S Hk _ IH]; cbn; [reflexivity|]. rewrite b64_digit, IH by exact Hk.
  reflexivity.
Qed.

Lemma stripPadding_btoa (S : list Z) (pad : list ascii) :
  Forall (fun k => 0 <= k < 64) S ->
  (pad = [] /\ Nat.modulo (List.length S) 4 = 0%nat \/
   pad = ["="%char] /\ Nat.modulo (List.length S) 4 = 3%nat \/
   pad = ["="%char; "="%char] /\ Nat.modulo (List.length S) 4 = 2%nat) ->
  stripPadding (map b64char S ++ pad)%list = map b64char S.
Proof.
  intros HS Hpad. unfold stripPadding.
  assert (Hm : Nat.modulo (List.length (map b64char S ++ pad)%list) 4 = 0%nat).
  { rewrite length_app, length_map.
    destruct Hpad as [[-> H]|[[-> H]|[-> H]]]; cbn [List.length];
      rewrite Nat.Div0.add_mod, H; reflexivity. }
  rewrite Hm. cbn [Nat.eqb]. rewrite rev_app_distr, <- map_rev.
  assert (HR : Forall (fun k => 0 <= k < 64) (rev S))
    by (apply Forall_rev; exact HS).
  destruct Hpad as [[-> H]|[[-> H]|[-> H]]]; cbn [rev List.app].
  - rewrite ?List.app_nil_r.
    destruct (rev S) as [|k [|k' r]] eqn:ER; cbn [map]; [reflexivity| |].
    + inversion HR as [|? ? Hk _]. rewrite (proj2 (b64char_plain k Hk)).
      rewrite ?List.app_nil_r. reflexivity.
    + inversion HR as [|? ? Hk _]. rewrite (proj2 (b64char_plain k Hk)).
      rewrite ?List.app_nil_r. reflexivity.
  - destruct (rev S) as [|k r] eqn:ER.
    + exfalso. apply (f_equal (@List.length Z)) in ER. rewrite length_rev in ER.
      cbn in ER. rewrite ER in H. discriminate.
    + inversion HR as [|? ? Hk _]. cbn [map List.app].
      rewrite (proj2 (b64char_plain k Hk)). cbn [Ascii.eqb Bool.eqb andb].
      change (rev (map b64char (k :: r)) = map b64char S).
      rewrite <- ER, map_rev, rev_involutive. reflexivity.
  - cbn [Ascii.eqb Bool.eqb andb]. rewrite map_rev, rev_involutive. reflexivity.
Qed.

Lemma atobL_btoaL (l : list ascii) : atobL (btoaL l) = Some l.
Proof.
  destruct (btoaL_shape l) as (S & pad & E & HS & Hpad & Hdec).
  unfold atobL. rewrite E.
  rewrite filter_keep.
  2:{ apply Forall_app. split.
      - apply Forall_map. eapply Forall_impl; [|exact HS].
        intros k Hk. rewrite (proj1 (b64char_plain k Hk)). reflexivity.
      - destruct Hpad as [[-> _]|[[-> _]|[-> _]]]; repeat constructor. }
  rewrite (stripPadding_btoa S pad HS Hpad), length_map.
  replace (Nat.eqb (Nat.modulo (List.length S) 4) 1) with false
    by (destruct Hpad as [[_ H]|[[_ H]|[_ H]]]; rewrite H; reflexivity).
  rewrite sextets_b64char by exact HS. cbn. rewrite Hdec. reflexivity.
Qed.

Lemma atob_btoa (s : string) : atob (btoa s) = Some s.
Proof.
  unfold atob, btoa. rewrite list_ascii_of_string_of_list_ascii, atobL_btoaL.
  simpl. rewrite string_of_list_ascii_of_string. reflexivity.
Qed.

Lemma base64_round_trip (bytes : list byte) :
  base64ToArrayBuffer (arrayBufferToBase64 bytes) = Some bytes.
Proof.
  unfold base64ToArrayBuffer, arrayBufferToBase64. rewrite atob_btoa. simpl.
  rewrite list_ascii_of_string_of_list_ascii, map_map.
  f_equal. rewrite <- (map_id bytes) at 2. apply map_ext. apply byte_of_ascii_of_byte.
Qed.

Lemma arrayBufferToBase64_inj (x y : list byte) :
  arrayBufferToBase64 x = arrayBufferToBase64 y -> x = y.
Proof.
  intros H. assert (Hx := base64_round_trip x). rewrite H, base64_round_trip in Hx.
  congruence.
Qed.

Lemma ctLoop_zero (a b : string) (r : Z) :
  String.length a = String.length b -> (ctLoop a b r = 0 <-> r = 0 /\ a = b).
Proof.
  revert b r. induction a as [|x a IH]; intros b r Hlen; destruct b as [|y b];
    simpl in Hlen; try discriminate.
  - simpl. intuition.
  - cbn [ctLoop]. rewrite IH by congruence. rewrite Z.lor_eq_0_iff, Z.lxor_eq_0_iff.
    split.
    + intros [[Hr Hc] Hab]. apply charCode_inj in Hc. subst. auto.
    + intros [Hr Heq]. injection Heq as -> ->. auto.
Qed.

Lemma constantTimeEquals_spec (a b : string) : constantTimeEquals a b = true <-> a = b.
Proof.
  unfold constantTimeEquals.
  destruct (Nat.eqb (String.length a) (String.length b)) eqn:E; simpl.
  - apply Nat.eqb_eq in E. rewrite Z.eqb_eq, ctLoop_zero by exact E. intuition.
  - split; [discriminate|]. intros ->. rewrite Nat.eqb_refl in E. discriminate.
Qed.

Lemma utf8Unit_digit (ch : ascii) : isDigit ch = true -> utf8Unit ch = [byte_of_ascii ch].
Proof.
  unfold isDigit, utf8Unit. intros H. apply andb_prop in H as [_ H].
  apply Z.leb_le in H. replace (Z.ltb (charCode ch) 128) with true; [reflexivity|].
  symmetry. apply Z.ltb_lt. lia.
Qed.

Lemma byte_of_ascii_inj (x y : ascii) : byte_of_ascii x = byte_of_ascii y -> x = y.
Proof.
  intros H. rewrite <- (ascii_of_byte_of_ascii x), <- (ascii_of_byte_of_ascii y), H.
  reflexivity.
Qed.

Lemma textEncode_validPin_inj (p q : string) :
  isValidPin p = true -> isValidPin q = true -> textEncode p = textEncode q -> p = q.
Proof.
  destruct p as [|a [|b [|c [|d [|]]]]]; try discriminate.
  destruct q as [|a' [|b' [|c' [|d' [|]]]]]; try discriminate.
  unfold isValidPin. rewrite !andb_true_iff.
  intros (((Ha & Hb) & Hc) & Hd) (((Ha' & Hb') & Hc') & Hd').
  cbn [textEncode]. rewrite !utf8Unit_digit by assumption. cbn [app].
  intros H. injection H as H1 H2 H3 H4.
  apply byte_of_ascii_inj in H1, H2, H3, H4. subst. reflexivity.
Qed.

Lemma keyThenSalt_injective_on_pins (p q : string) (salt : list byte) (it : Z) :
  isValidPin p = true -> isValidPin q = true -> p <> q ->
  keyThenSalt (textEncode p) salt it <> keyThenSalt (textEncode q) salt it.
Proof.
  intros Hp Hq Hne H. apply Hne. apply textEncode_validPin_inj; [exact Hp | exact Hq |].
  unfold keyThenSalt in H. apply app_inv_tail in H. exact H.
Qed.

Section PinRoundTrip.

Variable kdf : KDF.

(** PBKDF2 under a fixed salt and iteration count separates distinct PINs. *)
Hypothesis kdf_injective_on_pins :
  forall (p q : string) (salt : list byte) (it : Z),
    isValidPin p = true -> isValidPin q = true -> p <> q ->
    kdf (textEncode p) salt it <> kdf (textEncode q) salt it.

(** C8. For every valid 4-digit PIN [p] and every salt, [verifyPin(p,
    hashPin(p))] is true, and [verifyPin(q, hashPin(p))] is false for
    every valid 4-digit PIN [q] other than [p]: the stored salt decodes back
    to the salt used, and [constantTimeEquals] is string equality. *)
Theorem C8_pin_round_trip (salt : list byte) (p : string) :
  isValidPin p = true ->
  verifyPin kdf p (hashPin kdf salt p) = true /\
  (forall q, isValidPin q = true -> q <> p -> verifyPin kdf q (hashPin kdf salt p) = false).
Proof.
  intros Hp. unfold verifyPin, hashPin. cbn [hd_salt hd_iterations hd_hash].
  rewrite base64_round_trip. split.
  - apply constantTimeEquals_spec. reflexivity.
  - intros q Hq Hne.
    destruct (constantTimeEquals _ _) eqn:E; [|reflexivity].
    exfalso. apply constantTimeEquals_spec, arrayBufferToBase64_inj in E.
    exact (kdf_injective_on_pins q p salt 100000 Hq Hp Hne E).
Qed.

End PinRoundTrip.

Lemma C8_witness :
  isValidPin "1234" = true /\
  verifyPin keyThenSalt "1234" (hashPin keyThenSalt sampleSalt "1234") = true /\
  verifyPin keyThenSalt "1243" (hashPin keyThenSalt sampleSalt "1234") = false.
Proof.
  destruct (C8_pin_round_trip keyThenSalt keyThenSalt_injective_on_pins sampleSalt "1234"
              eq_refl) as [H1 H2].
  split; [reflexivity|]. split; [exact H1|].
  apply H2; [reflexivity | discriminate].
Defined.

(** ** Export *)

Lemma jsval_ind' (P : jsval -> Prop)
  (HU : P JUndefined) (HN : P JNull) (HB : forall b, P (JBool b)) (HZ : forall z, P (JNum z))
  (HS : forall s, P (JStr s))
  (HA : forall l, Forall P l -> P (JArr l))
  (HO : forall fs, Forall (fun kv => P (snd kv)) fs -> P (JObj fs)) :
  forall v, P v.
Proof.
  fix IH 1. intros [| | b | z | s | l | fs].
  - exact HU.
  - exact HN.
  - apply HB.
  - apply HZ.
  - apply HS.
  - apply HA.
    exact ((fix go (l : list jsval) : Forall P l :=
              match l with
              | [] => Forall_nil _
              | x :: l' => Forall_cons _ (IH x) (go l')
              end) l).
  - apply HO.
    exact ((fix go (fs : list (string * jsval)) : Forall (fun kv => P (snd kv)) fs :=
              match fs with
              | [] => Forall_nil _
              | kv :: fs' => Forall_cons _ (IH (snd kv)) (go fs')
              end) fs).
Qed.

(** Every member of the serialised document is a member with a defined value
    of the serialised value. *)
Lemma toJSONDoc_keys (k : string) (v : jsval) :
  forall d, toJSONDoc v = Some d -> hasKey k d = true -> liveKey k v = true.
Proof.
  induction v as [| | b | z | s | l HF | fs HF] using jsval_ind'; intros d Hd Hk;
    try discriminate; try (injection Hd as <-; discriminate).
  - revert d Hd Hk. induction HF as [|x l Px HFl IHl]; intros d Hd Hk.
    + injection Hd as <-. discriminate.
    + cbn [toJSONDoc] in Hd. injection Hd as <-. cbn [hasKey existsb] in Hk.
      cbn [liveKey existsb]. apply orb_true_iff in Hk as [Hx | Hl].
      * destruct (toJSONDoc x) as [dx|] eqn:Ex; [|discriminate].
        rewrite (Px dx eq_refl Hx). reflexivity.
      * apply orb_true_iff. right.
        exact (IHl _ eq_refl Hl).
  - revert d Hd Hk. induction HF as [|[k' x] fs Px HFs IHfs]; intros d Hd Hk.
    + injection Hd as <-. discriminate.
    + cbn [toJSONDoc] in Hd. cbn [snd] in Px. cbn [liveKey existsb fst snd].
      destruct (toJSONDoc x) as [dx|] eqn:Ex.
      * injection Hd as <-. cbn [hasKey existsb fst snd] in Hk.
        apply orb_true_iff in Hk as [Hx | Hl].
        -- apply orb_true_iff in Hx as [Hkey | Hx].
           ++ rewrite Hkey. destruct x; try reflexivity. discriminate.
           ++ rewrite (Px dx eq_refl Hx). rewrite orb_true_r. reflexivity.
        -- apply orb_true_iff. right. exact (IHfs _ eq_refl Hl).
      * apply orb_true_iff. right. exact (IHfs _ Hd Hk).
Qed.

Lemma existsb_false (A : Type) (f : A -> bool) (l : list A) :
  (forall x, In x l -> f x = false) -> existsb f l = false.
Proof.
  intros H. destruct (existsb f l) eqn:E; [|reflexivity].
  apply existsb_exists in E as (x & Hx & Hf). rewrite H in Hf by exact Hx. discriminate.
Qed.

Lemma liveKey_JObj (k : string) (fs : list (string * jsval)) :
  liveKey k (JObj fs) = keyLive k fs || nestedLive k fs.
Proof.
  unfold keyLive, nestedLive. cbn [liveKey].
  induction fs as [|kv fs IH]; [reflexivity|]. cbn [existsb]. rewrite IH.
  destruct (String.eqb (fst kv) k && negb (isUndefined (snd kv))), (liveKey k (snd kv)),
    (existsb (fun kv0 => String.eqb (fst kv0) k && negb (isUndefined (snd kv0))) fs),
    (existsb (fun kv0 => liveKey k (snd kv0)) fs); reflexivity.
Qed.

Lemma keyLive_objSet_same (k : string) (fs : list (string * jsval)) :
  keyLive k (objSet k JUndefined fs) = false.
Proof.
  unfold keyLive, objSet.
  destruct (existsb (fun kv => String.eqb (fst kv) k) fs) eqn:E.
  - apply existsb_false. intros kv Hin. apply in_map_iff in Hin as (kv0 & <- & _).
    destruct (String.eqb (fst kv0) k) eqn:Ek.
    + cbn [fst snd isUndefined negb]. apply andb_false_r.
    + rewrite Ek. reflexivity.
  - rewrite existsb_app. cbn [existsb fst snd isUndefined negb].
    rewrite andb_false_r, !orb_false_r.
    apply existsb_false. intros kv Hin.
    destruct (String.eqb (fst kv) k) eqn:Ek; [|reflexivity].
    exfalso. assert (Hex : existsb (fun kv => String.eqb (fst kv) k) fs = true)
      by (apply existsb_exists; exists kv; auto).
    congruence.
Qed.

Lemma keyLive_objSet_other (k k' : string) (v : jsval) (fs : list (string * jsval)) :
  String.eqb k' k = false -> keyLive k (objSet k' v fs) = keyLive k fs.
Proof.
  intros Hne. unfold keyLive, objSet.
  destruct (existsb (fun kv => String.eqb (fst kv) k') fs).
  - induction fs as [|kv fs IH]; [reflexivity|]. cbn [map existsb]. rewrite IH.
    destruct (String.eqb (fst kv) k') eqn:E; [|reflexivity].
    apply String.eqb_eq in E. cbn [fst]. rewrite Hne, E, Hne. reflexivity.
  - rewrite existsb_app. cbn [existsb fst]. rewrite Hne. cbn [andb].
    rewrite orb_false_r. reflexivity.
Qed.

Lemma nestedLive_objSet (k k' : string) (v : jsval) (fs : list (string * jsval)) :
  liveKey k v = false -> nestedLive k fs = false -> nestedLive k (objSet k' v fs) = false.
Proof.
  intros Hv Hfs. unfold nestedLive, objSet in *.
  destruct (existsb (fun kv => String.eqb (fst kv) k') fs).
  - apply existsb_false. intros kv Hin. apply in_map_iff in Hin as (kv0 & <- & Hin).
    destruct (String.eqb (fst kv0) k'); [exact Hv|].
    destruct (liveKey k (snd kv0)) eqn:E; [|reflexivity].
    exfalso. assert (Hex : existsb (fun kv => liveKey k (snd kv)) fs = true)
      by (apply existsb_exists; exists kv0; auto).
    congruence.
  - rewrite existsb_app, Hfs. cbn [existsb snd]. rewrite Hv. reflexivity.
Qed.

Lemma nestedLive_app (k : string) (fs gs : list (string * jsval)) :
  nestedLive k (fs ++ gs)%list = nestedLive k fs || nestedLive k gs.
Proof. unfold nestedLive. apply existsb_app. Qed.

Lemma nestedLive_optMember (k k' : string) (A : Type) (f : A -> jsval) (o : option A) :
  (forall x, liveKey k (f x) = false) -> nestedLive k (optMember k' (option_map f o)) = false.
Proof.
  intros Hf. destruct o as [x|]; [|reflexivity].
  unfold nestedLive. cbn. rewrite Hf. reflexivity.
Qed.

Lemma settingsFields_flat (k : string) (s : Settings) : nestedLive k (settingsFields s) = false.
Proof.
  unfold settingsFields. rewrite !nestedLive_app.
  rewrite !nestedLive_optMember by reflexivity. reflexivity.
Qed.

Lemma sanitizeSettings_no_pin (k : string) (s : Settings) :
  In k pinKeys -> liveKey k (sanitizeSettings s) = false.
Proof.
  intros Hk. unfold sanitizeSettings. rewrite liveKey_JObj.
  rewrite (nestedLive_objSet k _ JUndefined _ eq_refl
             (nestedLive_objSet k _ JUndefined _ eq_refl
               (nestedLive_objSet k _ JUndefined _ eq_refl (settingsFields_flat k s)))).
  rewrite orb_false_r.
  destruct Hk as [<- | [<- | [<- | []]]].
  - apply keyLive_objSet_same.
  - rewrite !keyLive_objSet_other by reflexivity. apply keyLive_objSet_same.
  - rewrite keyLive_objSet_other by reflexivity. apply keyLive_objSet_same.
Qed.

Lemma entryExport_no_pin (k : string) (e : Entry) :
  In k pinKeys -> liveKey k (entryExport e) = false.
Proof.
  intros Hk. destruct Hk as [<- | [<- | [<- | []]]];
    unfold entryExport; destruct (edited_at e), (duration_seconds e); reflexivity.
Qed.

Lemma promptExport_no_pin (k : string) (p : Prompt) :
  In k pinKeys -> liveKey k (promptExport p) = false.
Proof.
  intros Hk. destruct Hk as [<- | [<- | [<- | []]]];
    unfold promptExport; destruct (gratitude_prompt p); reflexivity.
Qed.

Lemma streakToJS_no_pin (k : string) (s : StreakSummary) :
  In k pinKeys -> liveKey k (streakToJS s) = false.
Proof.
  intros Hk. destruct Hk as [<- | [<- | [<- | []]]];
    unfold streakToJS; destruct (last_entry_date s); reflexivity.
Qed.

Lemma exportObject_no_pin (k : string) (c : Clock) (st : Store) :
  In k pinKeys -> liveKey k (exportObject c st) = false.
Proof.
  intros Hk. unfold exportObject. rewrite liveKey_JObj.
  assert (Hm : liveKey k (metadataToJS (exportMetadata c st)) = false)
    by (destruct Hk as [<- | [<- | [<- | []]]]; reflexivity).
  assert (He : liveKey k (JArr (map entryExport (orderByCreatedAt (st_entries st)))) = false).
  { cbn [liveKey]. apply existsb_false. intros x Hx.
    apply in_map_iff in Hx as (e & <- & _). apply entryExport_no_pin, Hk. }
  assert (Hp : liveKey k (JArr (map promptExport (promptsToArray (st_prompts st)))) = false).
  { cbn [liveKey]. apply existsb_false. intros x Hx.
    apply in_map_iff in Hx as (p & <- & _). apply promptExport_no_pin, Hk. }
  assert (Hs : liveKey k (match st_settings st with
                          | Some s => sanitizeSettings s | None => JNull end) = false)
    by (destruct (st_settings st); [apply sanitizeSettings_no_pin, Hk | reflexivity]).
  assert (Hz : liveKey k (match st_streak st with
                          | Some s => streakToJS s | None => JUndefined end) = false)
    by (destruct (st_streak st); [apply streakToJS_no_pin, Hk | reflexivity]).
  unfold nestedLive. cbn [existsb snd]. rewrite Hm, He, Hp, Hs, Hz.
  rewrite orb_false_r.
  destruct Hk as [<- | [<- | [<- | []]]]; reflexivity.
Qed.

(** C9. For every store, including one whose settings hold a PIN salt,
    iteration count and hash, the document that [exportDataWithProgress]
    serialises (its [json] is that document printed with a gap of 2) has no
    [pinHash], [pinSalt] or [pinIterations] member at any depth. *)
Theorem C9_export_has_no_pin_fields (c : Clock) (st : Store) :
  exists doc,
    toJSONDoc (exportObject c st) = Some doc /\
    json (exportDataWithProgress c st) = Some (printJSON 2 0 doc) /\
    forall k, In k pinKeys -> hasKey k doc = false.
Proof.
  destruct (toJSONDoc (exportObject c st)) as [doc|] eqn:E.
  - exists doc. split; [reflexivity|]. split.
    + unfold exportDataWithProgress, JSON_stringify. cbn [json]. rewrite E. reflexivity.
    + intros k Hk. destruct (hasKey k doc) eqn:Hd; [|reflexivity].
      pose proof (toJSONDoc_keys k _ doc E Hd) as Hl.
      rewrite exportObject_no_pin in Hl by exact Hk. discriminate.
  - discriminate.
Qed.

(** ** Further properties of the prompt scheduler *)

Lemma pseudoRandom_nonneg (d : Z) :
  0 <= d -> exists v, pseudoRandom (Some d) = Some v /\ 0 <= v.
Proof.
  intros Hd. eexists. split; [reflexivity|].
  apply Z.rem_nonneg; lia.
Qed.

Lemma daysSinceInstall_nonneg (c : Clock) (i : Z) :
  i <= now_ms c -> exists d, daysSinceInstall c (Some i) = Some d /\ 0 <= d.
Proof.
  intros Hi. eexists. split; [reflexivity|]. unfold msPerDay. apply Z.div_pos; lia.
Qed.

Lemma arrayAt_in_range {A} (l : list A) (v : Z) :
  0 <= v < Z.of_nat (List.length l) -> exists x, arrayAt l (Some v) = Some x /\ In x l.
Proof.
  intros Hv. unfold arrayAt. replace (Z.ltb v 0) with false by (symmetry; apply Z.ltb_ge; lia).
  destruct (nth_error l (Z.to_nat v)) as [x|] eqn:E.
  - exists x. split; [reflexivity|]. eapply nth_error_In; eauto.
  - apply nth_error_None in E. lia.
Qed.

(** [getTodayPrompt] throws exactly when the catalog has no active seed
    prompt; for an install date not after the clock it then returns an
    active seed prompt of the catalog, never [undefined]. *)
Theorem getTodayPrompt_active_seed (c : Clock) (i : Z) (prompts : list Prompt) :
  i <= now_ms c ->
  (filter isActiveSeed prompts = [] -> exists m, getTodayPrompt c (Some i) prompts = Throw m) /\
  (filter isActiveSeed prompts <> [] ->
   exists p, getTodayPrompt c (Some i) prompts = Ok (Some p) /\ In p prompts /\
             isActiveSeed p = true).
Proof.
  intros Hi. unfold getTodayPrompt. split.
  - intros H. rewrite H. eexists. reflexivity.
  - intros H.
    destruct (daysSinceInstall_nonneg c i Hi) as (d & Hd & Hd0). rewrite Hd.
    destruct (pseudoRandom_nonneg d Hd0) as (v & Hv & Hv0). rewrite Hv.
    remember (filter isActiveSeed prompts) as sp eqn:Hsp.
    destruct sp as [|p0 sp']; [congruence|].
    cbv zeta. unfold jsRem.
    assert (Hlen : 0 < Z.of_nat (List.length (p0 :: sp'))) by (simpl; lia).
    assert (Hr : 0 <= Z.rem v (Z.of_nat (List.length (p0 :: sp'))) <
                 Z.of_nat (List.length (p0 :: sp'))).
    { split; [apply Z.rem_nonneg; lia|].
      rewrite Z.rem_mod_nonneg by lia. apply Z.mod_pos_bound. lia. }
    destruct (arrayAt_in_range (p0 :: sp') _ Hr) as (p & Hp & Hin).
    rewrite Hp. exists p. split; [reflexivity|].
    rewrite Hsp in Hin. apply filter_In in Hin. exact Hin.
Qed.

Lemma getTodayPrompt_active_seed_witness :
  0 <= now_ms leapDayNoon /\
  exists p, getTodayPrompt leapDayNoon (Some 0) (st_prompts seededJournal) = Ok (Some p) /\
            In p (st_prompts seededJournal) /\ isActiveSeed p = true.
Proof.
  assert (Hi : 0 <= now_ms leapDayNoon) by (vm_compute; discriminate).
  split; [exact Hi|].
  apply (proj2 (getTodayPrompt_active_seed leapDayNoon 0 (st_prompts seededJournal) Hi)).
  vm_compute. discriminate.
Defined.

(** [getSwapPrompt] returns an active seed prompt that is neither the current
    nor the last prompt whenever the catalog has one; otherwise it returns
    the current prompt, or throws when the current id is not in the catalog. *)
Theorem getSwapPrompt_alternative (cur : string) (last : option string)
  (prompts : list Prompt) (r : nat) :
  ((exists q, In q prompts /\ isActiveSeed q = true /\ p_id q <> cur /\
              differsFrom (p_id q) last = true) ->
   exists p, getSwapPrompt cur last prompts r = Ok p /\ In p prompts /\
             isActiveSeed p = true /\ p_id p <> cur /\ differsFrom (p_id p) last = true) /\
  ((forall q, In q prompts -> isActiveSeed q = true -> p_id q <> cur ->
              differsFrom (p_id q) last = false) ->
   match getSwapPrompt cur last prompts r with
   | Ok p => p_id p = cur /\ In p prompts
   | Throw _ => forall q, In q prompts -> p_id q <> cur
   end).
Proof.
  unfold getSwapPrompt.
  set (f := fun p => isActiveSeed p && negb (String.eqb (p_id p) cur) && differsFrom (p_id p) last).
  split.
  - intros (q & Hq & Ha & Hc & Hd).
    assert (Hqf : In q (filter f prompts)).
    { apply filter_In. split; [exact Hq|]. unfold f. rewrite Ha, Hd.
      apply String.eqb_neq in Hc. rewrite Hc. reflexivity. }
    destruct (filter f prompts) as [|p0 sp] eqn:E; [destruct Hqf|].
    exists (nth (Nat.modulo r (List.length (p0 :: sp))) (p0 :: sp) p0).
    split; [reflexivity|].
    assert (Hin : In (nth (Nat.modulo r (List.length (p0 :: sp))) (p0 :: sp) p0) (filter f prompts)).
    { rewrite E. apply nth_In. apply Nat.mod_upper_bound. simpl. lia. }
    apply filter_In in Hin as [Hin Hf]. unfold f in Hf.
    apply andb_prop in Hf as [Hf Hd']. apply andb_prop in Hf as [Ha' Hc'].
    apply negb_true_iff, String.eqb_neq in Hc'. auto.
  - intros Hnone.
    assert (E : filter f prompts = []).
    { destruct (filter f prompts) as [|p0 sp] eqn:E; [reflexivity|].
      exfalso. assert (Hin : In p0 (filter f prompts)) by (rewrite E; left; reflexivity).
      apply filter_In in Hin as [Hin Hf]. unfold f in Hf.
      apply andb_prop in Hf as [Hf Hd']. apply andb_prop in Hf as [Ha' Hc'].
      apply negb_true_iff, String.eqb_neq in Hc'.
      rewrite (Hnone p0 Hin Ha' Hc') in Hd'. discriminate. }
    rewrite E.
    destruct (find (fun p => String.eqb (p_id p) cur) prompts) as [p|] eqn:F.
    + apply find_some in F as [Hin Heq]. apply String.eqb_eq in Heq. auto.
    + intros q Hq Heq. apply String.eqb_eq in Heq.
      rewrite (find_none _ _ F q Hq) in Heq. discriminate.
Qed.

Lemma getSwapPrompt_alternative_witness :
  exists p, getSwapPrompt "seed-4" (Some "seed-1") (st_prompts seededJournal) 0 = Ok p /\
    In p (st_prompts seededJournal) /\ isActiveSeed p = true /\ p_id p <> "seed-4" /\
    differsFrom (p_id p) (Some "seed-1") = true.
Proof.
  apply (proj1 (getSwapPrompt_alternative "seed-4" (Some "seed-1") (st_prompts seededJournal) 0)).
  exists (nth 1 (st_prompts seededJournal) (nth 0 (st_prompts seededJournal) (getFallbackPrompt leapDayNoon None))).
  split; [simpl; auto|]. split; [reflexivity|]. split; [discriminate|]. reflexivity.
Defined.

Lemma getSwapPrompt_in (cur : string) (last : option string) (prompts : list Prompt) (r : nat)
  (p : Prompt) :
  getSwapPrompt cur last prompts r = Ok p -> In p prompts.
Proof.
  unfold getSwapPrompt.
  set (f := fun p => isActiveSeed p && negb (String.eqb (p_id p) cur) && differsFrom (p_id p) last).
  destruct (filter f prompts) as [|p0 sp] eqn:E.
  - destruct (find (fun p => String.eqb (p_id p) cur) prompts) as [q|] eqn:F; [|discriminate].
    intros H. injection H as <-. apply find_some in F. tauto.
  - intros H. injection H as <-.
    assert (Hin : In (nth (Nat.modulo r (List.length (p0 :: sp))) (p0 :: sp) p0) (filter f prompts)).
    { rewrite E. apply nth_In. apply Nat.mod_upper_bound. simpl. lia. }
    apply filter_In in Hin. tauto.
Qed.

(** After a successful [swapTodayPrompt], [getCurrentPrompt] on the same
    local day returns the new prompt (a prompt with its id), for any install
    date, provided the catalog's ids are non-empty (the check
    [settings?.lastPromptId] is a truthiness test). *)
Theorem swap_then_getCurrentPrompt (c c' : Clock) (install install' : jsint) (r : nat)
  (st : Store) :
  success (fst (swapTodayPrompt c install r st)) = true ->
  Forall (fun p => p_id p <> "") (st_prompts st) ->
  todayDay c' = todayDay c ->
  exists np, newPrompt (fst (swapTodayPrompt c install r st)) = Some np /\
    option_map p_id (getCurrentPrompt c' install' (readsOf (snd (swapTodayPrompt c install r st))))
      = Some (p_id np).
Proof.
  intros Hok Hne Hday. revert Hok. unfold swapTodayPrompt.
  destruct (st_settings st) as [set|] eqn:Hs; [|discriminate].
  destruct (negb (canSwapToday c (swapUsedDate set))); [discriminate|].
  destruct (getTodayPrompt c install (promptsToArray (st_prompts st))) as [[cur|]|]; try discriminate.
  destruct (getSwapPrompt (p_id cur) (lastPromptId set) (promptsToArray (st_prompts st)) r) as [np|] eqn:Hg;
    [|discriminate].
  destruct (String.eqb (p_id np) (p_id cur)); [discriminate|].
  intros _. exists np. split; [reflexivity|].
  apply getSwapPrompt_in in Hg.
  unfold getCurrentPrompt. cbn [readsOf readSettings readPrompts st_settings st_prompts setSettings
                                 withSwap swapUsedDate lastPromptId snd].
  unfold canSwapToday. rewrite Hday, Z.eqb_refl. cbn [negb].
  rewrite Forall_forall in Hne.
  destruct (String.eqb (p_id np) "") eqn:Ee.
  { apply String.eqb_eq in Ee. exfalso. exact (Hne np (proj1 (promptsToArray_In _ _) Hg) Ee). }
  destruct (find (fun p => String.eqb (p_id p) (p_id np)) (promptsToArray (st_prompts st)))
    as [q|] eqn:F.
  - apply find_some in F as [_ Hq]. apply String.eqb_eq in Hq. cbn. rewrite Hq. reflexivity.
  - exfalso. pose proof (find_none _ _ F np Hg) as H. cbn beta in H. rewrite String.eqb_refl in H. discriminate.
Qed.

Lemma swap_then_getCurrentPrompt_witness :
  exists np,
    newPrompt (fst (swapTodayPrompt leapDayNoon (Some (now_ms leapDayNoon)) 5 seededJournal)) = Some np /\
    option_map p_id (getCurrentPrompt (mkClock (now_ms leapDayNoon + 3600000) 0) None
       (readsOf (snd (swapTodayPrompt leapDayNoon (Some (now_ms leapDayNoon)) 5 seededJournal))))
      = Some (p_id np).
Proof.
  apply swap_then_getCurrentPrompt.
  - vm_compute. reflexivity.
  - apply Forall_forall. intros p Hp. vm_compute in Hp.
    repeat (destruct Hp as [<- | Hp]; [discriminate|]). destruct Hp.
  - vm_compute. reflexivity.
Defined.

Lemma seedCatalog_active (c : Clock) : filter isActiveSeed (seedCatalog c) = seedCatalog c.
Proof. reflexivity. Qed.

Lemma stored_catalog_active (c : Clock) :
  filter isActiveSeed (promptsToArray (seedCatalog c)) = promptsToArray (seedCatalog c).
Proof.
  unfold seedCatalog. generalize (toISOString (now_ms c)). intros ts.
  vm_compute. reflexivity.
Qed.

Lemma stored_catalog_ids (c : Clock) :
  map p_id (promptsToArray (seedCatalog c)) =
  ["seed-1"; "seed-10"; "seed-2"; "seed-3"; "seed-4"; "seed-5"; "seed-6"; "seed-7";
   "seed-8"; "seed-9"].
Proof.
  unfold seedCatalog. generalize (toISOString (now_ms c)). intros ts.
  vm_compute. reflexivity.
Qed.

(** On the catalog as [db.prompts.toArray()] returns it after
    [initializeSeedPrompts] (key order: seed-1, seed-10, seed-2, ...,
    seed-9), [getTodayPrompt] and the database-free [getFallbackPrompt]
    use the same index [i], but pick the same seed only for [i = 0]: the
    fallback names seed-(i+1), the store path the [i]-th id in key order.
    When the index is out of range (a negative or [NaN] day count),
    [getTodayPrompt] yields [undefined] and the fallback is [fallback-1]. *)
Theorem getFallbackPrompt_vs_stored_catalog (c c0 : Clock) (install : jsint) :
  match getTodayPrompt c install (promptsToArray (seedCatalog c0)) with
  | Ok (Some p) =>
      exists i, jsRem (pseudoRandom (daysSinceInstall c install)) 10 = Some i /\
        p_id p = nth (Z.to_nat i)
                   ["seed-1"; "seed-10"; "seed-2"; "seed-3"; "seed-4"; "seed-5"; "seed-6";
                    "seed-7"; "seed-8"; "seed-9"] "" /\
        p_id (getFallbackPrompt c install) = "seed-" ++ numberToString (i + 1) /\
        (p_id p = p_id (getFallbackPrompt c install) <-> i = 0)
  | Ok None => p_id (getFallbackPrompt c install) = "fallback-1"
  | Throw _ => False
  end.
Proof.
  pose proof (stored_catalog_ids c0) as Hids.
  unfold getTodayPrompt. rewrite stored_catalog_active.
  destruct (promptsToArray (seedCatalog c0)) as [|p0 L] eqn:EL; [discriminate|].
  assert (Hlen : Z.of_nat (List.length (p0 :: L)) = 10)
    by (rewrite <- (length_map p_id), Hids; reflexivity).
  rewrite Hlen. unfold getFallbackPrompt.
  change (Z.of_nat (List.length SEED_PROMPTS)) with 10.
  destruct (jsRem (pseudoRandom (daysSinceInstall c install)) 10) as [i|] eqn:Hi;
    [|reflexivity].
  assert (Hb : -10 < i < 10).
  { destruct (pseudoRandom (daysSinceInstall c install)) as [v|]; [|discriminate].
    injection Hi as <-. pose proof (Z.rem_bound_abs v 10 ltac:(lia)). lia. }
  cbn [arrayAt]. destruct (Z.ltb_spec i 0) as [Hn|Hn]; [reflexivity|].
  destruct (nth_error (p0 :: L) (Z.to_nat i)) as [p|] eqn:Ep.
  2:{ apply nth_error_None in Ep. rewrite <- (length_map p_id) in Ep. rewrite Hids in Ep.
      simpl in Ep. lia. }
  assert (Hp : nth_error (map p_id (p0 :: L)) (Z.to_nat i) = Some (p_id p))
    by (rewrite nth_error_map, Ep; reflexivity).
  rewrite Hids in Hp. exists i. split; [reflexivity|].
  assert (Hcase : i = 0 \/ i = 1 \/ i = 2 \/ i = 3 \/ i = 4 \/ i = 5 \/ i = 6 \/ i = 7 \/
                  i = 8 \/ i = 9) by lia.
  repeat destruct Hcase as [-> | Hcase]; try (subst i);
    injection Hp as Hp; rewrite <- Hp; vm_compute;
    (split; [reflexivity | split; [reflexivity | split; [intros E | intros E]]]);
    first [reflexivity | discriminate | lia].
Qed.

(** [initializeSeedPrompts] adds the ten seed prompts only when the store
    has no seed prompt, so running it again (at any time) changes nothing;
    the prompts it adds are all active seeds. *)
Theorem initializeSeedPrompts_idempotent (c c' : Clock) (st : Store) :
  initializeSeedPrompts c' (initializeSeedPrompts c st) = initializeSeedPrompts c st /\
  (forall p, In p (st_prompts (initializeSeedPrompts c st)) ->
     In p (st_prompts st) \/ (In p (seedCatalog c) /\ isActiveSeed p = true)).
Proof.
  unfold initializeSeedPrompts.
  destruct (existsb _ (st_prompts st)) eqn:E.
  - rewrite E. split; [reflexivity|]. auto.
  - cbn [st_prompts]. rewrite existsb_app, E. cbn [orb].
    split; [reflexivity|].
    intros p Hp. apply in_app_or in Hp as [Hp|Hp]; [auto|right].
    split; [exact Hp|]. rewrite <- seedCatalog_active with (c := c) in Hp.
    apply filter_In in Hp. tauto.
Qed.

(** ** Further properties of the telemetry service *)

(** [optOut] followed by [optIn] reuses the anonymous id of before the
    opt-out: [optOut] passes [anonId: undefined], which [??] ignores.  The
    activation event is sent again with that id, and the last completion
    date survives as well. *)
Theorem optOut_then_optIn_keeps_anonId (env env' : CallEnv) (sv : Service) (s : Settings)
  (a : string) :
  st_settings (svc_store sv) = Some s -> telemetryAnonId s = Some a -> a <> "" ->
  exists s' ev,
    st_settings (svc_store (optIn env env' (optOut sv))) = Some s' /\
    telemetryOptIn s' = true /\ telemetryAnonId s' = Some a /\
    telemetryActivationSent s' = Some true /\
    telemetryLastCompletionDate s' = telemetryLastCompletionDate s /\
    eventQueue (optIn env env' (optOut sv)) = [ev] /\
    eventType ev = Activation /\ anonId ev = a.
Proof.
  intros Hs Ha Hne.
  destruct sv as [[set pr en sk] q]. cbn in Hs. subst set.
  apply String.eqb_neq in Hne.
  unfold optIn, optOut. cbn. rewrite Ha. cbn. rewrite Hne. cbn.
  rewrite ?Hne. cbn. rewrite ?Hne. cbn.
  eexists. eexists. repeat split; reflexivity.
Qed.

Lemma optOut_then_optIn_keeps_anonId_witness :
  exists s' ev,
    st_settings (svc_store (optIn (mkCallEnv leapDayNoon "r1" "Linux" "UTC" 0)
                                  (mkCallEnv leapDayNoon "r2" "Linux" "UTC" 0)
                                  (optOut optedInService))) = Some s' /\
    telemetryOptIn s' = true /\ telemetryAnonId s' = Some "anon_0_k3j5h2l9x" /\
    telemetryActivationSent s' = Some true /\
    telemetryLastCompletionDate s' = telemetryLastCompletionDate optedInSettings /\
    eventQueue (optIn (mkCallEnv leapDayNoon "r1" "Linux" "UTC" 0)
                      (mkCallEnv leapDayNoon "r2" "Linux" "UTC" 0)
                      (optOut optedInService)) = [ev] /\
    eventType ev = Activation /\ anonId ev = "anon_0_k3j5h2l9x".
Proof.
  apply (optOut_then_optIn_keeps_anonId _ _ optedInService optedInSettings "anon_0_k3j5h2l9x").
  - reflexivity.
  - reflexivity.
  - discriminate.
Defined.

Lemma updateTelemetrySettings_sent (st : Store) (b : bool) :
  st_settings st <> None ->
  exists s, st_settings (updateTelemetrySettings
                           (mkTelemetryUpdate None None (Some b) None None None) st) = Some s /\
            telemetryActivationSent s = Some b.
Proof.
  intros H. unfold updateTelemetrySettings. destruct (st_settings st); [|congruence].
  eexists. split; reflexivity.
Qed.

Lemma createEvent_settings (env : CallEnv) (t : EventType) (dn : option Z) (st : Store) :
  st_settings st <> None -> st_settings (snd (createEvent env t dn st)) <> None.
Proof.
  intros H. unfold createEvent. destruct (st_settings st) eqn:E; [|congruence].
  unfold getTelemetrySettings. rewrite E. cbn [t_anonId].
  destruct (telemetryAnonId s) as [a|]; [destruct (String.eqb a "")|]; cbn [snd];
    first [rewrite E; discriminate | unfold updateTelemetrySettings; rewrite E; discriminate].
Qed.

Lemma sendActivationEvent_result (env : CallEnv) (sv : Service) :
  (forall env', sendActivationEvent env' sv = sv) \/
  exists s, st_settings (svc_store (sendActivationEvent env sv)) = Some s /\
            telemetryActivationSent s = Some true.
Proof.
  destruct (getTelemetrySettings (svc_store sv)) as [ts|] eqn:G.
  2:{ left. intros e. unfold sendActivationEvent. rewrite G. reflexivity. }
  destruct (negb (isOptedIn ts) || activationSent ts) eqn:C.
  { left. intros e. unfold sendActivationEvent. rewrite G, C. reflexivity. }
  right. unfold sendActivationEvent. rewrite G, C.
  assert (Hs : st_settings (svc_store sv) <> None).
  { unfold getTelemetrySettings in G. destruct (st_settings (svc_store sv)); congruence. }
  pose proof (createEvent_settings env Activation None _ Hs) as Hc.
  destruct (createEvent env Activation None (svc_store sv)) as [ev st1]. cbn in Hc |- *.
  exact (updateTelemetrySettings_sent st1 true Hc).
Qed.

Lemma sendActivationEvent_already_sent (env : CallEnv) (sv : Service) (s : Settings) :
  st_settings (svc_store sv) = Some s -> telemetryActivationSent s = Some true ->
  sendActivationEvent env sv = sv.
Proof.
  intros Hs Ha. unfold sendActivationEvent, getTelemetrySettings. rewrite Hs, Ha.
  cbn [activationSent orFalse]. rewrite orb_true_r. reflexivity.
Qed.

(** [sendActivationEvent] sends the activation event at most once: a
    second call (at any time) changes nothing. *)
Theorem sendActivationEvent_once (env env' : CallEnv) (sv : Service) :
  sendActivationEvent env' (sendActivationEvent env sv) = sendActivationEvent env sv.
Proof.
  destruct (sendActivationEvent_result env sv) as [E | [s [Hs Ha]]].
  - rewrite !E. reflexivity.
  - exact (sendActivationEvent_already_sent env' _ s Hs Ha).
Qed.

Lemma removeId_length (id : string) (q : list TelemetryEvent) :
  (List.length (removeId id q) <= List.length q)%nat.
Proof.
  unfold removeId. induction q as [|e q IH]; cbn; [lia|]. destruct (negb _); cbn; lia.
Qed.

Lemma bumpFirst_length (id : string) (q : list TelemetryEvent) :
  List.length (bumpFirst id q) = List.length q.
Proof.
  induction q as [|e q IH]; cbn; [reflexivity|]. destruct (String.eqb _ _); cbn; lia.
Qed.

Lemma processLoop_sent (send : nat -> TelemetryEvent -> bool) (i : nat)
  (evs q : list TelemetryEvent) :
  (forall e, In e (fst (processLoop send i evs q)) ->
     In e evs /\ orZero (retryCount e) < MAX_RETRY_ATTEMPTS) /\
  (List.length (snd (processLoop send i evs q)) <= List.length q)%nat.
Proof.
  revert i q. induction evs as [|e evs IH]; intros i q; cbn [processLoop].
  - cbn. split; [tauto|lia].
  - destruct (Z.leb MAX_RETRY_ATTEMPTS (orZero (retryCount e))) eqn:Hr.
    + destruct (IH (S i) (removeId (ev_id e) q)) as [H1 H2].
      split; [intros x Hx; apply H1 in Hx; cbn; tauto|].
      pose proof (removeId_length (ev_id e) q). lia.
    + apply Z.leb_gt in Hr.
      destruct (send i e).
      * destruct (IH (S i) (removeId (ev_id e) q)) as [H1 H2].
        destruct (processLoop send (S i) evs (removeId (ev_id e) q)) as [sent q'] eqn:E.
        cbn in H1, H2 |- *. split.
        -- intros x [<- | Hx]; [tauto|]. apply H1 in Hx. tauto.
        -- pose proof (removeId_length (ev_id e) q). lia.
      * cbn. rewrite bumpFirst_length. split; [intros x [<- | []]; tauto|lia].
Qed.

Lemma processLoop_all_succeed (send : nat -> TelemetryEvent -> bool) (i : nat)
  (evs q : list TelemetryEvent) :
  (forall j e, send j e = true) ->
  fst (processLoop send i evs q)
    = filter (fun e => Z.ltb (orZero (retryCount e)) MAX_RETRY_ATTEMPTS) evs /\
  (forall x, In x (snd (processLoop send i evs q)) ->
     In x q /\ forall e, In e evs -> ev_id x <> ev_id e).
Proof.
  intros Hs. revert i q. induction evs as [|e evs IH]; intros i q; cbn [processLoop].
  - cbn. split; [reflexivity|]. intros x Hx. tauto.
  - assert (Hrm : forall x, In x (removeId (ev_id e) q) -> In x q /\ ev_id x <> ev_id e).
    { intros x Hx. unfold removeId in Hx. apply filter_In in Hx as [Hx Hn].
      split; [exact Hx|]. intros Heq. rewrite Heq, String.eqb_refl in Hn. discriminate. }
    destruct (IH (S i) (removeId (ev_id e) q)) as [H1 H2].
    cbn [filter]. rewrite Z.ltb_antisym.
    destruct (Z.leb MAX_RETRY_ATTEMPTS (orZero (retryCount e))); cbn [negb].
    + split; [exact H1|]. intros x Hx. apply H2 in Hx as [Hx Hn].
      apply Hrm in Hx as [Hx He]. split; [exact Hx|]. intros y [<- | Hy]; auto.
    + rewrite Hs.
      destruct (processLoop send (S i) evs (removeId (ev_id e) q)) as [sent q'].
      cbn in H1, H2 |- *. split; [congruence|].
      intros x Hx. apply H2 in Hx as [Hx Hn].
      apply Hrm in Hx as [Hx He]. split; [exact Hx|]. intros y [<- | Hy]; auto.
Qed.

(** [processQueue] when the user is not opted in (or there are no
    settings) sends nothing and empties the queue.  Otherwise it only
    sends events that were queued and have been retried fewer than
    [MAX_RETRY_ATTEMPTS] times, never lengthens the queue and leaves the
    store alone. *)
Theorem processQueue_safety (send : nat -> TelemetryEvent -> bool) (sv : Service) :
  ((match getTelemetrySettings (svc_store sv) with Some ts => isOptedIn ts | None => false end
      = false ->
    processQueue send false sv = ([], mkService (svc_store sv) [])) /\
   forall processing,
     (forall e, In e (fst (processQueue send processing sv)) ->
        In e (eventQueue sv) /\ orZero (retryCount e) < MAX_RETRY_ATTEMPTS) /\
     (List.length (eventQueue (snd (processQueue send processing sv)))
        <= List.length (eventQueue sv))%nat /\
     svc_store (snd (processQueue send processing sv)) = svc_store sv).
Proof.
  split.
  - intros Hopt. unfold processQueue. cbn [orb].
    destruct (eventQueue sv) eqn:Eq.
    + destruct sv as [st q]. cbn in Eq |- *. subst q. reflexivity.
    + destruct (getTelemetrySettings (svc_store sv)) as [ts|]; [|reflexivity].
      rewrite Hopt. reflexivity.
  - intros processing. unfold processQueue.
    destruct (processing || match eventQueue sv with [] => true | _ => false end).
    { cbn. split; [tauto|split; [lia|reflexivity]]. }
    destruct (getTelemetrySettings (svc_store sv)) as [ts|].
    + destruct (isOptedIn ts).
      * pose proof (processLoop_sent send 0 (eventQueue sv) (eventQueue sv)) as [H1 H2].
        destruct (processLoop send 0 (eventQueue sv) (eventQueue sv)) as [sent q].
        cbn in H1, H2 |- *. auto.
      * cbn. split; [tauto|split; [lia|reflexivity]].
    + cbn. split; [tauto|split; [lia|reflexivity]].
Qed.

(** When every send succeeds, [processQueue] for an opted-in user sends
    exactly the queued events still under the retry limit, in queue
    order, and leaves the queue empty. *)
Theorem processQueue_all_succeed (send : nat -> TelemetryEvent -> bool) (sv : Service)
  (ts : TelemetrySettings) :
  (forall j e, send j e = true) ->
  getTelemetrySettings (svc_store sv) = Some ts -> isOptedIn ts = true ->
  processQueue send false sv
  = (filter (fun e => Z.ltb (orZero (retryCount e)) MAX_RETRY_ATTEMPTS) (eventQueue sv),
     mkService (svc_store sv) []).
Proof.
  intros Hs Hg Ho. unfold processQueue. cbn [orb].
  destruct (eventQueue sv) as [|e0 q0] eqn:Eq.
  { destruct sv as [st q]. cbn in Eq |- *. subst q. reflexivity. }
  rewrite Hg, Ho, <- Eq.
  pose proof (processLoop_all_succeed send 0 (eventQueue sv) (eventQueue sv) Hs) as [H1 H2].
  destruct (processLoop send 0 (eventQueue sv) (eventQueue sv)) as [sent q].
  cbn in H1, H2. subst sent. f_equal. f_equal.
  destruct q as [|x q]; [reflexivity|].
  exfalso. destruct (H2 x (or_introl eq_refl)) as [Hx Hn]. exact (Hn x Hx eq_refl).
Qed.

Lemma processQueue_all_succeed_witness :
  processQueue (fun _ _ => true) false activationQueued
  = (filter (fun e => Z.ltb (orZero (retryCount e)) MAX_RETRY_ATTEMPTS)
            (eventQueue activationQueued),
     mkService (svc_store activationQueued) []).
Proof.
  apply (processQueue_all_succeed _ _
           (mkTelemetrySettings true (Some "anon_0_k3j5h2l9x") true 0 None false (toISOString 0))).
  - reflexivity.
  - reflexivity.
  - reflexivity.
Defined.

(** ** Further properties of the session lock and the PIN provider *)

Lemma zdigit_isDigit (z : Z) : isDigit (ascii_of_nat (48 + Z.to_nat (z mod 10))) = true
  /\ charCode (ascii_of_nat (48 + Z.to_nat (z mod 10))) - 48 = z mod 10.
Proof.
  assert (H : 0 <= z mod 10 < 10) by (apply Z.mod_pos_bound; lia).
  unfold isDigit, charCode. rewrite nat_ascii_embedding by lia.
  split; [apply andb_true_iff; split; apply Z.leb_le|]; lia.
Qed.

Lemma parseDigits_zdigits (f : nat) (z : Z) (acc : string) (v : jsint) :
  (0 < f)%nat -> 0 <= z < 10 ^ Z.of_nat f ->
  exists k, 0 <= k /\
    parseDigits (zdigits f z acc) v = parseDigits acc (Some (orZero v * 10 ^ k + z)).
Proof.
  revert z acc v. induction f as [|f IH]; intros z acc v Hf Hz.
  - lia.
  - cbn [zdigits]. destruct (zdigit_isDigit z) as [Hd Hc].
    destruct (Z.ltb z 10) eqn:Hlt.
    + exists 1. split; [lia|]. cbn [parseDigits]. rewrite Hd, Hc. apply Z.ltb_lt in Hlt.
      rewrite Z.mod_small by lia. reflexivity.
    + apply Z.ltb_ge in Hlt.
      destruct (IH (z / 10) (String (ascii_of_nat (48 + Z.to_nat (z mod 10))) acc) v)
        as [k [Hk0 Hk]].
      { destruct f as [|f]; [cbn in Hz; lia|lia]. }
      { split; [divlia|]. rewrite Nat2Z.inj_succ, Z.pow_succ_r in Hz by lia.
        apply Z.div_lt_upper_bound; lia. }
      exists (k + 1). split; [lia|]. rewrite Hk. cbn [parseDigits]. rewrite Hd, Hc. cbn [orZero].
      f_equal. f_equal. rewrite Z.pow_add_r by lia. divlia.
Qed.

Lemma parseInt_digit_start (c : ascii) (r : string) :
  isDigit c = true -> parseInt (String c r) = parseDigits (String c r) None.
Proof.
  intros H. destruct c as [[] [] [] [] [] [] [] []]; cbn in H; try discriminate; reflexivity.
Qed.

Lemma zdigits_digit_start (f : nat) (z : Z) (acc : string) :
  exists c r, zdigits (S f) z acc = String c r /\ isDigit c = true.
Proof.
  revert z acc. induction f as [|f IH]; intros z acc; cbn [zdigits].
  - destruct (Z.ltb z 10); do 2 eexists; split; try reflexivity; apply zdigit_isDigit.
  - destruct (Z.ltb z 10).
    + do 2 eexists; split; [reflexivity|apply zdigit_isDigit].
    + apply IH.
Qed.

Lemma parseInt_numberToString (z : Z) :
  - 10 ^ 64 < z < 10 ^ 64 -> parseInt (numberToString z) = Some z.
Proof.
  intros Hz. unfold numberToString.
  destruct (Z.ltb z 0) eqn:Hn.
  - apply Z.ltb_lt in Hn.
    destruct (parseDigits_zdigits 64 (- z) "" None) as [k [_ Hk]];
      [lia| change (10 ^ Z.of_nat 64) with (10 ^ 64); lia|].
    change (parseInt ("-" ++ zdigits 64 (- z) ""))
      with (option_map Z.opp (parseDigits (zdigits 64 (- z) "") None)).
    rewrite Hk. cbn [parseDigits option_map orZero]. f_equal; lia.
  - apply Z.ltb_ge in Hn.
    destruct (parseDigits_zdigits 64 z "" None) as [k [_ Hk]];
      [lia| change (10 ^ Z.of_nat 64) with (10 ^ 64); lia|].
    destruct (zdigits_digit_start 63 z "") as [c [r [Hcr Hc]]].
    rewrite Hcr in Hk |- *. rewrite parseInt_digit_start by exact Hc. rewrite Hk. 
    cbn [parseDigits orZero]. f_equal; lia.
Qed.

Lemma getItem_setItem_same (k v : string) (l : LocalStorage) : getItem k (setItem k v l) = Some v.
Proof.
  unfold getItem in *. induction l as [|[k' v'] l IH]; cbn -[String.eqb]; [rewrite String.eqb_refl; reflexivity|].
  destruct (String.eqb k' k) eqn:E; cbn -[String.eqb]; [rewrite String.eqb_refl; reflexivity|].
  rewrite E. exact IH.
Qed.

Lemma getItem_setItem_other (k k' v : string) (l : LocalStorage) :
  k' <> k -> getItem k' (setItem k v l) = getItem k' l.
Proof.
  intros Hne. unfold getItem in *. induction l as [|[k0 v0] l IH]; cbn -[String.eqb].
  - apply String.eqb_neq in Hne. rewrite (String.eqb_sym k k'), Hne. reflexivity.
  - destruct (String.eqb k0 k) eqn:E; cbn -[String.eqb].
    + apply String.eqb_eq in E. subst k0. apply String.eqb_neq in Hne.
      rewrite (String.eqb_sym k k'), Hne. reflexivity.
    + destruct (String.eqb k0 k'); [reflexivity|exact IH].
Qed.

Lemma getItem_removeItem_same (k : string) (l : LocalStorage) : getItem k (removeItem k l) = None.
Proof.
  unfold getItem in *. induction l as [|[k' v'] l IH]; cbn -[String.eqb]; [reflexivity|].
  destruct (String.eqb k' k) eqn:E; cbn -[String.eqb]; [exact IH|]. rewrite E. exact IH.
Qed.

Lemma getItem_removeItem_other (k k' : string) (l : LocalStorage) :
  k' <> k -> getItem k' (removeItem k l) = getItem k' l.
Proof.
  intros Hne. unfold getItem in *. induction l as [|[k0 v0] l IH]; cbn -[String.eqb]; [reflexivity|].
  destruct (String.eqb k0 k) eqn:E; cbn -[String.eqb].
  - apply String.eqb_eq in E. subst k0. apply String.eqb_neq in Hne.
    rewrite (String.eqb_sym k k'), Hne. exact IH.
  - destruct (String.eqb k0 k'); [reflexivity|exact IH].
Qed.

(** After [unlockSession] at [t] the session is not marked locked, and
    [shouldLock] at a later time [t'] holds exactly when more than the
    timeout has passed since [t]; after [lockSession] the session is
    marked locked and [shouldLock] holds at any time. *)
Theorem session_lock_unlock (t t' m : Z) (l : LocalStorage) :
  - 10 ^ 64 < t < 10 ^ 64 ->
  sessionUtils.isLocked (sessionUtils.unlockSession t l) = false /\
  sessionUtils.shouldLock t' m (sessionUtils.unlockSession t l) = Z.ltb (m * 60000) (t' - t) /\
  sessionUtils.isLocked (sessionUtils.lockSession l) = true /\
  sessionUtils.shouldLock t' m (sessionUtils.lockSession l) = true.
Proof.
  intros Ht. unfold sessionUtils.unlockSession, sessionUtils.updateLastActivity,
    sessionUtils.lockSession, sessionUtils.isLocked, sessionUtils.shouldLock.
  split; [|split; [|split]].
  - rewrite getItem_setItem_other by discriminate. rewrite getItem_removeItem_same. reflexivity.
  - rewrite getItem_setItem_same.
    assert (Hn : truthy (Some (numberToString t)) = true).
    { unfold numberToString. destruct (Z.ltb t 0); [reflexivity|].
      destruct (zdigits_digit_start 63 t "") as [c [r [-> _]]]. reflexivity. }
    rewrite Hn. cbn [negb]. rewrite parseInt_numberToString by exact Ht.
    f_equal. lia.
  - rewrite getItem_setItem_same. reflexivity.
  - rewrite getItem_setItem_other by discriminate. rewrite getItem_removeItem_same. reflexivity.
Qed.

Lemma clearPinData_getItem (l : LocalStorage) (k : string) :
  getItem k (sessionUtils.clearPinData l)
  = if existsb (String.eqb k) ["nvj_lastActivity"; "nvj_sessionLocked"; "nvj_pinAttempts";
                               "nvj_pinLockoutEnd"]
    then None else getItem k l.
Proof.
  unfold sessionUtils.clearPinData. cbn [existsb].
  destruct (String.eqb k "nvj_lastActivity") eqn:E1.
  { apply String.eqb_eq in E1. subst k.
    rewrite !getItem_removeItem_other by discriminate. apply getItem_removeItem_same. }
  destruct (String.eqb k "nvj_sessionLocked") eqn:E2.
  { apply String.eqb_eq in E2. subst k.
    rewrite !getItem_removeItem_other by discriminate. apply getItem_removeItem_same. }
  destruct (String.eqb k "nvj_pinAttempts") eqn:E3.
  { apply String.eqb_eq in E3. subst k.
    rewrite getItem_removeItem_other by discriminate. apply getItem_removeItem_same. }
  destruct (String.eqb k "nvj_pinLockoutEnd") eqn:E4.
  { apply String.eqb_eq in E4. subst k. apply getItem_removeItem_same. }
  apply String.eqb_neq in E1, E2, E3, E4. cbn [orb].
  rewrite !getItem_removeItem_other by assumption. reflexivity.
Qed.

(** [clearPinData] removes the four session and PIN keys and keeps every
    other [localStorage] entry. *)
Theorem clearPinData_keys (l : LocalStorage) (k : string) :
  getItem k (sessionUtils.clearPinData l)
  = if existsb (String.eqb k) ["nvj_lastActivity"; "nvj_sessionLocked"; "nvj_pinAttempts";
                               "nvj_pinLockoutEnd"]
    then None else getItem k l.
Proof. apply clearPinData_getItem. Qed.

Lemma arrayBufferToBase64_nonempty (bytes : list byte) :
  bytes <> [] -> String.eqb (arrayBufferToBase64 bytes) "" = false.
Proof.
  intros H. unfold arrayBufferToBase64, btoa. rewrite list_ascii_of_string_of_list_ascii.
  destruct bytes as [|b [|b2 [|b3 r]]]; [contradiction| | |]; cbn [map btoaL];
    unfold enc1, enc2, enc3; reflexivity.
Qed.

Lemma numberToString_truthy (z : Z) : String.eqb (numberToString z) "" = false.
Proof.
  unfold numberToString. destruct (Z.ltb z 0); [reflexivity|].
  destruct (zdigits_digit_start 63 z "") as [c [r [-> _]]]. reflexivity.
Qed.

Lemma verifyPin_failed (kdf : KDF) (now : Z) (pin : string) (ps : PinProvider.PinState)
  (hd : PinHashData) (k : Z) :
  PinProvider.isTemporaryLocked ps = false -> isValidPin pin = true ->
  PinProvider.configured (PinProvider.settings ps) = Some hd ->
  cryptoVerifyPin kdf pin hd = false -> PinProvider.attemptCount ps = Some k ->
  let ps' := snd (PinProvider.verifyPin kdf now pin ps) in
  PinProvider.r_success (fst (PinProvider.verifyPin kdf now pin ps)) = false /\
  PinProvider.settings ps' = PinProvider.settings ps /\ PinProvider.db ps' = PinProvider.db ps /\
  PinProvider.isLocked ps' = PinProvider.isLocked ps /\
  PinProvider.attemptCount ps' = Some (k + 1) /\
  if Z.leb PinProvider.MAX_ATTEMPTS (k + 1) then
    PinProvider.isTemporaryLocked ps' = true /\
    PinProvider.lockoutEndTime ps' = Some (now + PinProvider.LOCKOUT_DURATION) /\
    PinProvider.ls ps' = setItem "nvj_pinLockoutEnd" (numberToString (now + PinProvider.LOCKOUT_DURATION))
                           (setItem "nvj_pinAttempts" (numberToString (k + 1)) (PinProvider.ls ps))
  else
    PinProvider.isTemporaryLocked ps' = false /\
    PinProvider.lockoutEndTime ps' = PinProvider.lockoutEndTime ps /\
    PinProvider.ls ps' = setItem "nvj_pinAttempts" (numberToString (k + 1)) (PinProvider.ls ps).
Proof.
  intros Ht Hv Hc Hw Ha. unfold PinProvider.verifyPin.
  rewrite Ht, Hv, Hc, Hw, Ha. cbn [negb PinProvider.jsAdd1 option_map jsNumberToString].
  destruct (Z.leb PinProvider.MAX_ATTEMPTS (k + 1)); cbn; repeat split; auto.
Qed.

(** A wrong PIN (of valid format, with a PIN configured and no lockout in
    force) is counted: the attempt count goes from [k] to [k + 1] and is
    stored under [nvj_pinAttempts]; the attempt that reaches
    [MAX_ATTEMPTS] starts a lockout of [LOCKOUT_DURATION] from now, stored
    under [nvj_pinLockoutEnd], and while it lasts every PIN, even the
    right one, is rejected without any change of state. *)
Theorem verifyPin_counts_failures (kdf : KDF) (now : Z) (pin : string)
  (ps : PinProvider.PinState) (hd : PinHashData) (k : Z) :
  PinProvider.isTemporaryLocked ps = false -> isValidPin pin = true ->
  PinProvider.configured (PinProvider.settings ps) = Some hd ->
  cryptoVerifyPin kdf pin hd = false -> PinProvider.attemptCount ps = Some k ->
  let ps' := snd (PinProvider.verifyPin kdf now pin ps) in
  PinProvider.r_success (fst (PinProvider.verifyPin kdf now pin ps)) = false /\
  PinProvider.attemptCount ps' = Some (k + 1) /\
  getItem "nvj_pinAttempts" (PinProvider.ls ps') = Some (numberToString (k + 1)) /\
  PinProvider.settings ps' = PinProvider.settings ps /\
  (PinProvider.isTemporaryLocked ps' = true <-> PinProvider.MAX_ATTEMPTS <= k + 1) /\
  (PinProvider.MAX_ATTEMPTS <= k + 1 ->
     PinProvider.lockoutEndTime ps' = Some (now + PinProvider.LOCKOUT_DURATION) /\
     getItem "nvj_pinLockoutEnd" (PinProvider.ls ps')
       = Some (numberToString (now + PinProvider.LOCKOUT_DURATION)) /\
     forall t pin',
       PinProvider.verifyPin kdf t pin' ps'
       = (PinProvider.fail "Access temporarily locked due to too many failed attempts", ps')).
Proof.
  intros Ht Hv Hc Hw Ha ps'.
  destruct (verifyPin_failed kdf now pin ps hd k Ht Hv Hc Hw Ha) as (Hr & Hs & _ & _ & Hk & Hl).
  fold ps' in Hs, Hk, Hl. split; [exact Hr|]. split; [exact Hk|].
  destruct (Z.leb PinProvider.MAX_ATTEMPTS (k + 1)) eqn:E.
  - apply Z.leb_le in E. destruct Hl as (Htl & He & Hls).
    split; [rewrite Hls, getItem_setItem_other by discriminate; apply getItem_setItem_same|].
    split; [exact Hs|]. split; [split; [intros _; exact E|intros _; exact Htl]|].
    intros _. split; [exact He|].
    split; [rewrite Hls; apply getItem_setItem_same|].
    intros t pin'. unfold PinProvider.verifyPin at 1. rewrite Htl. reflexivity.
  - apply Z.leb_gt in E. destruct Hl as (Htl & _ & Hls).
    split; [rewrite Hls; apply getItem_setItem_same|].
    split; [exact Hs|]. split; [split; [rewrite Htl; discriminate|lia]|lia].
Qed.

(** The lockout survives a reload: after the attempt that starts a
    lockout at [now], a freshly mounted provider (same settings, database
    and [localStorage]) initialised at any [t] before the lockout ends is
    locked until the same end time with [MAX_ATTEMPTS] attempts used, and
    rejects every PIN; initialised at or after the end, it is unlocked and
    both keys are gone. *)
Theorem lockout_survives_reload (kdf : KDF) (now t : Z) (pin : string)
  (ps : PinProvider.PinState) (hd : PinHashData) :
  PinProvider.isTemporaryLocked ps = false -> isValidPin pin = true ->
  PinProvider.configured (PinProvider.settings ps) = Some hd ->
  cryptoVerifyPin kdf pin hd = false -> PinProvider.attemptCount ps = Some 4 ->
  0 <= now < 10 ^ 60 ->
  let ps' := snd (PinProvider.verifyPin kdf now pin ps) in
  let re := PinProvider.initializePinState t
              (PinProvider.fresh (PinProvider.settings ps') (PinProvider.db ps') (PinProvider.ls ps')) in
  (t < now + PinProvider.LOCKOUT_DURATION ->
     PinProvider.isTemporaryLocked re = true /\
     PinProvider.lockoutEndTime re = Some (now + PinProvider.LOCKOUT_DURATION) /\
     PinProvider.attemptCount re = Some PinProvider.MAX_ATTEMPTS /\
     forall t' pin', PinProvider.r_success (fst (PinProvider.verifyPin kdf t' pin' re)) = false) /\
  (now + PinProvider.LOCKOUT_DURATION <= t ->
     PinProvider.isTemporaryLocked re = false /\ PinProvider.attemptCount re = Some 0 /\
     getItem "nvj_pinLockoutEnd" (PinProvider.ls re) = None /\
     getItem "nvj_pinAttempts" (PinProvider.ls re) = None).
Proof.
  intros Ht Hv Hc Hw Ha Hn ps' re.
  destruct (verifyPin_failed kdf now pin ps hd 4 Ht Hv Hc Hw Ha) as (_ & _ & _ & _ & _ & Hl).
  fold ps' in Hl. cbn [Z.leb Z.compare PinProvider.MAX_ATTEMPTS Z.add] in Hl.
  change (4 + 1) with 5 in Hl. destruct Hl as (_ & _ & Hls).
  assert (Hlo : getItem "nvj_pinLockoutEnd" (PinProvider.ls ps')
                = Some (numberToString (now + PinProvider.LOCKOUT_DURATION))).
  { rewrite Hls. apply getItem_setItem_same. }
  assert (Hat : getItem "nvj_pinAttempts" (PinProvider.ls ps') = Some "5").
  { rewrite Hls, getItem_setItem_other by discriminate. apply getItem_setItem_same. }
  assert (Hp : parseInt (numberToString (now + PinProvider.LOCKOUT_DURATION))
               = Some (now + PinProvider.LOCKOUT_DURATION)).
  { apply parseInt_numberToString. unfold PinProvider.LOCKOUT_DURATION. lia. }
  subst re. unfold PinProvider.initializePinState, PinProvider.fresh.
  cbn [PinProvider.ls PinProvider.settings PinProvider.db PinProvider.isLocked
       PinProvider.attemptCount PinProvider.isTemporaryLocked PinProvider.lockoutEndTime].
  assert (Htr : truthy (Some (numberToString (now + PinProvider.LOCKOUT_DURATION))) = true).
  { unfold truthy. rewrite numberToString_truthy. reflexivity. }
  rewrite Hlo, Htr, Hp. split; intros Htt.
  - apply Z.ltb_lt in Htt. rewrite Htt.
    cbn [PinProvider.ls PinProvider.settings PinProvider.db PinProvider.isLocked
         PinProvider.attemptCount PinProvider.isTemporaryLocked PinProvider.lockoutEndTime].
    rewrite Hat. cbn. split; [reflexivity|]. split; [reflexivity|]. split; [reflexivity|].
    intros t' pin'. reflexivity.
  - apply Z.ltb_ge in Htt. destruct (Z.ltb t _) eqn:E; [apply Z.ltb_lt in E; lia|].
    cbn [PinProvider.ls PinProvider.settings PinProvider.db PinProvider.isLocked
         PinProvider.attemptCount PinProvider.isTemporaryLocked PinProvider.lockoutEndTime].
    rewrite getItem_removeItem_same. cbn [truthy negb PinProvider.ls PinProvider.isTemporaryLocked
         PinProvider.attemptCount].
    split; [reflexivity|]. split; [reflexivity|].
    split; [rewrite getItem_removeItem_other by discriminate; apply getItem_removeItem_same|].
    apply getItem_removeItem_same.
Qed.

Lemma cryptoVerifyPin_hashPin (kdf : KDF) (salt : list byte) (pin : string) :
  cryptoVerifyPin kdf pin (hashPin kdf salt pin) = true.
Proof.
  unfold cryptoVerifyPin, verifyPin, hashPin. cbn [hd_salt hd_iterations hd_hash].
  rewrite base64_round_trip. apply constantTimeEquals_spec. reflexivity.
Qed.

(** After a successful [setupPin], the PIN is enabled, the view is
    unlocked, the settings are saved to the database, and [verifyPin] with
    the same PIN succeeds (at any later time, with no lockout in force);
    this needs the drawn salt and the derived key to be non-empty, as the
    16 and 32 bytes of the code are. *)
Theorem setupPin_then_verifyPin (kdf : KDF) (salt : list byte) (now now' : Z) (pin : string)
  (ps : PinProvider.PinState) :
  isValidPin pin = true -> PinProvider.settings ps <> None -> salt <> [] ->
  kdf (textEncode pin) salt 100000 <> [] -> PinProvider.isTemporaryLocked ps = false ->
  let ps1 := snd (PinProvider.setupPin kdf salt now pin ps) in
  PinProvider.r_success (fst (PinProvider.setupPin kdf salt now pin ps)) = true /\
  PinProvider.isPinEnabled ps1 = true /\ PinProvider.lockedView ps1 = false /\
  st_settings (PinProvider.db ps1) = PinProvider.settings ps1 /\
  PinProvider.r_success (fst (PinProvider.verifyPin kdf now' pin ps1)) = true /\
  PinProvider.attemptCount (snd (PinProvider.verifyPin kdf now' pin ps1)) = Some 0.
Proof.
  intros Hv Hs Hsalt Hk Ht ps1.
  destruct (PinProvider.settings ps) as [s|] eqn:Es; [|congruence].
  assert (E1 : ps1 = PinProvider.mkPinState
                       (Some (PinProvider.withPin s (hashPin kdf salt pin)))
                       (setSettings (PinProvider.withPin s (hashPin kdf salt pin)) (PinProvider.db ps))
                       false (PinProvider.attemptCount ps) (PinProvider.isTemporaryLocked ps)
                       (PinProvider.lockoutEndTime ps)
                       (sessionUtils.unlockSession now (PinProvider.ls ps))).
  { subst ps1. unfold PinProvider.setupPin. rewrite Hv, Es. reflexivity. }
  assert (Hh : String.eqb (hd_hash (hashPin kdf salt pin)) "" = false)
    by (apply arrayBufferToBase64_nonempty; exact Hk).
  assert (Hsa : String.eqb (hd_salt (hashPin kdf salt pin)) "" = false)
    by (apply arrayBufferToBase64_nonempty; exact Hsalt).
  assert (Hc : PinProvider.configured (PinProvider.settings ps1) = Some (hashPin kdf salt pin)).
  { rewrite E1. unfold PinProvider.configured, PinProvider.withPin.
    cbn [PinProvider.settings pinHash pinSalt pinIterations]. rewrite Hh, Hsa. reflexivity. }
  split; [unfold PinProvider.setupPin; rewrite Hv, Es; reflexivity|].
  split.
  { rewrite E1. unfold PinProvider.isPinEnabled, PinProvider.withPin, truthy.
    cbn [PinProvider.settings pinHash pinSalt pinIterations]. rewrite Hh, Hsa. reflexivity. }
  split; [rewrite E1; reflexivity|].
  split; [rewrite E1; reflexivity|].
  unfold PinProvider.verifyPin.
  replace (PinProvider.isTemporaryLocked ps1) with false by (rewrite E1; cbn; congruence).
  rewrite Hv, Hc, cryptoVerifyPin_hashPin. split; reflexivity.
Qed.

(** The lockout timer leaves the state alone until the end time; from the
    end time on it lifts the lockout, resets the count, removes both keys,
    and the right PIN is accepted again. *)
Theorem lockoutTick_ends_lockout (kdf : KDF) (now t : Z) (pin : string)
  (ps : PinProvider.PinState) (e : Z) (hd : PinHashData) :
  PinProvider.isTemporaryLocked ps = true -> PinProvider.lockoutEndTime ps = Some e -> e <> 0 ->
  (now < e -> PinProvider.lockoutTick now ps = ps) /\
  (e <= now ->
     let ps' := PinProvider.lockoutTick now ps in
     PinProvider.isTemporaryLocked ps' = false /\ PinProvider.attemptCount ps' = Some 0 /\
     PinProvider.lockoutEndTime ps' = None /\
     getItem "nvj_pinLockoutEnd" (PinProvider.ls ps') = None /\
     getItem "nvj_pinAttempts" (PinProvider.ls ps') = None /\
     (isValidPin pin = true -> PinProvider.configured (PinProvider.settings ps) = Some hd ->
      cryptoVerifyPin kdf pin hd = true ->
      PinProvider.r_success (fst (PinProvider.verifyPin kdf t pin ps')) = true)).
Proof.
  intros Ht He He0. unfold PinProvider.lockoutTick. rewrite Ht, He.
  apply Z.eqb_neq in He0. rewrite He0. split.
  - intros Hlt. destruct (Z.leb (e - now) 0) eqn:E; [apply Z.leb_le in E; lia|reflexivity].
  - intros Hle. destruct (Z.leb (e - now) 0) eqn:E; [|apply Z.leb_gt in E; lia].
    cbn [PinProvider.isTemporaryLocked PinProvider.attemptCount PinProvider.lockoutEndTime
         PinProvider.ls PinProvider.settings].
    split; [reflexivity|]. split; [reflexivity|]. split; [reflexivity|].
    split; [rewrite getItem_removeItem_other by discriminate; apply getItem_removeItem_same|].
    split; [apply getItem_removeItem_same|].
    intros Hv Hc Hw. unfold PinProvider.verifyPin.
    cbn [PinProvider.isTemporaryLocked PinProvider.settings]. rewrite Hv, Hc, Hw. reflexivity.
Qed.

(** [disablePin] with the right PIN removes the PIN from the settings and
    the database and clears the four session and PIN keys; with a wrong
    PIN it fails and leaves the PIN, the settings and the database as they
    were. *)
Theorem disablePin_behaviour (kdf : KDF) (now : Z) (pin : string) (ps : PinProvider.PinState)
  (s : Settings) (hd : PinHashData) :
  PinProvider.settings ps = Some s -> PinProvider.configured (PinProvider.settings ps) = Some hd ->
  PinProvider.isTemporaryLocked ps = false -> isValidPin pin = true ->
  let res := PinProvider.disablePin kdf now pin ps in
  (cryptoVerifyPin kdf pin hd = true ->
     PinProvider.r_success (fst res) = true /\ PinProvider.isPinEnabled (snd res) = false /\
     st_settings (PinProvider.db (snd res)) = Some (PinProvider.withoutPin s) /\
     forall k, In k ["nvj_lastActivity"; "nvj_sessionLocked"; "nvj_pinAttempts";
                     "nvj_pinLockoutEnd"] -> getItem k (PinProvider.ls (snd res)) = None) /\
  (cryptoVerifyPin kdf pin hd = false ->
     PinProvider.r_success (fst res) = false /\
     PinProvider.settings (snd res) = PinProvider.settings ps /\
     PinProvider.isPinEnabled (snd res) = PinProvider.isPinEnabled ps /\
     PinProvider.db (snd res) = PinProvider.db ps).
Proof.
  intros Hs Hc Ht Hv res. subst res. split.
  - intros Hw. unfold PinProvider.disablePin, PinProvider.verifyPin.
    rewrite Ht, Hv, Hc, Hw. cbn [negb PinProvider.r_success PinProvider.ok]. rewrite Hs.
    cbn [fst snd negb PinProvider.r_success PinProvider.ok PinProvider.isPinEnabled
         PinProvider.settings PinProvider.db PinProvider.ls].
    split; [reflexivity|]. split; [reflexivity|]. split; [reflexivity|].
    intros k Hk. rewrite clearPinData_getItem.
    destruct Hk as [<-|[<-|[<-|[<-|[]]]]]; reflexivity.
  - intros Hw. unfold PinProvider.disablePin, PinProvider.verifyPin.
    rewrite Ht, Hv, Hc, Hw. cbn [negb].
    destruct (PinProvider.jsAdd1 (PinProvider.attemptCount ps)) as [n|].
    + destruct (Z.leb PinProvider.MAX_ATTEMPTS n); cbn; repeat split; reflexivity.
    + cbn. repeat split; reflexivity.
Qed.

Lemma session_lock_unlock_witness :
  sessionUtils.isLocked (sessionUtils.unlockSession (now_ms leapDayNoon) []) = false /\
  sessionUtils.shouldLock (now_ms leapDayNoon + 600000) 5 (sessionUtils.unlockSession (now_ms leapDayNoon) [])
    = Z.ltb (5 * 60000) (now_ms leapDayNoon + 600000 - now_ms leapDayNoon) /\
  sessionUtils.isLocked (sessionUtils.lockSession []) = true /\
  sessionUtils.shouldLock (now_ms leapDayNoon + 600000) 5 (sessionUtils.lockSession []) = true.
Proof. apply session_lock_unlock. split; vm_compute; reflexivity. Defined.

Lemma verifyPin_counts_failures_witness :
  let ps' := snd (PinProvider.verifyPin keyThenSalt 1000 "0000" (pinState (Some 4))) in
  PinProvider.r_success (fst (PinProvider.verifyPin keyThenSalt 1000 "0000" (pinState (Some 4)))) = false /\
  PinProvider.attemptCount ps' = Some (4 + 1) /\
  getItem "nvj_pinAttempts" (PinProvider.ls ps') = Some (numberToString (4 + 1)) /\
  PinProvider.settings ps' = PinProvider.settings (pinState (Some 4)) /\
  (PinProvider.isTemporaryLocked ps' = true <-> PinProvider.MAX_ATTEMPTS <= 4 + 1) /\
  (PinProvider.MAX_ATTEMPTS <= 4 + 1 ->
     PinProvider.lockoutEndTime ps' = Some (1000 + PinProvider.LOCKOUT_DURATION) /\
     getItem "nvj_pinLockoutEnd" (PinProvider.ls ps')
       = Some (numberToString (1000 + PinProvider.LOCKOUT_DURATION)) /\
     forall t pin',
       PinProvider.verifyPin keyThenSalt t pin' ps'
       = (PinProvider.fail "Access temporarily locked due to too many failed attempts", ps')).
Proof.
  apply (verifyPin_counts_failures keyThenSalt 1000 "0000" (pinState (Some 4))
           (hashPin keyThenSalt sampleSalt "1234") 4); vm_compute; reflexivity.
Defined.

Lemma lockout_survives_reload_witness :
  let ps' := snd (PinProvider.verifyPin keyThenSalt 1000 "0000" (pinState (Some 4))) in
  let re := PinProvider.initializePinState 2000
              (PinProvider.fresh (PinProvider.settings ps') (PinProvider.db ps') (PinProvider.ls ps')) in
  (2000 < 1000 + PinProvider.LOCKOUT_DURATION ->
     PinProvider.isTemporaryLocked re = true /\
     PinProvider.lockoutEndTime re = Some (1000 + PinProvider.LOCKOUT_DURATION) /\
     PinProvider.attemptCount re = Some PinProvider.MAX_ATTEMPTS /\
     forall t' pin', PinProvider.r_success (fst (PinProvider.verifyPin keyThenSalt t' pin' re)) = false) /\
  (1000 + PinProvider.LOCKOUT_DURATION <= 2000 ->
     PinProvider.isTemporaryLocked re = false /\ PinProvider.attemptCount re = Some 0 /\
     getItem "nvj_pinLockoutEnd" (PinProvider.ls re) = None /\
     getItem "nvj_pinAttempts" (PinProvider.ls re) = None).
Proof.
  apply (lockout_survives_reload keyThenSalt 1000 2000 "0000" (pinState (Some 4))
           (hashPin keyThenSalt sampleSalt "1234")); try (vm_compute; reflexivity).
  split; [lia|vm_compute; reflexivity].
Defined.

Lemma setupPin_then_verifyPin_witness :
  let ps := PinProvider.fresh (Some optedInSettings) (mkStore (Some optedInSettings) [] [] None) [] in
  let ps1 := snd (PinProvider.setupPin keyThenSalt sampleSalt 1000 "1234" ps) in
  PinProvider.r_success (fst (PinProvider.setupPin keyThenSalt sampleSalt 1000 "1234" ps)) = true /\
  PinProvider.isPinEnabled ps1 = true /\ PinProvider.lockedView ps1 = false /\
  st_settings (PinProvider.db ps1) = PinProvider.settings ps1 /\
  PinProvider.r_success (fst (PinProvider.verifyPin keyThenSalt 5000 "1234" ps1)) = true /\
  PinProvider.attemptCount (snd (PinProvider.verifyPin keyThenSalt 5000 "1234" ps1)) = Some 0.
Proof.
  apply setupPin_then_verifyPin.
  - reflexivity.
  - discriminate.
  - discriminate.
  - vm_compute. discriminate.
  - reflexivity.
Defined.

Lemma lockoutTick_ends_lockout_witness :
  let ps := PinProvider.mkPinState (Some pinSettings) (mkStore (Some pinSettings) [] [] None) false
              (Some 5) true (Some 301000) [("nvj_pinAttempts", "5"); ("nvj_pinLockoutEnd", "301000")] in
  (301000 < 301000 -> PinProvider.lockoutTick 301000 ps = ps) /\
  (301000 <= 301000 ->
     let ps' := PinProvider.lockoutTick 301000 ps in
     PinProvider.isTemporaryLocked ps' = false /\ PinProvider.attemptCount ps' = Some 0 /\
     PinProvider.lockoutEndTime ps' = None /\
     getItem "nvj_pinLockoutEnd" (PinProvider.ls ps') = None /\
     getItem "nvj_pinAttempts" (PinProvider.ls ps') = None /\
     (isValidPin "1234" = true ->
      PinProvider.configured (PinProvider.settings ps) = Some (hashPin keyThenSalt sampleSalt "1234") ->
      cryptoVerifyPin keyThenSalt "1234" (hashPin keyThenSalt sampleSalt "1234") = true ->
      PinProvider.r_success (fst (PinProvider.verifyPin keyThenSalt 302000 "1234" ps')) = true)).
Proof.
  apply lockoutTick_ends_lockout.
  - reflexivity.
  - reflexivity.
  - discriminate.
Defined.

Lemma disablePin_behaviour_witness :
  let res := PinProvider.disablePin keyThenSalt 1000 "1234" (pinState (Some 0)) in
  (cryptoVerifyPin keyThenSalt "1234" (hashPin keyThenSalt sampleSalt "1234") = true ->
     PinProvider.r_success (fst res) = true /\ PinProvider.isPinEnabled (snd res) = false /\
     st_settings (PinProvider.db (snd res)) = Some (PinProvider.withoutPin pinSettings) /\
     forall k, In k ["nvj_lastActivity"; "nvj_sessionLocked"; "nvj_pinAttempts";
                     "nvj_pinLockoutEnd"] -> getItem k (PinProvider.ls (snd res)) = None) /\
  (cryptoVerifyPin keyThenSalt "1234" (hashPin keyThenSalt sampleSalt "1234") = false ->
     PinProvider.r_success (fst res) = false /\
     PinProvider.settings (snd res) = PinProvider.settings (pinState (Some 0)) /\
     PinProvider.isPinEnabled (snd res) = PinProvider.isPinEnabled (pinState (Some 0)) /\
     PinProvider.db (snd res) = PinProvider.db (pinState (Some 0))).
Proof.
  apply disablePin_behaviour.
  - reflexivity.
  - vm_compute. reflexivity.
  - reflexivity.
  - reflexivity.
Defined.

(** ** Further properties of storage maintenance and export *)

Lemma getItem_absent (k : string) (ls : LocalStorage) :
  existsb (String.eqb k) (map fst ls) = false -> getItem k ls = None.
Proof.
  unfold getItem. induction ls as [|[k' v'] ls IH]; cbn -[String.eqb]; [reflexivity|].
  intros H. apply orb_false_iff in H as [H1 H2]. rewrite String.eqb_sym, H1. exact (IH H2).
Qed.

Lemma clearStorage_fold (k : string) (ks : list string) (acc : LocalStorage) :
  getItem k (fold_left (fun acc key => if wipedKey key then removeItem key acc else acc) ks acc)
  = if wipedKey k && existsb (String.eqb k) ks then None else getItem k acc.
Proof.
  revert acc. induction ks as [|key ks IH]; intros acc; cbn -[String.eqb wipedKey].
  - rewrite andb_false_r. reflexivity.
  - rewrite IH. destruct (String.eqb k key) eqn:E.
    + apply String.eqb_eq in E. subst key. rewrite orb_true_l, andb_true_r.
      destruct (wipedKey k); [|rewrite andb_false_l]; [|reflexivity].
      rewrite getItem_removeItem_same. destruct (existsb _ _); reflexivity.
    + rewrite orb_false_l. destruct (wipedKey key); [|reflexivity].
      apply String.eqb_neq in E. rewrite getItem_removeItem_other by congruence. reflexivity.
Qed.

Lemma clearStorage_getItem (k : string) (ls : LocalStorage) :
  getItem k (clearStorage ls) = if wipedKey k then None else getItem k ls.
Proof.
  unfold clearStorage. rewrite clearStorage_fold.
  destruct (wipedKey k); [|reflexivity]. cbn.
  destruct (existsb (String.eqb k) (map fst ls)) eqn:E; [reflexivity|].
  apply getItem_absent, E.
Qed.

(** [deleteAllData] with another tab open fails and changes nothing;
    [resetWithWipe] acts as [deleteAllData] with no other tab.  With no
    other tab it succeeds, empties the four tables, removes from both web
    storages exactly the keys starting with [nvj_] or containing [negviz]
    (every other key keeps its value), and keeps exactly the caches whose
    name contains neither [negviz] nor [journal]. *)
Theorem deleteAllData_wipes (b : Browser) (k name : string) :
  deleteAllData true b
    = (PinProvider.fail "Please close all other tabs with this app open before deleting data.", b) /\
  resetWithWipe b = deleteAllData false b /\
  let '(r, b') := deleteAllData false b in
  r = PinProvider.ok /\ b_db b' = mkStore None [] [] None /\
  getItem k (b_local b') = (if wipedKey k then None else getItem k (b_local b)) /\
  getItem k (b_session b') = (if wipedKey k then None else getItem k (b_session b)) /\
  (In name (b_caches b') <->
   In name (b_caches b) /\ includes name "negviz" = false /\ includes name "journal" = false).
Proof.
  split; [reflexivity|]. split; [reflexivity|]. cbn [deleteAllData wipeBrowser b_db b_local b_session b_caches].
  split; [reflexivity|]. split; [reflexivity|].
  split; [apply clearStorage_getItem|]. split; [apply clearStorage_getItem|].
  rewrite filter_In. rewrite negb_true_iff, orb_false_iff. tauto.
Qed.

Lemma filter_perm (f : Entry -> bool) (l l' : list Entry) :
  Permutation l l' -> Permutation (filter f l) (filter f l').
Proof.
  induction 1; cbn.
  - constructor.
  - destruct (f x); [constructor|]; assumption.
  - destruct (f x), (f y); try constructor; reflexivity.
  - etransitivity; eassumption.
Qed.

Lemma insertEntry_perm (e : Entry) (l : list Entry) : Permutation (e :: l) (insertEntry e l).
Proof.
  induction l as [|x l IH]; cbn; [reflexivity|].
  destruct (entryBefore e x); [reflexivity|].
  etransitivity; [apply perm_swap|]. constructor. exact IH.
Qed.

Lemma orderByCreatedAt_perm (es : list Entry) : Permutation es (orderByCreatedAt es).
Proof.
  induction es as [|e es IH]; cbn; [reflexivity|].
  etransitivity; [constructor; exact IH|]. apply insertEntry_perm.
Qed.

Lemma NoDup_app_disjoint {A} (l l' : list A) (x : A) :
  NoDup (l ++ l') -> In x l' -> ~ In x l.
Proof.
  induction l as [|a l IH]; cbn; [tauto|].
  intros H Hx [<-|Hin]; inversion H; subst.
  - apply H2, in_or_app; right; exact Hx.
  - exact (IH H3 Hx Hin).
Qed.

Lemma filter_all {A} (f : A -> bool) (l : list A) :
  (forall x, In x l -> f x = true) -> filter f l = l.
Proof.
  induction l as [|a l IH]; cbn; intros H; [reflexivity|].
  rewrite (H a (or_introl eq_refl)), IH; [reflexivity|]. intros x Hx; apply H; right; exact Hx.
Qed.

Lemma filter_none {A} (f : A -> bool) (l : list A) :
  (forall x, In x l -> f x = false) -> filter f l = [].
Proof.
  induction l as [|a l IH]; cbn; intros H; [reflexivity|].
  rewrite (H a (or_introl eq_refl)), IH; [reflexivity|]. intros x Hx; apply H; right; exact Hx.
Qed.

Lemma existsb_eqb_in (x : string) (l : list string) : existsb (String.eqb x) l = true <-> In x l.
Proof.
  rewrite existsb_exists. split.
  - intros (y & Hy & E). apply String.eqb_eq in E. subst; exact Hy.
  - intros H. exists x. split; [exact H|apply String.eqb_refl].
Qed.

Lemma bulkDelete_prefix (es : list Entry) (m : nat) :
  NoDup (map e_id es) ->
  Permutation (bulkDelete (map e_id (firstn m (orderByCreatedAt es))) es)
              (skipn m (orderByCreatedAt es)).
Proof.
  intros Hnd. set (L := orderByCreatedAt es).
  assert (HP : Permutation es L) by apply orderByCreatedAt_perm.
  assert (HndL : NoDup (map e_id L)) by (eapply Permutation_NoDup; [apply Permutation_map, HP|exact Hnd]).
  unfold bulkDelete. etransitivity; [apply filter_perm, HP|].
  rewrite <- (firstn_skipn m L) at 1. rewrite filter_app.
  rewrite <- (firstn_skipn m L), map_app in HndL.
  rewrite filter_none, filter_all; [reflexivity| |].
  - intros x Hx. apply negb_true_iff, not_true_iff_false. rewrite existsb_eqb_in.
    eapply NoDup_app_disjoint; [exact HndL|]. apply in_map, Hx.
  - intros x Hx. apply negb_false_iff, existsb_eqb_in, in_map, Hx.
Qed.

(** [handleStorageQuotaExceeded], on an entries table with distinct ids:
    with at most 1000 entries it reports failure and changes nothing; with
    [n > 1000] it reports that [n - 1000] entries were cleaned up and keeps
    exactly the last 1000 entries in [created_at] order, leaving the other
    tables alone. *)
Theorem handleStorageQuotaExceeded_keeps_newest (st : Store) :
  NoDup (map e_id (st_entries st)) ->
  let n := List.length (st_entries st) in
  let r := handleStorageQuotaExceeded st in
  ((n <= 1000)%nat ->
     r = ((false, "Storage quota exceeded. Please free up space on your device."), st)) /\
  ((1000 < n)%nat ->
     fst r = (true, "Cleaned up " ++ numberToString (Z.of_nat (n - 1000))
                      ++ " old entries to free storage space.") /\
     Permutation (st_entries (snd r)) (skipn (n - 1000) (orderByCreatedAt (st_entries st))) /\
     List.length (st_entries (snd r)) = 1000%nat /\
     st_settings (snd r) = st_settings st /\ st_prompts (snd r) = st_prompts st /\
     st_streak (snd r) = st_streak st).
Proof.
  intros Hnd n r. subst r. unfold handleStorageQuotaExceeded. fold n. split.
  - intros Hle. replace (Z.ltb 1000 (Z.of_nat n)) with false by (symmetry; apply Z.ltb_ge; lia).
    reflexivity.
  - intros Hlt. replace (Z.ltb 1000 (Z.of_nat n)) with true by (symmetry; apply Z.ltb_lt; lia).
    assert (HL : List.length (orderByCreatedAt (st_entries st)) = n)
      by (symmetry; apply Permutation_length, orderByCreatedAt_perm).
    replace (Z.to_nat (Z.of_nat n - 1000)) with (n - 1000)%nat by lia.
    rewrite length_firstn, HL.
    replace (Nat.min (n - 1000) n) with (n - 1000)%nat by lia.
    replace (Nat.ltb 0 (n - 1000)) with true by (symmetry; apply Nat.ltb_lt; lia).
    cbn [fst snd st_entries st_settings st_prompts st_streak].
    assert (HP := bulkDelete_prefix (st_entries st) (n - 1000) Hnd).
    split; [reflexivity|]. split; [exact HP|]. split; [|tauto].
    rewrite (Permutation_length HP), length_skipn, HL. lia.
Qed.

(** After one [validateAndRecoverStreakData] whose read succeeds, a second
    one (at any clock) reports the summary valid and not recovered, returns
    the summary the first one returned and changes nothing. *)
Theorem validateAndRecoverStreakData_stable (c c' : Clock) (st : Store) :
  let '(r, st1) := validateAndRecoverStreakData true c st in
  validateAndRecoverStreakData true c' st1 = (mkValidateResult true false (vstreak r), st1).
Proof.
  unfold validateAndRecoverStreakData at 1. cbn [negb].
  destruct (st_streak st) as [s|] eqn:Hs.
  - destruct (Z.ltb (current_streak s) 0 || Z.ltb (longest_streak s) 0
              || Z.ltb (longest_streak s) (current_streak s)) eqn:Hbad.
    + unfold validateAndRecoverStreakData. cbn -[Z.max Z.min].
      replace (Z.ltb (Z.max 0 (Z.min (current_streak s) (longest_streak s))) 0) with false
        by (symmetry; apply Z.ltb_ge; lia).
      replace (Z.ltb (Z.max 0 (Z.max (longest_streak s) (current_streak s))) 0) with false
        by (symmetry; apply Z.ltb_ge; lia).
      replace (Z.ltb (Z.max 0 (Z.max (longest_streak s) (current_streak s)))
                     (Z.max 0 (Z.min (current_streak s) (longest_streak s)))) with false
        by (symmetry; apply Z.ltb_ge; lia).
      reflexivity.
    + unfold validateAndRecoverStreakData. cbn [negb]. rewrite Hs, Hbad. reflexivity.
  - unfold initializeStreakSummary. rewrite Hs. reflexivity.
Qed.

Lemma entryBefore_total (x y : Entry) : entryBefore x y = false -> entryBefore y x = true.
Proof.
  unfold entryBefore. rewrite (String.compare_antisym (created_at y)), (String.compare_antisym (e_id y)).
  destruct (String.compare (created_at x) (created_at y)); cbn; try discriminate; [|reflexivity].
  destruct (String.compare (e_id x) (e_id y)); cbn; congruence.
Qed.

Lemma HdRel_insertEntry (a e : Entry) (l : list Entry) :
  HdRel (fun x y => entryBefore x y = true) a l -> entryBefore a e = true ->
  HdRel (fun x y => entryBefore x y = true) a (insertEntry e l).
Proof.
  intros H He. destruct l as [|b l]; cbn.
  - constructor; exact He.
  - destruct (entryBefore e b); constructor; [exact He|]. inversion H; assumption.
Qed.

Lemma insertEntry_sorted (e : Entry) (l : list Entry) :
  Sorted (fun x y => entryBefore x y = true) l ->
  Sorted (fun x y => entryBefore x y = true) (insertEntry e l).
Proof.
  induction l as [|a l IH]; intros H; cbn.
  - repeat constructor.
  - destruct (entryBefore e a) eqn:E.
    + constructor; [exact H|constructor; exact E].
    + apply Sorted_inv in H as [Hl Hh]. constructor; [exact (IH Hl)|].
      apply HdRel_insertEntry; [exact Hh|apply entryBefore_total, E].
Qed.

Lemma orderByCreatedAt_sorted (es : list Entry) :
  Sorted (fun x y => entryBefore x y = true) (orderByCreatedAt es).
Proof.
  induction es as [|e es IH]; cbn; [constructor|]. apply insertEntry_sorted, IH.
Qed.

(** The [entries] of the export document are the exports of every entry
    of the table, each once, in [created_at] order (ties by id), and
    [meta.entryCount] is their number. *)
Theorem exportObject_entries (c : Clock) (st : Store) :
  exists l rest,
    exportObject c st = JObj (("meta", metadataToJS (exportMetadata c st))
                              :: ("entries", JArr (map entryExport l)) :: rest) /\
    Permutation l (st_entries st) /\
    Sorted (fun x y => entryBefore x y = true) l /\
    m_entryCount (exportMetadata c st) = Z.of_nat (List.length l).
Proof.
  eexists (orderByCreatedAt (st_entries st)), _. split; [reflexivity|].
  split; [symmetry; apply orderByCreatedAt_perm|]. split; [apply orderByCreatedAt_sorted|].
  cbn [exportMetadata m_entryCount]. f_equal. apply Permutation_length, orderByCreatedAt_perm.
Qed.

Lemma splitT0_app (a b : string) : splitT0 a = a -> splitT0 (a ++ b) = a ++ splitT0 b.
Proof.
  induction a as [|ch a IH]; cbn; [reflexivity|].
  destruct (Ascii.eqb ch "T"); [discriminate|]. intros H. injection H as H. rewrite IH; [reflexivity|exact H].
Qed.

Lemma splitT0_zdigits (f : nat) (z : Z) (acc : string) :
  splitT0 acc = acc -> splitT0 (zdigits f z acc) = zdigits f z acc.
Proof.
  revert z acc. induction f as [|f IH]; intros z acc H; cbn -[Z.modulo Z.div]; [exact H|].
  assert (Hc : splitT0 (String (ascii_of_nat (48 + Z.to_nat (z mod 10))) acc)
               = String (ascii_of_nat (48 + Z.to_nat (z mod 10))) acc).
  { assert (Hk : (Z.to_nat (z mod 10) < 10)%nat) by (pose proof (Z.mod_pos_bound z 10); lia).
    cbn [splitT0]. rewrite H.
    destruct (Z.to_nat (z mod 10)) as [|[|[|[|[|[|[|[|[|[|k]]]]]]]]]]; try lia; reflexivity. }
  destruct (Z.ltb z 10); [exact Hc|]. apply IH, Hc.
Qed.

Lemma splitT0_numberToString (z : Z) : splitT0 (numberToString z) = numberToString z.
Proof.
  unfold numberToString. destruct (Z.ltb z 0).
  - cbn [String.append splitT0]. rewrite splitT0_zdigits; reflexivity.
  - apply splitT0_zdigits; reflexivity.
Qed.

Lemma splitT0_padStart2 (s : string) : splitT0 s = s -> splitT0 (padStart2 s) = padStart2 s.
Proof.
  intros H. unfold padStart2. destruct (String.length s) as [|[|]]; [reflexivity| |exact H].
  cbn [String.append splitT0]. rewrite H. reflexivity.
Qed.

Lemma splitT0_fmtDay (d : Z) : splitT0 (fmtDay d) = fmtDay d.
Proof.
  unfold fmtDay, fmtYMD. destruct (civilFromDays d) as [[y m] dd].
  rewrite splitT0_app by apply splitT0_numberToString. f_equal.
  cbn [String.append splitT0 Ascii.eqb Bool.eqb]. f_equal.
  rewrite splitT0_app by (apply splitT0_padStart2, splitT0_numberToString). f_equal.
  cbn [String.append splitT0 Ascii.eqb Bool.eqb]. f_equal.
  apply splitT0_padStart2, splitT0_numberToString.
Qed.

Lemma string_app_nil (s : string) : s ++ "" = s.
Proof. induction s as [|ch s IH]; cbn; [reflexivity|rewrite IH; reflexivity]. Qed.

(** The export file name carries the UTC calendar date of the instant:
    [negative-journal-export-YYYY-MM-DD.json]. *)
Theorem generateExportFilename_utc_date (now : Z) :
  generateExportFilename now = "negative-journal-export-" ++ fmtDay (utcDayOf now) ++ ".json".
Proof.
  unfold generateExportFilename, toISOString. rewrite splitT0_app by apply splitT0_fmtDay.
  cbn [splitT0 Ascii.eqb Bool.eqb]. fold (utcDayOf now). rewrite string_app_nil. reflexivity.
Qed.

Lemma handleStorageQuotaExceeded_keeps_newest_witness :
  NoDup (map e_id (st_entries afterTwoDays)) /\
  (let n := List.length (st_entries afterTwoDays) in
   let r := handleStorageQuotaExceeded afterTwoDays in
   ((n <= 1000)%nat ->
      r = ((false, "Storage quota exceeded. Please free up space on your device."), afterTwoDays)) /\
   ((1000 < n)%nat ->
      fst r = (true, "Cleaned up " ++ numberToString (Z.of_nat (n - 1000))
                       ++ " old entries to free storage space.") /\
      Permutation (st_entries (snd r)) (skipn (n - 1000) (orderByCreatedAt (st_entries afterTwoDays))) /\
      List.length (st_entries (snd r)) = 1000%nat /\
      st_settings (snd r) = st_settings afterTwoDays /\ st_prompts (snd r) = st_prompts afterTwoDays /\
      st_streak (snd r) = st_streak afterTwoDays)).
Proof.
  assert (H : NoDup (map e_id (st_entries afterTwoDays))).
  { vm_compute. repeat constructor; cbn; intros Hin; repeat destruct Hin as [Hin|Hin]; try discriminate; contradiction. }
  split; [exact H|]. apply handleStorageQuotaExceeded_keeps_newest, H.
Defined.

(** ** Further properties of the crypto utilities *)

Lemma string_length_of_list_ascii (l : list ascii) :
  String.length (string_of_list_ascii l) = List.length l.
Proof. induction l as [|a l IH]; cbn; [reflexivity|rewrite IH; reflexivity]. Qed.

Lemma btoaL_length (l : list ascii) :
  List.length (btoaL l) = (4 * ((List.length l + 2) / 3))%nat.
Proof.
  remember (List.length l) as n eqn:Hn. revert l Hn.
  induction n as [n IH] using (well_founded_induction lt_wf). intros l Hn.
  destruct l as [|a [|b [|c rest]]]; cbn in Hn; subst n; try reflexivity.
  cbn [btoaL]. rewrite length_app. rewrite (IH (List.length rest)) by (reflexivity || lia).
  cbn [enc3 List.length].
  replace (S (S (S (List.length rest))) + 2)%nat with (List.length rest + 2 + 1 * 3)%nat by lia.
  rewrite Nat.div_add by lia. lia.
Qed.

(** [base64ToArrayBuffer] decodes what [arrayBufferToBase64] encodes, and
    the encoding of [n] bytes has [4 * ceil(n / 3)] characters. *)
Theorem arrayBufferToBase64_round_trip (bytes : list byte) :
  base64ToArrayBuffer (arrayBufferToBase64 bytes) = Some bytes /\
  String.length (arrayBufferToBase64 bytes) = (4 * ((List.length bytes + 2) / 3))%nat.
Proof.
  split; [apply base64_round_trip|].
  unfold arrayBufferToBase64, btoa. rewrite string_length_of_list_ascii, btoaL_length.
  rewrite list_ascii_of_string_of_list_ascii, length_map. reflexivity.
Qed.

(** [constantTimeEquals] is string equality, and strings of different
    lengths are unequal at once. *)
Theorem constantTimeEquals_iff_equal (a b : string) :
  (constantTimeEquals a b = true <-> a = b) /\
  (String.length a <> String.length b -> constantTimeEquals a b = false).
Proof.
  split; [apply constantTimeEquals_spec|].
  intros H. unfold constantTimeEquals. apply Nat.eqb_neq in H. rewrite H. reflexivity.
Qed.






